(* ===== verification/_CoqProject ===== *)
-Q . S2P
Prelude.v
PyStr.v
SmartSplit.v
Ranking.v
VectorIndex.v
Tfidf.v
KnowledgeBase.v
Migrations.v
Http.v
Serializers.v
RagService.v
Views.v
Admin.v
ApiDocs.v
Scenario.v
