(* ===== verification/Prelude.v ===== *)
(** * A verification development for the FAQ assistant (src/faq_backend/api)

    The program is a Django REST service.  A question goes through
    [AskView.post] (views.py), which validates it ([AskRequestSerializer],
    serializers.py), asks the process-wide [rag_service] (services.py) and
    logs the exchange in a [QueryLog] row (models.py).  [rag_service]
    owns a [SimpleVectorIndex]: a scikit-learn [TfidfVectorizer], the
    term-weight [matrix] of the active knowledge-base entries and the
    [ids] of its rows.  [RAGService.ask] ranks the rows by cosine
    similarity ([np.argsort(sims)[::-1][:top_k]]), resolves the ids to
    entries and composes a templated answer from at most three of them.
    [SearchView.get] is a keyword search in the database;
    [KnowledgeBaseViewSet] is the CRUD API, with a staff-only action that
    rebuilds the index ([refresh_index]); writes do not rebuild it.

    ** Files, in checking order (each opens with its own header)
    - [Prelude]: Python's exceptions as the result type [pyres] (an
      error monad on stdpp's classes), slicing [l[:k]] ([py_take]) and
      indexing ([py_index]) with negative indices, the hint database
      [py], and list lemmas ([StronglySorted]) the components share.
    - [PyStr]: [str] as a list of code points: [strip], [join], [in],
      [str(int)] and [int(str)].
    - [SmartSplit] (Django's [django.utils.text], which the admin's
      search calls): [smart_split], the [finditer] scan of its regular
      expression, and [unescape_string_literal].
    - [Ranking] (services.py 35): numpy's [argsort] on short arrays (a
      stable insertion sort), reversed and sliced, and the reference
      ranking (score descending, ties toward the later row) it equals.
    - [VectorIndex] (services.py 11-36): the class [Vectorizer] (what the
      index uses of scikit-learn, [fit_transform] being a method that
      changes the vectorizer in place) with its laws, and
      [SimpleVectorIndex] ([build], [search]) over any lawful instance.
    - [Tfidf]: the instance of [TfidfVectorizer(stop_words="english")]
      (tokenizer, the 318 English stop words, sorted vocabulary, smooth
      idf, l2 normalisation, cosine); [ln] and [sqrt] are the parameters
      [RealOps], and [approx_reals] is a lawful rational choice used to
      evaluate examples.
    - [KnowledgeBase] (models.py): the rows of [KnowledgeBaseEntry] and
      [QueryLog], their [__str__], and the two queries of the service.
    - [Migrations] (models.py, migrations/0001_initial.py): the model
      declarations and the migration's [CreateModel] and [AddIndex]
      operations as Django project states, and the comparison
      [makemigrations] makes between them.
    - [Http] (serializers.py, DRF): requests, responses, and Django REST
      framework's validation (absent, [null] and blank values, partial
      updates, [CharField] with its validators) with its 400 bodies.
    - [Serializers] (serializers.py 5-9, models.py 5-22):
      [KnowledgeBaseEntrySerializer], the fields [ModelSerializer]
      derives from the model, [create] and [update] as the viewset
      calls them, and the representation of a row.
    - [RagService] (services.py 39-102): the service, state passed
      explicitly: the table it reads and the clock readings of [ask] are
      arguments; [_load_index] and [refresh_index] return the service
      they leave with their outcome, since a build that raises has
      already changed the vectorizer.
    - [Views] (views.py, urls.py): the [world] (both tables, their id
      counters, [rag_service]), every view as a function of the world
      and the request, and the requests the process serves as a step
      relation [world_reachable] (and one request, [step]).
    - [Admin] (admin.py): the change lists of both [ModelAdmin]s:
      sidebar filter, the search term split by [smart_split] and
      searched over [search_fields], [ordering] with the [-pk] Django
      appends, and the columns.
    - [ApiDocs] (the [swagger_auto_schema] decorators of views.py,
      serializers.py 17-27): the documented operations and response
      shapes, and for each decorated view exactly when its answer is one
      the decorator documents.
    - [Scenario] (tests.py): the fixture of [setUp], the tests replayed
      as the test runner runs them, and one witness per theorem with
      hypotheses, each evaluated by [vm_compute].

    ** What is proved
    - Ranking: the slice [argsort(sims)[::-1][:top_k]] is the prefix of
      the reference ranking, every kept row beats every dropped one, ties
      come later row first, and a negative [top_k] keeps [n - |top_k|]
      rows.
    - Index: [build] establishes the snapshot invariant (one fit, one id
      per row); on it [search] refines the abstract top-k, never raises,
      and is sorted; an empty index answers [].
    - TF-IDF: a fit raises exactly when every document is stop words;
      a score is positive exactly when a vocabulary term is shared;
      unseen terms score 0.
    - Service: [ask] never raises while the last build returned; a failed
      refresh leaves an unfitted vectorizer beside the old matrix, after
      which every [ask] raises [NotFittedError]; every reachable service
      keeps one id per row (rule induction); [retrieve] keeps the rank
      order and also deactivated entries; there is no similarity cutoff;
      the latency is negative when the clock steps back.
    - Views: the world invariant (tables under their keys, log ids never
      reused) by rule induction over requests; [AskView.post] logs every
      valid question exactly once, with a 500 exactly when [ask] raised;
      only staff requests change the table or the index; the search
      results; [int(limit)] is parsed before the empty-query check;
      passwords are trimmed before [authenticate]; every write goes
      through the serializer, so the constraints of its fields hold of
      every row a request leaves; a PUT of a row's own representation
      changes only [updated_at]; every [QueryLog] row has the type the
      views write (status ok with integer ids, or error with none);
      from any reachable world, even after a failed refresh, one staff
      refresh makes every question answered once the table has an entry
      outside the stop words (liveness).
    - Schema: the migration's state is the models' exactly when
      [DEFAULT_AUTO_FIELD] is [BigAutoField]; three columns are indexed
      twice.
    - Admin: with [is_active=True] and one search word, the entry change
      list holds what [SearchView.get] matches plus the entries found by
      [source]; a quoted phrase is searched whole, blanks included; both
      change lists are strictly sorted, so their order is determined.
      The [finditer] loop of [smart_split] terminates, and splitting
      words joined by spaces gives them back.
    - API description: the answers of the decorated views match their
      [swagger_auto_schema] exactly on the success path; the 400, 401,
      403 and 500 answers are undocumented, and a search without the
      parameter declared required is answered 200.

    ** Bounds and approximations
    - numpy's default [argsort] sorts arrays of at most 16 elements by
      insertion sort, which is stable; the model uses that sort for every
      length.  For longer arrays (introsort), and on CPUs where numpy
      1.25 and later dispatch [argsort] of doubles to its AVX-512 sort,
      the order of equal scores is unspecified.  The theorem on the
      order of equal scores ([search_ties_reversed]) therefore assumes
      an index of at most 16 rows; on the AVX-512 sort it still only
      describes the model.
    - Scores are rationals, not doubles, and [ln], [sqrt] are parameters:
      the theorems hold for any [RealOps] with [RealOpsLaws].  The
      witnesses use [approx_reals] (truncated series, six-digit square
      roots), so the scores they show are close to, not equal to, the
      program's.
    - [int(str)] accepts ASCII digits only (CPython also accepts other
      Unicode decimal digits); its 4300-digit limit is modelled.
    - The ORM's order of rows with equal [updated_at] is unspecified; the
      model fixes one (a stable merge sort in key order).  [icontains] is
      SQLite's [LIKE], which folds ASCII letters only.

    - [smart_split]'s scan has fuel: each step consumes a match (never
      empty) or one blank, so [length s + 1] steps are enough, and
      [finditer_terminates] shows any larger fuel gives the same bits.
      The regular expression is modelled for Django's pattern only (no
      general regex engine); its backtracking is deterministic, as the
      header of [SmartSplit] explains.

    ** Not modelled
    HTTP routing itself and authentication classes (a denied request is
    401 without credentials, 403 otherwise), the JWT tokens and
    [authenticate] (parameters), form-encoded bodies of writes (JSON
    bodies are modelled), pagination, the prose of the swagger
    decorators, the admin's [tags] filter (an exact lookup of a
    query-string value on a JSON column, whose meaning depends on the
    Django version) and the SQL the migration emits (its project state
    is modelled), and
    concurrency: requests are served one at a time, so the non-atomic
    field-by-field update of the index is not interleaved with searches. *)

From stdpp Require Export base list strings sets.
From Stdlib Require Export ZArith QArith Sorted.
From Stdlib Require Import Lqa.

Declare Scope py_scope.
Delimit Scope py_scope with py.

Create HintDb py.
Create Rewrite HintDb py.

(** ** Exceptions and the result type *)

(** The Python exceptions that the modelled code can raise. *)
Inductive exc : Type :=
  | IndexError
  | ValueError (msg : string)
  | NotFittedError.

#[export] Instance exc_eq_dec : EqDecision exc.
Proof. solve_decision. Defined.

(** A computation that returns an [A] or raises a Python exception. *)
Inductive pyres (A : Type) : Type :=
  | Ok (a : A)
  | Raise (e : exc).
Arguments Ok {A} a.
Arguments Raise {A} e.

#[export] Instance pyres_ret : MRet pyres := fun A a => Ok a.
#[export] Instance pyres_bind : MBind pyres :=
  fun A B k c => match c with Ok a => k a | Raise e => Raise e end.
#[export] Instance pyres_fmap : FMap pyres :=
  fun A B f c => match c with Ok a => Ok (f a) | Raise e => Raise e end.

Lemma pyres_bind_Ok {A B} (a : A) (k : A -> pyres B) : (Ok a ≫= k) = k a.
Proof. reflexivity. Qed.

Lemma pyres_bind_Raise {A B} e (k : A -> pyres B) : (Raise e ≫= k) = Raise e.
Proof. reflexivity. Qed.

Lemma pyres_bind_eq_Ok {A B} (c : pyres A) (k : A -> pyres B) b :
  (c ≫= k) = Ok b <-> exists a, c = Ok a /\ k a = Ok b.
Proof.
  destruct c as [a|e]; simpl; split.
  - intros H. by exists a.
  - by intros (a' & [= ->] & H).
  - discriminate.
  - by intros (a' & ? & _).
Qed.

#[export] Hint Rewrite @pyres_bind_Ok @pyres_bind_Raise : py.

(** [mapM] over [pyres]: the first exception of the list is raised. *)
Lemma mapM_pyres_Ok {A B} (f : A -> pyres B) (l : list A) (r : list B) :
  mapM f l = Ok r <-> Forall2 (fun a b => f a = Ok b) l r.
Proof.
  revert r; induction l as [|a l IH]; intros r; simpl.
  - split; [intros [= <-]; constructor | intros H; inv H; done].
  - rewrite pyres_bind_eq_Ok. setoid_rewrite pyres_bind_eq_Ok. split.
    + intros (b & Hb & r' & Hr' & Hret). injection Hret as <-.
      constructor; [done|]. by apply IH.
    + intros H. inv H. eexists; split; [done|].
      eexists; split; [by apply IH|done].
Qed.

Lemma mapM_pyres_total {A B} (f : A -> pyres B) (l : list A) :
  (forall a, a ∈ l -> exists b, f a = Ok b) ->
  exists r, mapM f l = Ok r.
Proof.
  induction l as [|a l IH]; intros H; simpl; [by eexists|].
  destruct (H a) as [b Hb]; [by left|]. rewrite Hb. simpl.
  destruct IH as [r Hr]; [intros x Hx; apply H; by right|].
  rewrite Hr. by eexists.
Qed.

(** ** Rationals *)

Lemma Qle_bool_false (x y : Q) : Qle_bool x y = false <-> (y < x)%Q.
Proof.
  rewrite <- not_true_iff_false, Qle_bool_iff.
  split; [apply Qnot_le_lt|apply Qlt_not_le].
Qed.

#[export] Instance Q_inhabited : Inhabited Q := populate 0%Q.

Lemma Qdiv_pos_iff (x n : Q) : (0 < n)%Q -> (0 < x / n)%Q <-> (0 < x)%Q.
Proof.
  intros Hn. unfold Qdiv. pose proof (Qinv_lt_0_compat n Hn). split; intros H1.
  - destruct (Qlt_le_dec 0 x); [done|]. exfalso. nra.
  - by apply Qmult_lt_0_compat.
Qed.

(** ** Python sequence slicing and indexing *)

(** The stop position of the slice [l[:k]]: a negative [k] counts from
    the end, and the result is clamped to [0 .. len l]. *)
Definition py_stop {A} (k : Z) (l : list A) : nat :=
  if decide (0 <= k)%Z then Z.to_nat k else (length l - Z.to_nat (- k))%nat.

(** [l[:k]], for a list or a one-dimensional numpy array. *)
Definition py_take {A} (k : Z) (l : list A) : list A := take (py_stop k l) l.

(** [l[i]]: a negative index counts from the end; out of range raises
    [IndexError]. *)
Definition py_index {A} (l : list A) (i : Z) : pyres A :=
  let j := if decide (i < 0)%Z then (Z.of_nat (length l) + i)%Z else i in
  if decide (0 <= j)%Z then
    match l !! Z.to_nat j with Some x => Ok x | None => Raise IndexError end
  else Raise IndexError.

Lemma py_take_nonneg {A} (k : Z) (l : list A) :
  (0 <= k)%Z -> py_take k l = take (Z.to_nat k) l.
Proof. intros Hk. unfold py_take, py_stop. by rewrite decide_True. Qed.

Lemma py_take_neg {A} (k : Z) (l : list A) :
  (k < 0)%Z -> py_take k l = take (length l - Z.to_nat (- k)) l.
Proof. intros Hk. unfold py_take, py_stop. rewrite decide_False; [done|lia]. Qed.

Lemma length_py_take {A} (k : Z) (l : list A) :
  length (py_take k l) =
    if decide (0 <= k)%Z then Nat.min (Z.to_nat k) (length l)
    else (length l - Z.to_nat (- k))%nat.
Proof. unfold py_take, py_stop. rewrite length_take. case_decide; lia. Qed.

Lemma py_take_sublist {A} (k : Z) (l : list A) : py_take k l `prefix_of` l.
Proof. apply prefix_take. Qed.

Lemma py_index_nat {A} (l : list A) (i : nat) (x : A) :
  l !! i = Some x -> py_index l (Z.of_nat i) = Ok x.
Proof.
  intros Hi. unfold py_index. cbv zeta.
  rewrite (decide_False _ _ (proj1 (Z.le_ngt _ _) (Nat2Z.is_nonneg i))).
  rewrite decide_True by lia. by rewrite Nat2Z.id, Hi.
Qed.

Lemma py_index_ge {A} (l : list A) (i : nat) :
  (length l <= i)%nat -> py_index l (Z.of_nat i) = Raise IndexError.
Proof.
  intros Hi. unfold py_index. cbv zeta.
  rewrite (decide_False _ _ (proj1 (Z.le_ngt _ _) (Nat2Z.is_nonneg i))).
  rewrite decide_True by lia. rewrite Nat2Z.id. by rewrite lookup_ge_None_2.
Qed.

Lemma py_index_total {A} `{Inhabited A} (l : list A) (i : nat) :
  (i < length l)%nat -> py_index l (Z.of_nat i) = Ok (l !!! i).
Proof.
  intros Hi. apply py_index_nat. apply list_lookup_lookup_total_lt. done.
Qed.

Lemma mapM_pyres_fmap {A B} (f : A -> pyres B) (g : A -> B) (l : list A) :
  (forall a, a ∈ l -> f a = Ok (g a)) -> mapM f l = Ok (g <$> l).
Proof.
  intros Hf. apply mapM_pyres_Ok. apply Forall2_fmap_r, Forall_Forall2_diag.
  rewrite Forall_forall. done.
Qed.

(** ** Options over lists *)

Lemma omap_all_Some {A B} (f : A -> option B) (l : list A) :
  (forall a, a ∈ l -> is_Some (f a)) -> length (omap f l) = length l.
Proof.
  induction l as [|a l IH]; intros Hl; simpl; [done|].
  destruct (Hl a) as [b Hb]; [set_solver|]. rewrite Hb. simpl.
  f_equal. apply IH. intros x Hx. apply Hl. set_solver.
Qed.

Lemma omap_fmap_inv {A B} (f : A -> option B) (g : B -> A) (l : list A) :
  (forall a b, f a = Some b -> g b = a) ->
  g <$> omap f l = filter (fun a => is_Some (f a)) l.
Proof.
  intros Hfg. induction l as [|a l IH]; simpl; [done|].
  rewrite filter_cons. destruct (f a) as [b|] eqn:Hf; simpl.
  - rewrite (Hfg _ _ Hf). f_equal. exact IH.
  - exact IH.
Qed.

(** In an association list with distinct keys, a key has one value. *)
Lemma NoDup_fst_unique {A B} (l : list (A * B)) k v v' :
  NoDup l.*1 -> (k, v) ∈ l -> (k, v') ∈ l -> v = v'.
Proof.
  induction l as [|[k0 v0] l IH]; simpl; [set_solver|].
  rewrite NoDup_cons. intros [Hk Hl]. rewrite !elem_of_cons.
  intros [H1|H1] [H2|H2]; simplify_eq; [done| | |by apply IH].
  - destruct Hk. apply list_elem_of_fmap. by exists (k0, v').
  - destruct Hk. apply list_elem_of_fmap. by exists (k0, v).
Qed.

#[export] Hint Rewrite @py_take_nonneg using lia : py.
#[export] Hint Resolve py_index_nat py_take_sublist : py.


(** ** Strongly sorted lists

    [StronglySorted R l]: every element is [R]-related to every later one.
    The ranking of the index is a strongly sorted list of rows. *)

Section StronglySortedFacts.
Context {A : Type} (R : A -> A -> Prop).

Lemma StronglySorted_app_iff (l1 l2 : list A) :
  StronglySorted R (l1 ++ l2) <->
  StronglySorted R l1 /\ StronglySorted R l2 /\
  (forall x y, x ∈ l1 -> y ∈ l2 -> R x y).
Proof.
  induction l1 as [|x l1 IH]; simpl.
  - split; [intros H; repeat split; [constructor|done|set_solver]|naive_solver].
  - split.
    + intros H. apply StronglySorted_inv in H as [H1 H2].
      apply IH in H1 as (Hl1 & Hl2 & Hx).
      rewrite Forall_app in H2. destruct H2 as [Hf1 Hf2].
      split; [by constructor|]. split; [done|].
      intros a b Ha Hb. apply elem_of_cons in Ha as [->|Ha]; [|by apply Hx].
      rewrite Forall_forall in Hf2. by apply Hf2.
    + intros ((Hs & Hf)%StronglySorted_inv & Hl2 & Hx). constructor.
      * apply IH. split; [done|]. split; [done|]. intros a b ? ?. apply Hx; set_solver.
      * rewrite Forall_app, !Forall_forall. split; [by apply Forall_forall|].
        intros b Hb. apply Hx; set_solver.
Qed.

Lemma StronglySorted_take (n : nat) (l : list A) :
  StronglySorted R l -> StronglySorted R (take n l).
Proof.
  rewrite <- (take_drop n l) at 1. rewrite StronglySorted_app_iff. naive_solver.
Qed.

Lemma StronglySorted_take_drop (n : nat) (l : list A) x y :
  StronglySorted R l -> x ∈ take n l -> y ∈ drop n l -> R x y.
Proof.
  rewrite <- (take_drop n l) at 1. rewrite StronglySorted_app_iff. naive_solver.
Qed.

Lemma StronglySorted_impl_in (R' : A -> A -> Prop) (l : list A) :
  (forall x y, x ∈ l -> y ∈ l -> R x y -> R' x y) ->
  StronglySorted R l -> StronglySorted R' l.
Proof.
  induction l as [|x l IH]; intros HR Hs; [constructor|].
  apply StronglySorted_inv in Hs as [Hs Hf]. constructor.
  - apply IH; [|done]. intros a b ? ?. apply HR; set_solver.
  - rewrite Forall_forall in Hf |- *. intros y Hy. apply HR; [set_solver..|]. by apply Hf.
Qed.
Lemma StronglySorted_lookup (l : list A) (p q : nat) x y :
  StronglySorted R l -> (p < q)%nat -> l !! p = Some x -> l !! q = Some y -> R x y.
Proof.
  intros Hs. revert p q. induction Hs as [|z l Hs IH Hf]; intros p q Hpq Hp Hq; [done|].
  destruct p as [|p], q as [|q]; simpl in *; [lia| |lia|].
  - injection Hp as <-. rewrite Forall_forall in Hf. apply Hf.
    by eapply list_elem_of_lookup_2.
  - eapply (IH p q); [lia|done|done].
Qed.

Lemma StronglySorted_filter (P : A -> Prop) `{!forall x, Decision (P x)} (l : list A) :
  StronglySorted R l -> StronglySorted R (filter P l).
Proof.
  induction 1 as [|x l _ IH Hx]; [constructor|]. rewrite filter_cons.
  case_decide; [|exact IH]. constructor; [exact IH|].
  apply Forall_forall. intros y [_ Hy]%list_elem_of_filter.
  rewrite Forall_forall in Hx. by apply Hx.
Qed.

End StronglySortedFacts.

Lemma StronglySorted_fmap {A B} (R : B -> B -> Prop) (f : A -> B) (l : list A) :
  StronglySorted R (f <$> l) <-> StronglySorted (fun a b => R (f a) (f b)) l.
Proof.
  induction l as [|x l IH]; simpl; [split; constructor|].
  split; intros [Hs Hf]%StronglySorted_inv; constructor; try by apply IH.
  - rewrite Forall_fmap in Hf. done.
  - rewrite Forall_fmap. done.
Qed.

Lemma StronglySorted_rev {A} (R : A -> A -> Prop) (l : list A) :
  StronglySorted R l -> StronglySorted (flip R) (reverse l).
Proof.
    induction l as [|x l IH]; intros H; [constructor|]. rewrite reverse_cons.
    apply StronglySorted_inv in H as [Hs Hf].
    apply StronglySorted_app_iff. split; [by apply IH|]. split; [repeat constructor|].
    intros a b Ha ->%list_elem_of_singleton. rewrite elem_of_reverse in Ha.
    rewrite Forall_forall in Hf. by apply Hf.
Qed.

(** Two strongly sorted permutations of each other are equal when [R]
  is asymmetric: a sorted list is the only sorted arrangement. *)
Lemma StronglySorted_Permutation_eq {A} (R : A -> A -> Prop) (l1 l2 : list A) :
    (forall x y, R x y -> R y x -> False) ->
    StronglySorted R l1 -> StronglySorted R l2 -> l1 ≡ₚ l2 -> l1 = l2.
Proof.
    intros Hasym. revert l2.
    induction l1 as [|x l1 IH]; intros l2 H1 H2 Hp.
    - symmetry. by apply Permutation_nil.
    - destruct l2 as [|y l2]; [by apply Permutation_sym, Permutation_nil in Hp|].
      apply StronglySorted_inv in H1 as [H1 F1].
      apply StronglySorted_inv in H2 as [H2 F2].
      rewrite Forall_forall in F1, F2.
      assert (x = y) as <-.
      { assert (Hx : x ∈ y :: l2) by (rewrite <- Hp; set_solver).
        assert (Hy : y ∈ x :: l1) by (rewrite Hp; set_solver).
        apply elem_of_cons in Hx as [->|Hx]; [done|].
        apply elem_of_cons in Hy as [->|Hy]; [done|].
        exfalso. eapply Hasym; [apply F1|apply F2]; done. }
      f_equal. apply IH; [done|done|]. by eapply Permutation_cons_inv.
Qed.

(** ** Tactics *)

  (** Split every [pyres] bind in a hypothesis [H : ... = Ok _]. *)
Ltac py_inv H :=
  repeat match type of H with
  | (?c ≫= _) = Ok _ =>
      let a := fresh "a" in let Ha := fresh "Hc" in
      apply pyres_bind_eq_Ok in H as (a & Ha & H)
  end.

(** Decide a closed proposition by evaluating its decision procedure. *)
Ltac by_eval := refine (bool_decide_unpack _ _); vm_compute; reflexivity.
