(* ===== verification/PyStr.v ===== *)
(** * Python strings

    A Python [str] is a sequence of Unicode code points; [len], slicing
    and [strip] count and cut code points, not bytes.  This file models
    the [str] operations the retrieval core uses: [str.strip()] with no
    argument ([strip], after [is_space], the code points for which
    [str.isspace()] holds), [sep.join(parts)] ([py_join]), and ASCII
    literals ([lit]).  Slicing [s[:n]] is [py_take] of the prelude. *)

From S2P Require Import Prelude.
From Stdlib Require Ascii String Decimal Hexadecimal DecimalPos.
#[local] Open Scope nat_scope.

(** A Python [str]: its list of code points. *)
Abbreviation pystr := (list N).

(** An ASCII literal, code point by code point. *)
Definition lit (s : string) : pystr := Ascii.N_of_ascii <$> String.list_ascii_of_string s.

(** ["\n"] *)
Definition NL : pystr := [10%N].

(** The code points [str.isspace()] accepts, which [str.strip()] removes:
    U+0009..U+000D, U+001C..U+001F, U+0020, U+0085, U+00A0, U+1680,
    U+2000..U+200A, U+2028, U+2029, U+202F, U+205F and U+3000. *)
Definition is_space (c : N) : bool :=
  (((9 <=? c) && (c <=? 13)) || ((28 <=? c) && (c <=? 32)) || (c =? 133) ||
   (c =? 160) || (c =? 5760) || ((8192 <=? c) && (c <=? 8202)) ||
   (c =? 8232) || (c =? 8233) || (c =? 8239) || (c =? 8287) || (c =? 12288))%N.

(** [str.lstrip()] *)
Fixpoint lstrip (s : pystr) : pystr :=
  match s with
  | [] => []
  | c :: s' => if is_space c then lstrip s' else s
  end.

(** [str.rstrip()] *)
Definition rstrip (s : pystr) : pystr := reverse (lstrip (reverse s)).

(** [str.strip()] *)
Definition strip (s : pystr) : pystr := rstrip (lstrip s).

(** The case folding of ASCII letters ([A-Z] to [a-z]); every other code
    point is left as it is. *)
Definition ascii_fold (c : N) : N := if ((65 <=? c) && (c <=? 90))%N then (c + 32)%N else c.

(** [sep.join(parts)] *)
Fixpoint py_join (sep : pystr) (parts : list pystr) : pystr :=
  match parts with
  | [] => []
  | [p] => p
  | p :: ps => p ++ sep ++ py_join sep ps
  end.

(** Python's [s in t] on strings: [s] occurs in [t]. *)
Definition str_in (s t : pystr) : Prop := exists a b, t = a ++ s ++ b.

(** The digit characters of a decimal numeral. *)
Fixpoint uint_str (u : Decimal.uint) : pystr :=
  match u with
  | Decimal.Nil => []
  | Decimal.D0 u => 48%N :: uint_str u
  | Decimal.D1 u => 49%N :: uint_str u
  | Decimal.D2 u => 50%N :: uint_str u
  | Decimal.D3 u => 51%N :: uint_str u
  | Decimal.D4 u => 52%N :: uint_str u
  | Decimal.D5 u => 53%N :: uint_str u
  | Decimal.D6 u => 54%N :: uint_str u
  | Decimal.D7 u => 55%N :: uint_str u
  | Decimal.D8 u => 56%N :: uint_str u
  | Decimal.D9 u => 57%N :: uint_str u
  end.

(** [str(z)] of a Python [int]. *)
Definition str_of_Z (z : Z) : pystr :=
  match Z.to_int z with
  | Decimal.Pos u => uint_str u
  | Decimal.Neg u => 45%N :: uint_str u
  end.

(** The digit characters of a hexadecimal numeral, upper case. *)
Fixpoint hex_uint_str (u : Hexadecimal.uint) : pystr :=
  match u with
  | Hexadecimal.Nil => []
  | Hexadecimal.D0 u => 48%N :: hex_uint_str u
  | Hexadecimal.D1 u => 49%N :: hex_uint_str u
  | Hexadecimal.D2 u => 50%N :: hex_uint_str u
  | Hexadecimal.D3 u => 51%N :: hex_uint_str u
  | Hexadecimal.D4 u => 52%N :: hex_uint_str u
  | Hexadecimal.D5 u => 53%N :: hex_uint_str u
  | Hexadecimal.D6 u => 54%N :: hex_uint_str u
  | Hexadecimal.D7 u => 55%N :: hex_uint_str u
  | Hexadecimal.D8 u => 56%N :: hex_uint_str u
  | Hexadecimal.D9 u => 57%N :: hex_uint_str u
  | Hexadecimal.Da u => 65%N :: hex_uint_str u
  | Hexadecimal.Db u => 66%N :: hex_uint_str u
  | Hexadecimal.Dc u => 67%N :: hex_uint_str u
  | Hexadecimal.Dd u => 68%N :: hex_uint_str u
  | Hexadecimal.De u => 69%N :: hex_uint_str u
  | Hexadecimal.Df u => 70%N :: hex_uint_str u
  end.

(** [f"{n:X}"] *)
Definition hex_upper (n : N) : pystr := hex_uint_str (N.to_hex_uint n).

(** [s] is a prefix of [t]. *)
Fixpoint prefixb (s t : pystr) : bool :=
  match s, t with
  | [], _ => true
  | c :: s', d :: t' => (c =? d)%N && prefixb s' t'
  | _ :: _, [] => false
  end.

(** [s in t] on strings, as a test. *)
Fixpoint infixb (s t : pystr) : bool :=
  prefixb s t || match t with [] => false | _ :: t' => infixb s t' end.

(** [int(s)] of a [str] in base 10: surrounding whitespace, an optional
    sign, and ASCII digits with single underscores between digits; at
    most 4300 digits ([sys.get_int_max_str_digits()]).  Anything else
    raises [ValueError]. *)
Definition INT_MAX_STR_DIGITS : nat := 4300.

Definition digit_value (c : N) : option N :=
  if ((48 <=? c) && (c <=? 57))%N then Some (c - 48)%N else None.

(** The value and the number of digits of a digit string; [after_digit]
    says whether the last character read was a digit. *)
Fixpoint parse_digits (s : pystr) (acc : N) (ndigits : nat) (after_digit : bool)
    : option (N * nat) :=
  match s with
  | [] => if after_digit then Some (acc, ndigits) else None
  | c :: s' =>
      if (c =? 95)%N then (if after_digit then parse_digits s' acc ndigits false else None)
      else match digit_value c with
           | Some d => parse_digits s' (acc * 10 + d)%N (S ndigits) true
           | None => None
           end
  end.

Definition py_int_of_str (s : pystr) : pyres Z :=
  let t := strip s in
  let '(neg, body) :=
    match t with
    | 45%N :: r => (true, r)
    | 43%N :: r => (false, r)
    | _ => (false, t)
    end in
  match parse_digits body 0 0 false with
  | None => Raise (ValueError "invalid literal for int() with base 10")
  | Some (n, nd) =>
      if decide (INT_MAX_STR_DIGITS < nd)
      then Raise (ValueError "Exceeds the limit (4300 digits) for integer string conversion")
      else Ok (if neg then (- Z.of_N n)%Z else Z.of_N n)
  end.


(** ** Facts *)

Lemma lstrip_suffix s : lstrip s `suffix_of` s.
Proof.
  induction s as [|c s IH]; simpl; [done|].
  destruct (is_space c); [|done]. by apply suffix_cons_r.
Qed.

Lemma lstrip_head s c s' : lstrip s = c :: s' -> is_space c = false.
Proof.
  induction s as [|d s IH]; simpl; [done|].
  destruct (is_space d) eqn:E; [done|]. by intros [= -> _].
Qed.

Lemma lstrip_idemp s : lstrip (lstrip s) = lstrip s.
Proof.
  destruct (lstrip s) as [|c s'] eqn:E; [done|]. simpl.
  by rewrite (lstrip_head s c s' E).
Qed.

Lemma length_strip s : length (strip s) <= length s.
Proof.
  unfold strip, rstrip. rewrite length_reverse.
  etrans; [apply suffix_length, lstrip_suffix|]. rewrite length_reverse.
  apply suffix_length, lstrip_suffix.
Qed.

Lemma py_join_cons2 sep p q ps :
  py_join sep (p :: q :: ps) = p ++ sep ++ py_join sep (q :: ps).
Proof. reflexivity. Qed.

#[export] Hint Rewrite py_join_cons2 : py.

Lemma prefixb_spec s t : prefixb s t = true <-> exists b, t = s ++ b.
Proof.
  revert t. induction s as [|c s IH]; intros [|d t]; simpl.
  - split; [by exists []|done].
  - split; [by exists (d :: t)|done].
  - split; [done|by intros [b ?]].
  - rewrite andb_true_iff, N.eqb_eq, IH. split.
    + intros [-> [b ->]]. by exists b.
    + intros [b [= -> ->]]. eauto.
Qed.

(** [infixb] decides Python's [s in t]. *)
Lemma infixb_spec s t : infixb s t = true <-> str_in s t.
Proof.
  unfold str_in. induction t as [|d t IH]; simpl; rewrite orb_true_iff, prefixb_spec.
  - split; [intros [[b Hb]|?]; [by exists [], b|done]|].
    intros ([|a0 a] & b & Hab); [left; by exists b|done].
  - rewrite IH. split.
    + intros [[b Hb]|(a & b & ->)]; [by exists [], b|by exists (d :: a), b].
    + intros ([|a0 a] & b & Hab); [left; by exists b|].
      injection Hab as -> ->. right. eauto.
Qed.

Lemma lstrip_nil_iff s : lstrip s = [] <-> Forall (fun c => is_space c = true) s.
Proof.
  induction s as [|c s IH]; simpl; [split; constructor|].
  rewrite Forall_cons. destruct (is_space c); [rewrite IH; tauto|]. split; [done|by intros []].
Qed.

Lemma reverse_nil_iff {A} (l : list A) : reverse l = [] <-> l = [].
Proof. split; [|by intros ->]. intros H. by rewrite <- (reverse_involutive l), H. Qed.

(** [s.strip()] is empty exactly when [s] is whitespace only. *)
Lemma strip_nil_iff s : strip s = [] <-> Forall (fun c => is_space c = true) s.
Proof.
  unfold strip, rstrip. rewrite reverse_nil_iff, lstrip_nil_iff, Forall_reverse.
  split; [|intros H; rewrite (proj2 (lstrip_nil_iff s) H); constructor].
  intros H. destruct (lstrip s) as [|c s'] eqn:E.
  - by apply lstrip_nil_iff.
  - exfalso. apply lstrip_head in E as Hc. inversion H. congruence.
Qed.

Lemma uint_str_head u c s : uint_str u = c :: s -> (48 <= c <= 57)%N.
Proof. destruct u; simpl; intros [= <- _]; lia. Qed.

Lemma is_space_digit c : (48 <= c <= 57)%N -> is_space c = false.
Proof.
  intros Hc. apply not_true_iff_false. unfold is_space.
  rewrite !orb_true_iff, !andb_true_iff, !N.leb_le, !N.eqb_eq. lia.
Qed.

Lemma rstrip_prefix s : rstrip s `prefix_of` s.
Proof.
  unfold rstrip. destruct (lstrip_suffix (reverse s)) as [x Hx].
  exists (reverse x). apply (f_equal reverse) in Hx.
  by rewrite reverse_involutive, reverse_app in Hx.
Qed.

Lemma lstrip_prefix_fixed p s : p `prefix_of` lstrip s -> lstrip p = p.
Proof.
  intros [x Hx]. destruct p as [|c p]; [done|]. simpl.
  by rewrite (lstrip_head s c (p ++ x) Hx).
Qed.

(** [str.strip()] is idempotent. *)
Lemma strip_idemp s : strip (strip s) = strip s.
Proof.
  unfold strip. rewrite (lstrip_prefix_fixed _ s (rstrip_prefix _)).
  unfold rstrip. by rewrite reverse_involutive, lstrip_idemp.
Qed.

(** [str(z)] of an [int] is never blank. *)
Lemma strip_str_of_Z z : strip (str_of_Z z) <> [].
Proof.
  rewrite strip_nil_iff. unfold str_of_Z.
  destruct (Z.to_int z) as [u|u] eqn:E.
  - assert (Hu : uint_str u <> []).
    { destruct z as [|p|p]; simpl in E; try discriminate; injection E as <-; [done|].
      pose proof (DecimalPos.Unsigned.to_uint_nonnil p). by destruct (Pos.to_uint p). }
    destruct (uint_str u) as [|c s] eqn:Eu; [done|].
    apply uint_str_head in Eu. rewrite Forall_cons, is_space_digit by done. by intros [? _].
  - rewrite Forall_cons. by intros [? _].
Qed.
