(* ===== verification/SmartSplit.v ===== *)
(** * Splitting the admin's search term (django.utils.text)

    [ModelAdmin.get_search_results] (admin.py's two [search_fields])
    splits the search box's term with [smart_split] and turns a quoted
    bit back into its phrase with [unescape_string_literal].  Both are
    Django's, modelled from their definitions in [django/utils/text.py]:

    - [smart_split] yields the matches of [smart_split_re.finditer]:
      a run of [P], then one or more times a quoted string [D] or [S]
      followed by a run of [P]; or else [\S+].  [P] is a character that is
      neither blank nor a quote, and [D] and [S] are a string in double
      or single quotes whose characters are another than its quote and
      the backslash, or a backslash and any character but a newline.
      Each alternative and repetition of the expression is
      deterministic (a quoted string ends at its first unescaped quote, a
      run of plain characters cannot be shortened into a quote), so a
      match is computed by one left-to-right scan: [alt1] (a word with at
      least one complete quoted string), else [\S+].  [.] does not match a
      newline, and [\s] is [str.isspace].
    - [finditer] tries a match at each position and moves past it, or one
      position on where there is none; it is written with fuel, and
      [finditer_terminates] shows that [length s + 1] steps suffice and
      more change nothing.
    - [unescape_string_literal] strips the quotes and replaces [\q] and
      [\\] ([str.replace], leftmost first, not overlapping). *)

From S2P Require Import Prelude PyStr.
From Stdlib Require Import NArith.
#[local] Open Scope nat_scope.

Module SmartSplit.

(** The double quote, the single quote and the backslash. *)
Definition DQ : N := 34%N.
Definition SQ : N := 39%N.
Definition BS : N := 92%N.

Definition is_quote (c : N) : bool := (c =? DQ)%N || (c =? SQ)%N.

(** [P]: neither blank nor a quote. *)
Definition is_plain (c : N) : bool := negb (is_space c) && negb (is_quote c).

(** ** One match of [smart_split_re] *)

(** After the first quoted string: [P*] and more quoted strings,
    as many as match; an unterminated quote ends the match before it.
    [quoted_then_run q s] scans the rest of a string opened by [q],
    [(?:[^q\\]|\\.)*q], and goes on with [run_after]. *)
Fixpoint run_after (s : pystr) : pystr * pystr :=
  match s with
  | [] => ([], [])
  | c :: s' =>
      if is_quote c then
        match quoted_then_run c s' with
        | Some (m, t) => (c :: m, t)
        | None => ([], s)
        end
      else if is_space c then ([], s)
      else let '(m, t) := run_after s' in (c :: m, t)
  end
with quoted_then_run (q : N) (s : pystr) : option (pystr * pystr) :=
  match s with
  | [] => None
  | c :: s' =>
      if (c =? q)%N then let '(m, t) := run_after s' in Some (c :: m, t)
      else if (c =? BS)%N then
        match s' with
        | d :: s'' =>
            if (d =? 10)%N then None
            else match quoted_then_run q s'' with
                 | Some (m, t) => Some (c :: d :: m, t)
                 | None => None
                 end
        | [] => None
        end
      else match quoted_then_run q s' with
           | Some (m, t) => Some (c :: m, t)
           | None => None
           end
  end.

(** The first alternative: [P*] and at least one quoted string. *)
Fixpoint alt1 (s : pystr) : option (pystr * pystr) :=
  match s with
  | [] => None
  | c :: s' =>
      if is_quote c then
        match quoted_then_run c s' with
        | Some (m, t) => Some (c :: m, t)
        | None => None
        end
      else if is_space c then None
      else match alt1 s' with
           | Some (m, t) => Some (c :: m, t)
           | None => None
           end
  end.

(** [\S+], greedy. *)
Fixpoint nonspace_run (s : pystr) : pystr * pystr :=
  match s with
  | c :: s' => if is_space c then ([], s) else let '(m, t) := nonspace_run s' in (c :: m, t)
  | [] => ([], [])
  end.

(** [smart_split_re.match(s)]: the match and the text after it. *)
Definition match_at (s : pystr) : option (pystr * pystr) :=
  match alt1 s with
  | Some r => Some r
  | None =>
      match s with
      | c :: _ => if is_space c then None else Some (nonspace_run s)
      | [] => None
      end
  end.

(** ** [finditer] and [smart_split] *)

(** The scan of [finditer]: a match, or one position on. *)
Fixpoint finditer (fuel : nat) (s : pystr) : option (list pystr) :=
  match fuel with
  | O => None
  | S fuel' =>
      match s with
      | [] => Some []
      | _ :: s' =>
          match match_at s with
          | Some (m, t) => cons m <$> finditer fuel' t
          | None => finditer fuel' s'
          end
      end
  end.

(** [list(smart_split(text))] *)
Definition smart_split (s : pystr) : list pystr := from_option id [] (finditer (S (length s)) s).

(** ** [unescape_string_literal] *)

(** [s.replace(a + b, r)] for a two-character needle. *)
Fixpoint replace_pair (a b r : N) (s : pystr) : pystr :=
  match s with
  | x :: ((y :: s'') as s') =>
      if (x =? a)%N && (y =? b)%N then r :: replace_pair a b r s'' else x :: replace_pair a b r s'
  | _ => s
  end.

(** [if not s or s[0] not in QUOTES or s[-1] != s[0]: raise ValueError],
    then [s[1:-1]] with each backslash-quote replaced by the quote, then
    each pair of backslashes by one backslash. *)
Definition unescape_string_literal (s : pystr) : pyres pystr :=
  match s with
  | q :: rest =>
      if is_quote q && bool_decide (last s = Some q) then
        Ok (replace_pair BS BS BS (replace_pair BS q q (removelast rest)))
      else Raise (ValueError "Not a string literal")
  | [] => Raise (ValueError "Not a string literal")
  end.

(** ** Facts *)

Lemma scan_app n :
  forall s, length s < n ->
  (let '(m, t) := run_after s in s = m ++ t) /\
  (forall q m t, quoted_then_run q s = Some (m, t) -> s = m ++ t).
Proof.
  induction n as [|n IH]; intros s Hn; [lia|].
  destruct s as [|c s']; [split; [done|discriminate]|]. simpl in Hn.
  destruct (IH s') as [IHr IHq]; [lia|]. split.
  - simpl. destruct (is_quote c).
    + destruct (quoted_then_run c s') as [[m t]|] eqn:E; [|done]. by rewrite (IHq _ _ _ E).
    + destruct (is_space c); [done|]. destruct (run_after s'). by rewrite IHr.
  - intros q m t. simpl. destruct (c =? q)%N.
    + destruct (run_after s') eqn:E. intros [= <- <-]. rewrite IHr. done.
    + destruct (c =? BS)%N.
      * destruct s' as [|d s'']; [discriminate|]. destruct (d =? 10)%N; [discriminate|].
        simpl in Hn. destruct (IH s'') as [_ IHq']; [lia|].
        destruct (quoted_then_run q s'') as [[m' t']|] eqn:E; [|discriminate].
        intros [= <- <-]. by rewrite (IHq' _ _ _ E).
      * destruct (quoted_then_run q s') as [[m' t']|] eqn:E; [|discriminate].
        intros [= <- <-]. by rewrite (IHq _ _ _ E).
Qed.

Lemma quoted_then_run_app q s m t : quoted_then_run q s = Some (m, t) -> s = m ++ t.
Proof. apply (scan_app (S (length s))). lia. Qed.

Lemma alt1_app s m t : alt1 s = Some (m, t) -> s = m ++ t /\ m <> [].
Proof.
  revert m t. induction s as [|c s IH]; intros m t; simpl; [discriminate|].
  destruct (is_quote c).
  - destruct (quoted_then_run c s) as [[m' t']|] eqn:E; [|discriminate].
    intros [= <- <-]. by rewrite (quoted_then_run_app _ _ _ _ E).
  - destruct (is_space c); [discriminate|].
    destruct (alt1 s) as [[m' t']|] eqn:E; [|discriminate].
    intros [= <- <-]. by rewrite (proj1 (IH _ _ eq_refl)).
Qed.

Lemma nonspace_run_app s : let '(m, t) := nonspace_run s in s = m ++ t.
Proof.
  induction s as [|c s IH]; simpl; [done|].
  destruct (is_space c); [done|]. destruct (nonspace_run s). by rewrite IH.
Qed.

(** A match is a non-empty prefix: [finditer] always moves on. *)
Lemma match_at_app s m t : match_at s = Some (m, t) -> s = m ++ t /\ m <> [].
Proof.
  unfold match_at. destruct (alt1 s) as [[m' t']|] eqn:E; [intros [= <- <-]; by apply alt1_app|].
  destruct s as [|c s']; [discriminate|]. pose proof (nonspace_run_app (c :: s')) as Hr.
  simpl in *. destruct (is_space c); [discriminate|].
  destruct (nonspace_run s'). intros [= <- <-]. by split.
Qed.

Lemma finditer_mono n m s r : finditer n s = Some r -> n <= m -> finditer m s = Some r.
Proof.
  revert m s r. induction n as [|n IH]; intros m s r; [discriminate|].
  intros H Hle. destruct m as [|m]; [lia|]. simpl in *.
  destruct s as [|c s']; [done|]. destruct (match_at (c :: s')) as [[m' t]|].
  - destruct (finditer n t) eqn:E; [|discriminate]. by rewrite (IH m t l E); [|lia].
  - apply IH; [done|lia].
Qed.

Lemma finditer_total n s : length s < n -> is_Some (finditer n s).
Proof.
  revert s. induction n as [|n IH]; intros s Hn; [lia|]. simpl.
  destruct s as [|c s']; [by eexists|]. destruct (match_at (c :: s')) as [[m t]|] eqn:E.
  - apply match_at_app in E as [Hs Hm].
    assert (Ht : length t < n).
    { rewrite Hs, length_app in Hn. destruct m; [done|]. simpl in Hn. lia. }
    destruct (IH t Ht) as [r ->]. by eexists.
  - apply IH. simpl in Hn. lia.
Qed.

Lemma replace_pair_notin a b r s : a ∉ s -> replace_pair a b r s = s.
Proof.
  induction s as [|x s IH]; intros Ha; [done|].
  rewrite not_elem_of_cons in Ha. destruct Ha as [Hx Ha].
  destruct s as [|y s'']; [done|]. simpl.
  replace ((x =? a)%N) with false by (symmetry; apply N.eqb_neq; congruence). simpl.
  f_equal. by apply IH.
Qed.

Lemma space_not_quote c : is_space c = true -> is_quote c = false.
Proof.
  unfold is_quote, DQ, SQ. intros Hs.
  destruct (N.eqb_spec c 34); [subst; discriminate|]. by destruct (N.eqb_spec c 39); [subst|].
Qed.

(** After a word: the end of the text or a blank. *)
Definition word_end (t : pystr) : Prop :=
  match t with [] => True | c :: _ => is_space c = true end.

Lemma plain_inv c : is_plain c = true -> is_space c = false /\ is_quote c = false.
Proof. unfold is_plain. by intros [?%negb_true_iff ?%negb_true_iff]%andb_prop. Qed.

Lemma alt1_word w t :
  Forall (fun c => is_plain c = true) w -> word_end t -> alt1 (w ++ t) = None.
Proof.
  intros Hp Ht. induction Hp as [|c w Hc Hp IH]; simpl.
  - destruct t as [|c t]; [done|]. simpl in Ht. simpl.
    by rewrite (space_not_quote _ Ht), Ht.
  - destruct (plain_inv _ Hc) as [-> ->]. by rewrite IH.
Qed.

Lemma nonspace_run_word w t :
  Forall (fun c => is_plain c = true) w -> word_end t -> nonspace_run (w ++ t) = (w, t).
Proof.
  intros Hp Ht. induction Hp as [|c w Hc Hp IH]; simpl.
  - destruct t as [|c t]; [done|]. simpl in *. by rewrite Ht.
  - destruct (plain_inv _ Hc) as [-> _]. by rewrite IH.
Qed.

(** A word of plain characters followed by a blank or the end is one
    match. *)
Lemma match_at_word w t :
  w <> [] -> Forall (fun c => is_plain c = true) w -> word_end t ->
  match_at (w ++ t) = Some (w, t).
Proof.
  intros Hw Hp Ht. unfold match_at. rewrite alt1_word by done.
  destruct w as [|c w]; [done|]. pose proof (Forall_inv Hp) as Hc.
  destruct (plain_inv _ Hc) as [Hs _]. simpl. rewrite Hs. f_equal.
  by rewrite <- nonspace_run_word with (w := c :: w) (t := t); [simpl; rewrite Hs|..].
Qed.

(** A blank is no match: [finditer] moves one position on. *)
Lemma match_at_space c t : is_space c = true -> match_at (c :: t) = None.
Proof. intros Hs. unfold match_at. simpl. by rewrite (space_not_quote _ Hs), Hs. Qed.

Lemma run_after_end t : word_end t -> run_after t = ([], t).
Proof. destruct t as [|c t]; [done|]. simpl. intros Hs. by rewrite (space_not_quote _ Hs), Hs. Qed.

(** A phrase with neither its quote nor a backslash, closed by its quote
    and followed by a blank or the end. *)
Lemma quoted_phrase q p t :
  q ∉ p -> BS ∉ p -> word_end t -> quoted_then_run q (p ++ q :: t) = Some (p ++ [q], t).
Proof.
  intros Hq Hb Ht. induction p as [|c p IH]; simpl.
  - rewrite N.eqb_refl, run_after_end by done. done.
  - apply not_elem_of_cons in Hq as [Hcq Hq], Hb as [Hcb Hb].
    replace ((c =? q)%N) with false by (symmetry; apply N.eqb_neq; congruence).
    replace ((c =? BS)%N) with false by (symmetry; apply N.eqb_neq; congruence).
    by rewrite IH.
Qed.

Lemma match_at_phrase q p t :
  is_quote q = true -> q ∉ p -> BS ∉ p -> word_end t ->
  match_at (q :: p ++ q :: t) = Some (q :: p ++ [q], t).
Proof. intros Hq ???. unfold match_at. simpl. by rewrite Hq, quoted_phrase. Qed.

(** A phrase in quotes comes back from [unescape_string_literal]. *)
Lemma unescape_phrase q p :
  is_quote q = true -> BS ∉ p -> q ∉ p -> unescape_string_literal (q :: p ++ [q]) = Ok p.
Proof.
  intros Hq Hb Hqp. unfold unescape_string_literal. rewrite Hq.
  rewrite bool_decide_true by (rewrite app_comm_cons, last_snoc; done). simpl.
  rewrite removelast_last, (replace_pair_notin BS q q p), replace_pair_notin by done. done.
Qed.

Lemma finditer_enough s n : length s < n -> finditer n s = Some (smart_split s).
Proof.
  intros Hn. destruct (finditer_total (S (length s)) s) as [r Hr]; [lia|].
  unfold smart_split. rewrite Hr. simpl. apply (finditer_mono _ _ _ _ Hr). lia.
Qed.

(** The [finditer] loop ends: with fuel beyond the length of the text it
    returns, and the bits are [smart_split]'s whatever the fuel. *)
Theorem finditer_terminates s n : length s < n -> finditer n s = Some (smart_split s).
Proof. apply finditer_enough. Qed.

Lemma finditer_match n s m t :
  match_at s = Some (m, t) -> finditer (S n) s = cons m <$> finditer n t.
Proof. destruct s; [done|]. simpl. intros ->. done. Qed.

Lemma finditer_skip n c t : is_space c = true -> finditer (S n) (c :: t) = finditer n t.
Proof. intros Hs. simpl. by rewrite match_at_space. Qed.

Lemma finditer_join words n :
  Forall (fun w => w <> [] /\ Forall (fun c => is_plain c = true) w) words ->
  length (py_join [32%N] words) < n -> finditer n (py_join [32%N] words) = Some words.
Proof.
  revert n. induction words as [|w [|w' ws] IH]; intros n Hw Hn.
  - destruct n; [simpl in Hn; lia|done].
  - apply Forall_cons in Hw as [[Hne Hp] _]. simpl in Hn |- *.
    destruct n as [|n]; [lia|].
    replace (finditer (S n) w) with (finditer (S n) (w ++ [])) by by rewrite app_nil_r.
    rewrite (finditer_match _ _ w []) by (by apply match_at_word).
    destruct n; [destruct w; simpl in Hn; [done|lia]|done].
  - apply Forall_cons in Hw as [[Hne Hp] Hws]. rewrite py_join_cons2 in Hn |- *.
    rewrite !length_app in Hn. cbn [length] in Hn. destruct n as [|[|n]]; [lia|lia|].
    rewrite (finditer_match _ _ w ([32%N] ++ py_join [32%N] (w' :: ws)))
      by (by apply match_at_word). cbn [app].
    rewrite finditer_skip by done. rewrite IH; [done|done|]. destruct w; [done|cbn [length] in Hn; lia].
Qed.

(** C30 (roundtrip): splitting words of plain characters (no blank, no
  quote) joined by single spaces, [" ".join(words)], gives the words
  back. *)
Theorem smart_split_join words :
  Forall (fun w => w <> [] /\ Forall (fun c => is_plain c = true) w) words ->
  smart_split (py_join [32%N] words) = words.
Proof.
  intros Hw. unfold smart_split. rewrite finditer_join by (done || lia). done.
Qed.

(** A word of plain characters is one bit. *)
Lemma smart_split_word w :
  w <> [] -> Forall (fun c => is_plain c = true) w -> smart_split w = [w].
Proof.
  intros Hne Hp. unfold smart_split.
  rewrite (finditer_join [w]); [done|by repeat constructor|simpl; lia].
Qed.

(** A phrase in quotes is one bit. *)
Lemma smart_split_phrase q p :
  is_quote q = true -> q ∉ p -> BS ∉ p -> smart_split (q :: p ++ [q]) = [q :: p ++ [q]].
Proof.
  intros Hq Hqp Hb. apply (inj Some).
  rewrite <- (finditer_enough _ (S (S (length (q :: p ++ [q]))))) by lia.
  rewrite (finditer_match _ _ (q :: p ++ [q]) []) by (by apply match_at_phrase). done.
Qed.

End SmartSplit.
