(* ===== verification/Ranking.v ===== *)
(** * Ranking rows by similarity: [np.argsort(sims)[::-1]]

    [SimpleVectorIndex.search] (services.py, line 35) ranks the matrix rows
    with [np.argsort(sims)[::-1][:top_k]].  This file models the argsort
    and its reversal and characterises the result:

    - [argsort] is numpy's argsort of a score vector as the insertion sort
      numpy runs on small arrays (left to right, each new row shifted left
      past the rows of strictly greater score), so rows of equal score keep
      their row order; [argsort_desc] is its reversal [[::-1]].
    - [rank_ref] is a reference ranking, a descending insertion sort under
      the lexicographic order "higher score first, then higher row first".
    - Theorems: [argsort] is a permutation of the row numbers sorted by
      ascending (score, row); [argsort_desc] equals [rank_ref]; hence the
      reversed ranking puts equal scores in DESCENDING row order. *)

From S2P Require Import Prelude.
From Stdlib Require Import Lqa.
#[local] Open Scope nat_scope.

Module Ranking.

(** A candidate: its similarity score and its row number. *)
Abbreviation row := (Q * nat)%type.

(** The rows of a score vector with their row numbers. *)
Definition enumerate (sims : list Q) : list row := zip sims (seq 0 (length sims)).

(** One step of numpy's insertion sort: row [x] is placed after every row
    whose score is not greater than its own. *)
Fixpoint insert_row (x : row) (l : list row) : list row :=
  match l with
  | [] => [x]
  | y :: l' => if negb (Qle_bool y.1 x.1) then x :: l else y :: insert_row x l'
  end.

(** [np.argsort(sims)]: row numbers by ascending score. *)
Definition argsort (sims : list Q) : list nat :=
  map snd (foldl (fun acc x => insert_row x acc) [] (enumerate sims)).

(** [np.argsort(sims)[::-1]]. *)
Definition argsort_desc (sims : list Q) : list nat := reverse (argsort sims).

(** The lexicographic order on rows: by score, then by row number. *)
Definition row_lt (a b : row) : Prop :=
  (a.1 < b.1)%Q \/ ((a.1 == b.1)%Q /\ (a.2 < b.2)%nat).

Definition row_ltb (a b : row) : bool :=
  Qle_bool a.1 b.1 && (negb (Qle_bool b.1 a.1) || (a.2 <? b.2)%nat).

(** The reference ranking: insert each row before the first row that is
    lexicographically smaller. *)
Fixpoint insert_desc (x : row) (l : list row) : list row :=
  match l with
  | [] => [x]
  | y :: l' => if row_ltb y x then x :: l else y :: insert_desc x l'
  end.

Definition rank_ref (sims : list Q) : list nat :=
  map snd (foldr insert_desc [] (enumerate sims)).

(** ** The order on rows *)

Lemma row_ltb_spec a b : row_ltb a b = true <-> row_lt a b.
Proof.
  unfold row_ltb, row_lt.
  destruct (Qle_bool a.1 b.1) eqn:H1; [apply Qle_bool_iff in H1|apply Qle_bool_false in H1];
  destruct (Qle_bool b.1 a.1) eqn:H2; [apply Qle_bool_iff in H2|apply Qle_bool_false in H2|
    apply Qle_bool_iff in H2|apply Qle_bool_false in H2];
  destruct (Nat.ltb_spec a.2 b.2); simpl; split; intros Hc;
  try discriminate; try reflexivity;
  try (destruct Hc as [?|[? ?]]; (lra || lia));
  first [left; lra | right; split; [lra|lia]].
Qed.

Lemma row_lt_trans a b c : row_lt a b -> row_lt b c -> row_lt a c.
Proof. unfold row_lt. intros [?|[? ?]] [?|[? ?]]; [left; lra..|right; split; [lra|lia]]. Qed.

Lemma row_lt_asym a b : row_lt a b -> row_lt b a -> False.
Proof. unfold row_lt. intros [?|[? ?]] [?|[? ?]]; lra || lia. Qed.

Lemma row_lt_total a b : a.2 <> b.2 -> row_lt a b \/ row_lt b a.
Proof.
  unfold row_lt. intros Hne. destruct (Q_dec a.1 b.1) as [[?|?]|?]; [left; by left|right; by left|].
  destruct (Nat.lt_gt_cases a.2 b.2) as [[?|?] _]; [done|left|right]; right; split; auto with qarith.
Qed.

#[export] Hint Resolve row_lt_trans : py.

(** ** [argsort] is a sorted permutation *)

Lemma insert_row_perm x l : insert_row x l ≡ₚ x :: l.
Proof.
  induction l as [|y l IH]; simpl; [done|].
  destruct (negb _); [done|]. rewrite IH. apply perm_swap.
Qed.

(** Inserting a row numbered after every row of a sorted list keeps it sorted. *)
Lemma insert_row_sorted x l :
  Forall (fun y => y.2 < x.2)%nat l ->
  StronglySorted row_lt l -> StronglySorted row_lt (insert_row x l).
Proof.
  induction l as [|y l IH]; intros Hidx Hs; simpl; [repeat constructor|].
  apply StronglySorted_inv in Hs as [Hs Hf]. apply Forall_cons in Hidx as [Hy Hidx].
  destruct (Qle_bool y.1 x.1) eqn:Hyx; simpl.
  - apply Qle_bool_iff in Hyx. constructor; [by apply IH|].
    rewrite insert_row_perm. constructor; [|done].
    destruct (Qle_lt_or_eq _ _ Hyx); [left|right]; auto.
  - assert (Hxy : (x.1 < y.1)%Q).
    { apply Qnot_le_lt. by rewrite <- Qle_bool_iff, Hyx. }
    constructor; [by constructor|]. constructor; [by left|].
    eapply Forall_impl; [done|]. intros z ?. by eapply row_lt_trans; [left|].
Qed.

Lemma argsort_fold_spec (acc rows : list row) :
  StronglySorted row_lt acc ->
  (forall a b, a ∈ acc -> b ∈ rows -> a.2 < b.2)%nat ->
  StronglySorted (fun a b => a.2 < b.2)%nat rows ->
  StronglySorted row_lt (foldl (fun acc x => insert_row x acc) acc rows) /\
  foldl (fun acc x => insert_row x acc) acc rows ≡ₚ acc ++ rows.
Proof.
  revert acc. induction rows as [|x rows IH]; intros acc Hacc Hlt Hrows; simpl.
  - by rewrite app_nil_r.
  - apply StronglySorted_inv in Hrows as [Hrows Hf]. rewrite Forall_forall in Hf.
    destruct (IH (insert_row x acc)) as [IH1 IH2].
    + apply insert_row_sorted; [|done]. apply Forall_forall. intros a Ha. apply Hlt; set_solver.
    + intros a b Ha Hb. rewrite insert_row_perm in Ha.
      apply elem_of_cons in Ha as [->|Ha]; [by apply Hf|]. apply Hlt; set_solver.
    + done.
    + split; [done|]. rewrite IH2, insert_row_perm. apply Permutation_middle.
Qed.

Lemma enumerate_snd sims : (enumerate sims).*2 = seq 0 (length sims).
Proof. unfold enumerate. rewrite snd_zip; [done|]. by rewrite length_seq. Qed.

Lemma enumerate_sorted sims : StronglySorted (fun a b => a.2 < b.2)%nat (enumerate sims).
Proof.
  unfold enumerate. generalize 0%nat as k. induction sims as [|s sims IH]; intros k; simpl.
  - constructor.
  - constructor; [apply IH|]. apply Forall_forall. intros [q j] Hj. simpl.
    apply elem_of_zip_r, list_elem_of_In, in_seq in Hj. lia.
Qed.

Lemma enumerate_lookup sims i : enumerate sims !! i = (fun s => (s, i)) <$> sims !! i.
Proof.
  unfold enumerate. rewrite lookup_zip_with.
  destruct (sims !! i) eqn:E; simpl; [|done].
  rewrite lookup_seq_lt; [done|]. by apply lookup_lt_Some in E.
Qed.

(** The rows numbered by [argsort] in their ranking order. *)
Definition sorted_rows (sims : list Q) : list row :=
  foldl (fun acc x => insert_row x acc) [] (enumerate sims).

Lemma sorted_rows_spec sims :
  StronglySorted row_lt (sorted_rows sims) /\ sorted_rows sims ≡ₚ enumerate sims.
Proof.
  unfold sorted_rows. destruct (argsort_fold_spec [] (enumerate sims)) as [H1 H2].
  - constructor.
  - set_solver.
  - apply enumerate_sorted.
  - done.
Qed.

Lemma argsort_rows sims : argsort sims = (sorted_rows sims).*2.
Proof. reflexivity. Qed.

(** ** The reversed argsort is the ranking by (score, row), descending *)

Lemma insert_desc_perm x l : insert_desc x l ≡ₚ x :: l.
Proof.
  induction l as [|y l IH]; simpl; [done|].
  destruct (row_ltb y x); [done|]. rewrite IH. apply perm_swap.
Qed.

Lemma insert_desc_sorted x l :
  Forall (fun y => y.2 <> x.2) l ->
  StronglySorted (flip row_lt) l -> StronglySorted (flip row_lt) (insert_desc x l).
Proof.
  induction l as [|y l IH]; intros Hidx Hs; simpl; [repeat constructor|].
  apply StronglySorted_inv in Hs as [Hs Hf]. apply Forall_cons in Hidx as [Hy Hidx].
  destruct (row_ltb y x) eqn:Hyx.
  - apply row_ltb_spec in Hyx. constructor; [by constructor|]. constructor; [done|].
    eapply Forall_impl; [done|]. intros z Hz. by eapply row_lt_trans.
  - assert (Hxy : row_lt x y).
    { destruct (row_lt_total x y) as [|Hc]; [congruence|done|].
      apply row_ltb_spec in Hc. congruence. }
    constructor; [by apply IH|]. rewrite insert_desc_perm. by constructor.
Qed.

Lemma rank_ref_rows_spec (rows : list row) :
  StronglySorted (fun a b => a.2 < b.2)%nat rows ->
  StronglySorted (flip row_lt) (foldr insert_desc [] rows) /\
  foldr insert_desc [] rows ≡ₚ rows.
Proof.
  induction rows as [|x rows IH]; intros Hs; simpl; [split; constructor|].
  apply StronglySorted_inv in Hs as [Hs Hf]. destruct (IH Hs) as [IH1 IH2].
  split; [|by rewrite insert_desc_perm, IH2].
  apply insert_desc_sorted; [|done]. rewrite IH2.
  eapply Forall_impl; [done|]. simpl. lia.
Qed.

Lemma ranked_rows_sorted sims : StronglySorted (flip row_lt) (reverse (sorted_rows sims)).
Proof. apply StronglySorted_rev, sorted_rows_spec. Qed.

Lemma argsort_desc_rows sims : argsort_desc sims = (reverse (sorted_rows sims)).*2.
Proof. unfold argsort_desc. by rewrite argsort_rows, fmap_reverse. Qed.

(** Reversing numpy's stable ascending argsort gives exactly the ranking
    by descending score in which rows of equal score come in descending
    row order. *)
Lemma argsort_desc_rank_ref sims : argsort_desc sims = rank_ref sims.
Proof.
  rewrite argsort_desc_rows. unfold rank_ref. f_equal.
  destruct (rank_ref_rows_spec (enumerate sims)) as [H1 H2]; [apply enumerate_sorted|].
  apply (StronglySorted_Permutation_eq (flip row_lt)).
  - intros a b ? ?. by eapply row_lt_asym.
  - apply ranked_rows_sorted.
  - done.
  - rewrite H2, reverse_Permutation. apply sorted_rows_spec.
Qed.

Lemma argsort_desc_perm sims : argsort_desc sims ≡ₚ seq 0 (length sims).
Proof.
  rewrite argsort_desc_rows, reverse_Permutation, <- enumerate_snd.
  apply fmap_Permutation, sorted_rows_spec.
Qed.

(** ** The ranking, row by row *)

(** The rows of the reference ranking, with their scores. *)
Definition rank_rows (sims : list Q) : list row := foldr insert_desc [] (enumerate sims).

Lemma rank_ref_perm sims : rank_ref sims ≡ₚ seq 0 (length sims).
Proof. rewrite <- argsort_desc_rank_ref. apply argsort_desc_perm. Qed.

Lemma rank_ref_lt sims i : i ∈ rank_ref sims -> i < length sims.
Proof. rewrite rank_ref_perm, list_elem_of_In, in_seq. lia. Qed.

Lemma elem_of_enumerate sims x :
  x ∈ enumerate sims -> x = (sims !!! x.2, x.2) /\ x.2 < length sims.
Proof.
  intros (i & Hi)%list_elem_of_lookup. rewrite enumerate_lookup in Hi.
  destruct (sims !! i) as [s|] eqn:E; simplify_eq/=. split; [|by eapply lookup_lt_Some].
  by rewrite (list_lookup_total_correct _ _ _ E).
Qed.

Lemma rank_rows_eq sims : rank_rows sims = (fun i => (sims !!! i, i)) <$> rank_ref sims.
Proof.
  unfold rank_ref. fold (rank_rows sims). rewrite <- list_fmap_compose.
  rewrite <- (list_fmap_id (rank_rows sims)) at 1. apply list_fmap_ext.
  intros _ x Hx%list_elem_of_lookup_2.
  destruct (rank_ref_rows_spec (enumerate sims)) as [_ Hp]; [apply enumerate_sorted|].
  apply elem_of_enumerate. unfold rank_rows in Hx. by rewrite <- Hp.
Qed.

(** The ranking is sorted: a row comes before every row of lower score,
    and before every row of equal score and SMALLER row number. *)
Lemma rank_ref_sorted sims :
  StronglySorted (fun i j => row_lt (sims !!! j, j) (sims !!! i, i)) (rank_ref sims).
Proof.
  apply (StronglySorted_fmap (flip row_lt) (fun i => (sims !!! i, i))).
  rewrite <- rank_rows_eq. apply rank_ref_rows_spec, enumerate_sorted.
Qed.

(** The [top_k] rows [search] keeps: [rank[:top_k]]. *)
Definition top_rows (sims : list Q) (top_k : Z) : list nat := py_take top_k (rank_ref sims).

Lemma top_rows_lt sims k i : i ∈ top_rows sims k -> i < length sims.
Proof. intros Hi. apply rank_ref_lt. eapply elem_of_prefix; [done|apply py_take_sublist]. Qed.

Lemma top_rows_NoDup sims k : NoDup (top_rows sims k).
Proof.
  eapply sublist_NoDup; [|apply sublist_take].
  rewrite rank_ref_perm. apply NoDup_seq.
Qed.

(** Every row the reference keeps outranks every row it leaves out. *)
Lemma top_rows_best sims k i j :
  i ∈ top_rows sims k -> j < length sims -> j ∉ top_rows sims k ->
  row_lt (sims !!! j, j) (sims !!! i, i).
Proof.
  unfold top_rows, py_take. intros Hi Hj Hnot.
  assert (Hd : j ∈ drop (py_stop k (rank_ref sims)) (rank_ref sims)).
  { assert (Hr : j ∈ rank_ref sims) by (rewrite rank_ref_perm, list_elem_of_In, in_seq; lia).
    rewrite <- (take_drop (py_stop k (rank_ref sims)) (rank_ref sims)), elem_of_app in Hr.
    tauto. }
  exact (StronglySorted_take_drop _ _ _ _ _ (rank_ref_sorted sims) Hi Hd).
Qed.

(** C3 (equivalence): the rows [search] keeps, [np.argsort(sims)[::-1][:top_k]],
    are the first [top_k] rows (in Python's slice sense) of the ranking by
    descending score with ties broken toward the later row. *)
Theorem argsort_desc_top_rows sims k : py_take k (argsort_desc sims) = top_rows sims k.
Proof. unfold top_rows. by rewrite argsort_desc_rank_ref. Qed.

(** C4 (functional): every row [np.argsort(sims)[::-1][:top_k]] keeps
  outranks every row it leaves out: a higher score, or an equal score
  and a later row. *)
Theorem argsort_desc_best sims k i j :
  i ∈ py_take k (argsort_desc sims) -> j < length sims -> j ∉ py_take k (argsort_desc sims) ->
  row_lt (sims !!! j, j) (sims !!! i, i).
Proof. rewrite argsort_desc_rank_ref. apply top_rows_best. Qed.

End Ranking.
