(* ===== verification/VectorIndex.v ===== *)
(** * The in-memory vector index: [SimpleVectorIndex] (services.py, 11-36)

    The index keeps three fields: [vectorizer] (a scikit-learn
    [TfidfVectorizer]), [matrix] (the document-term matrix of the last
    build, or [None]) and [ids] (the knowledge-base id of each row).

    scikit-learn is a library the code only calls, so the index is
    modelled against the class [Vectorizer], which states what the code
    uses of it: [fit_transform], a method that refits the vectorizer in
    place and returns the matrix or raises (the vectorizer it leaves is
    returned in both cases), the row count of a matrix, and
    [similarities] (transform the query and take its cosine similarity
    with every row).  [VectorizerLaws] states what the index relies on: a
    fit gives one row per document, the vectorizer and matrix of one fit
    give one score per row, and a fit does not depend on the previous
    one.  [Tfidf] gives the TF-IDF instance.

    - [build] and [search] follow the methods line by line, the early
      returns included.  [build] returns the index it leaves with its
      outcome: when [fit_transform] raises, [self.matrix] and [self.ids]
      are not assigned but the vectorizer has changed ([build_raise]).
      [search] raises [IndexError] when [ids] is shorter than the
      matrix, as [self.ids[i]] does.
    - [index_wf] is the snapshot invariant of the design: the vectorizer
      and the matrix come from the same fit and there is one id per row;
      [rows_match] is its structural part, which a failed build keeps.
    - Theorems: the empty index answers [] to every query; [build]
      establishes the invariant with the given ids; under it [search]
      refines the abstract [search_spec] (the top [top_k] rows of the
      reference ranking of [Ranking]), never raises, returns as many
      results as Python's slice [[:top_k]] keeps, sorted by descending
      score, with equal scores in descending row order. *)

From S2P Require Import Prelude PyStr Ranking.
From Stdlib Require Import Lqa.
#[local] Open Scope nat_scope.
Import Ranking.

(** What the index uses of scikit-learn. *)
Class Vectorizer (V M : Type) := {
  (** [TfidfVectorizer(stop_words="english")], not fitted *)
  unfitted : V;
  (** [vectorizer.fit_transform(corpus)], a method that refits the
      vectorizer in place: the vectorizer it leaves, and the matrix (one
      row per document) or the exception it raises *)
  fit_transform : V -> list pystr -> V * pyres M;
  (** [matrix.shape[0]] *)
  n_rows : M -> nat;
  (** [cosine_similarity(vectorizer.transform([query]), matrix).flatten()] *)
  similarities : V -> M -> pystr -> pyres (list Q);
}.

(** What the index relies on. *)
Class VectorizerLaws (V M : Type) `{!Vectorizer V M} := {
  fit_transform_rows v c v' m :
    fit_transform v c = (v', Ok m) -> n_rows m = length c;
  similarities_fitted v c v' m q :
    fit_transform v c = (v', Ok m) ->
    exists sims, similarities v' m q = Ok sims /\ length sims = n_rows m;
  (** every fit starts afresh: nothing of the previous fit is kept *)
  fit_transform_fresh v w c : fit_transform v c = fit_transform w c;
}.

Module VectorIndex.

Section Index.
Context {V M : Type} `{!Vectorizer V M}.

(** The fields of a [SimpleVectorIndex]. *)
Record index := mk_index {
  vectorizer : V;
  matrix : option M;
  ids : list Z;
}.

(** [SimpleVectorIndex.__init__] *)
Definition init : index := {| vectorizer := unfitted; matrix := None; ids := [] |}.

(** [SimpleVectorIndex.build(corpus, ids)]: the index it leaves and the
    outcome.  An empty corpus clears [matrix] and [ids]; otherwise
    [self.vectorizer.fit_transform(corpus)] refits the vectorizer in
    place, then [matrix] and [ids] are assigned.  When [fit_transform]
    raises, the assignments are skipped but the vectorizer has already
    been changed. *)
Definition build (s : index) (corpus : list pystr) (new_ids : list Z) : index * pyres () :=
  match corpus with
  | [] => ({| vectorizer := vectorizer s; matrix := None; ids := [] |}, Ok ())
  | _ :: _ =>
      let '(v, r) := fit_transform (vectorizer s) corpus in
      match r with
      | Ok m => ({| vectorizer := v; matrix := Some m; ids := new_ids |}, Ok ())
      | Raise e => ({| vectorizer := v; matrix := matrix s; ids := ids s |}, Raise e)
      end
  end.

(** One result of [search]: [(self.ids[i], float(sims[i]))]. *)
Definition result_at (s : index) (sims : list Q) (i : nat) : pyres (Z * Q) :=
  id ← py_index (ids s) (Z.of_nat i);
  sc ← py_index sims (Z.of_nat i);
  mret (id, sc).

(** [SimpleVectorIndex.search(query, top_k)] *)
Definition search (s : index) (query : pystr) (top_k : Z) : pyres (list (Z * Q)) :=
  match matrix s with
  | None => Ok []
  | Some m =>
      if decide (ids s = []) then Ok [] else
      sims ← similarities (vectorizer s) m query;
      let idxs := py_take top_k (argsort_desc sims) in
      mapM (result_at s sims) idxs
  end.

(** ** The snapshot invariant *)

(** The vectorizer and the matrix come from one fit, and row [i] of the
    matrix belongs to [ids[i]]. *)
Definition index_wf (s : index) : Prop :=
  match matrix s with
  | None => ids s = []
  | Some m =>
      (exists v0 corpus, fit_transform v0 corpus = (vectorizer s, Ok m)) /\
      n_rows m = length (ids s)
  end.

(** Its structural part: no ids without a matrix, one id per row. *)
Definition rows_match (s : index) : Prop :=
  match matrix s with
  | None => ids s = []
  | Some m => n_rows m = length (ids s)
  end.

(** The abstract result of a search: the [top_k] best rows of the
    reference ranking, each with its id and score. *)
Definition search_spec (row_ids : list Z) (sims : list Q) (top_k : Z) : list (Z * Q) :=
  (fun i => (row_ids !!! i, sims !!! i)) <$> top_rows sims top_k.
End Index.

Arguments index : clear implicits.

Section Theorems.
Context {V M : Type} `{!Vectorizer V M} `{!VectorizerLaws V M}.
Implicit Types (s : index V M) (q : pystr) (k : Z).

(** an index with no matrix or no ids answers [] to every query and
  every [top_k]. *)
Theorem search_empty s q k :
  matrix s = None \/ ids s = [] -> search s q k = Ok [].
Proof.
  unfold search. intros [->|Hids]; [done|].
  destruct (matrix s); [|done]. by rewrite decide_True.
Qed.

Lemma init_wf : index_wf (@init V M _).
Proof. done. Qed.

(** A build over a corpus with one id per document yields a consistent
  snapshot. *)
Lemma build_wf s s' corpus new_ids :
  length corpus = length new_ids ->
  build s corpus new_ids = (s', Ok ()) -> index_wf s'.
Proof.
  intros Hlen. unfold build. destruct corpus as [|d ds] eqn:Hc.
  - by intros [= <-].
  - destruct (fit_transform _ _) as [v [m|e]] eqn:Hfit; [|done].
    intros [= <-]. unfold index_wf; simpl. split; [by do 2 eexists|].
    rewrite (fit_transform_rows _ _ _ _ Hfit). done.
Qed.

(** C31 (invariant): a build over a corpus of [N] documents with one id
  per document leaves a consistent snapshot whose ids are the given ids
  in order: no matrix for an empty corpus, otherwise a matrix of [N]
  rows, row [i] for [ids[i]]. *)
Theorem build_snapshot s s' corpus new_ids :
  length corpus = length new_ids ->
  build s corpus new_ids = (s', Ok ()) ->
  index_wf s' /\ ids s' = new_ids /\
  match matrix s' with None => corpus = [] | Some m => n_rows m = length corpus end.
Proof.
  intros Hlen Hb. split; [by eapply build_wf|]. revert Hb. unfold build.
  destruct corpus as [|d ds]; [intros [= <-]; simpl; by destruct new_ids|].
  destruct (fit_transform _ _) as [v [m|e]] eqn:Hfit; [|done]. intros [= <-].
  split; [done|]. simpl. by rewrite (fit_transform_rows _ _ _ _ Hfit).
Qed.

(** A build that raises has changed the vectorizer and nothing else: the
    matrix and the ids are those of the previous build. *)
Lemma build_raise s s' corpus new_ids e :
  build s corpus new_ids = (s', Raise e) ->
  vectorizer s' = (fit_transform (vectorizer s) corpus).1 /\
  matrix s' = matrix s /\ ids s' = ids s.
Proof.
  unfold build. destruct corpus as [|d ds]; [done|].
  destruct (fit_transform _ _) as [v [m|e']]; [done|]. by intros [= <- _].
Qed.

Lemma search_spec_nil row_ids k : search_spec row_ids [] k = [].
Proof. unfold search_spec, top_rows, py_take. simpl. by destruct (py_stop _ _). Qed.

(** [search] on a matrix with one row per id, scored by the vectorizer
  of its fit, is the abstract result of the scores. *)
Lemma search_fitted s m q k :
  matrix s = Some m -> n_rows m = length (ids s) ->
  (exists v0 c, fit_transform v0 c = (vectorizer s, Ok m)) ->
  exists sims, similarities (vectorizer s) m q = Ok sims /\
    length sims = length (ids s) /\ search s q k = Ok (search_spec (ids s) sims k).
Proof.
  intros Hm Hrows (v0 & c & Hfit).
  destruct (similarities_fitted _ _ _ _ q Hfit) as (sims & Hsims & Hlen).
  exists sims. split; [done|]. split; [lia|]. unfold search. rewrite Hm.
  case_decide as Hids.
  - rewrite Hids in Hrows |- *. destruct sims; [|simpl in *; lia].
    by rewrite search_spec_nil.
  - rewrite Hsims. simpl. rewrite argsort_desc_rank_ref. apply mapM_pyres_fmap.
    intros i Hi%top_rows_lt. unfold result_at.
    rewrite !py_index_total by lia. done.
Qed.

(** C2 (refinement): on a consistent snapshot with a matrix, the query
  gets one score per row and [search] returns the [top_k] best rows of
  the reference ranking for these scores, with their ids and scores. *)
Theorem search_refines s m q k :
  index_wf s -> matrix s = Some m ->
  exists sims, similarities (vectorizer s) m q = Ok sims /\
    length sims = length (ids s) /\ search s q k = Ok (search_spec (ids s) sims k).
Proof.
  unfold index_wf. intros Hwf Hm. rewrite Hm in Hwf. destruct Hwf as [Hfit Hrows].
  by apply search_fitted.
Qed.

(** Every answer of a consistent index is the abstract result for some
  score vector with one score per id. *)
Lemma search_ok_inv s q k r :
  index_wf s -> search s q k = Ok r ->
  exists sims, length sims = length (ids s) /\ r = search_spec (ids s) sims k.
Proof.
  unfold index_wf. intros Hwf Hr. destruct (matrix s) as [m|] eqn:Hm.
  - destruct Hwf as [Hfit Hrows].
    destruct (search_fitted s m q k Hm Hrows Hfit) as (sims & _ & Hlen & Hs).
    exists sims. split; [done|]. rewrite Hs in Hr. by injection Hr as <-.
  - unfold search in Hr. rewrite Hm in Hr. injection Hr as <-.
    exists []. by rewrite Hwf, search_spec_nil.
Qed.

(** A consistent index never raises. *)
Lemma search_total s q k :
  index_wf s -> exists r, search s q k = Ok r.
Proof.
  unfold index_wf. intros Hwf. destruct (matrix s) as [m|] eqn:Hm.
  - destruct Hwf as [Hfit Hrows].
    destruct (search_fitted s m q k Hm Hrows Hfit) as (sims & _ & _ & Hs). by eexists.
  - exists []. unfold search. by rewrite Hm.
Qed.

(** A build over a corpus with one id per document keeps one id per row,
  also when it raises. *)
Lemma build_rows_match s corpus new_ids :
  rows_match s -> length corpus = length new_ids ->
  rows_match (build s corpus new_ids).1.
Proof.
  unfold rows_match, build. intros Hs Hlen. destruct corpus as [|d ds]; [done|].
  destruct (fit_transform _ _) as [v [m|e]] eqn:Hfit; simpl; [|done].
  by rewrite (fit_transform_rows _ _ _ _ Hfit).
Qed.

Lemma length_search_spec row_ids sims k :
  length sims = length row_ids ->
  length (search_spec row_ids sims k) =
    if decide (0 <= k)%Z then Nat.min (Z.to_nat k) (length row_ids)
    else length row_ids - Z.to_nat (- k).
Proof.
  intros Hlen. unfold search_spec, top_rows. rewrite length_fmap, length_py_take.
  rewrite (Permutation_length (rank_ref_perm sims)), length_seq, Hlen. done.
Qed.

(** C5 (bounds): [search] returns as many results as the slice
  [[:top_k]] keeps of the rows: [min(top_k, n)] for [top_k >= 0], and
  [n - |top_k|] (not zero) for a negative [top_k]. *)
Theorem search_length s q k r :
  index_wf s -> search s q k = Ok r ->
  length r = if decide (0 <= k)%Z then Nat.min (Z.to_nat k) (length (ids s))
             else length (ids s) - Z.to_nat (- k).
Proof.
  intros Hwf Hr. destruct (search_ok_inv s q k r Hwf Hr) as (sims & Hlen & ->).
  by apply length_search_spec.
Qed.

(** Every id [search] returns is one of the index's ids. *)
Lemma search_ids_in s q k r :
  index_wf s -> search s q k = Ok r -> forall x, x ∈ r -> x.1 ∈ ids s.
Proof.
  intros Hwf Hr x Hx. destruct (search_ok_inv s q k r Hwf Hr) as (sims & Hlen & ->).
  unfold search_spec in Hx. apply list_elem_of_fmap in Hx as (i & -> & Hi).
  apply top_rows_lt in Hi. simpl. apply list_elem_of_lookup_total_2. lia.
Qed.

Lemma search_spec_lookup row_ids sims k p a x :
  search_spec row_ids sims k !! p = Some (a, x) ->
  exists i, top_rows sims k !! p = Some i /\ a = row_ids !!! i /\ x = sims !!! i.
Proof.
  unfold search_spec. rewrite list_lookup_fmap.
  destruct (top_rows sims k !! p) as [i|]; simpl; [|done].
  intros [= <- <-]. by exists i.
Qed.

Lemma top_rows_sorted sims k :
  StronglySorted (fun i j => row_lt (sims !!! j, j) (sims !!! i, i)) (top_rows sims k).
Proof. apply StronglySorted_take, rank_ref_sorted. Qed.

(** the results come by descending score. *)
Theorem search_sorted s q k r :
  index_wf s -> search s q k = Ok r ->
  StronglySorted (fun a b => (b.2 <= a.2)%Q) r.
Proof.
  intros Hwf Hr. destruct (search_ok_inv s q k r Hwf Hr) as (sims & _ & ->).
  unfold search_spec. apply StronglySorted_fmap.
  eapply StronglySorted_impl_in; [|apply top_rows_sorted].
  intros i j _ _ [Hlt|[Heq _]]; simpl in *; lra.
Qed.

(** C6 (functional): on an index of at most 16 rows, the sizes numpy's
  default [argsort] sorts by its stable insertion sort, of two results
  with equal scores the first is the entry of the LATER matrix row: the
  reversed argsort breaks ties against row order. *)
Theorem search_ties_reversed s q k r p p' a x b y :
  index_wf s -> length (ids s) <= 16 -> search s q k = Ok r ->
  p < p' -> r !! p = Some (a, x) -> r !! p' = Some (b, y) -> (x == y)%Q ->
  exists i j, j < i /\ ids s !! i = Some a /\ ids s !! j = Some b.
Proof.
  intros Hwf _ Hr Hpp' Hp Hp' Hxy.
  destruct (search_ok_inv s q k r Hwf Hr) as (sims & Hlen & ->).
  apply search_spec_lookup in Hp as (i & Hi & -> & ->).
  apply search_spec_lookup in Hp' as (j & Hj & -> & ->).
  pose proof (StronglySorted_lookup _ _ _ _ _ _ (top_rows_sorted sims k) Hpp' Hi Hj) as Hrow.
  assert (Hil : i < length sims) by (eapply top_rows_lt, list_elem_of_lookup_2, Hi).
  assert (Hjl : j < length sims) by (eapply top_rows_lt, list_elem_of_lookup_2, Hj).
  exists i, j. split; [destruct Hrow as [?|[_ ?]]; simpl in *; [lra|lia]|].
  split; apply list_lookup_lookup_total_lt; lia.
Qed.
End Theorems.

End VectorIndex.
