(* ===== verification/Tfidf.v ===== *)
(** * The TF-IDF vectorizer: an instance of [Vectorizer]

    [SimpleVectorIndex] uses scikit-learn's [TfidfVectorizer(stop_words=
    "english")] (services.py, line 18) through [fit_transform] (line 27),
    [transform] (line 33) and [cosine_similarity] (line 34).  This file
    models them with scikit-learn's defaults:
    - [analyze]: [str.lower()], the token pattern [(?u)\b\w\w+\b] (maximal
      runs of word characters of length at least 2) and the removal of the
      English stop words ([ENGLISH_STOP_WORDS]);
    - [fit]: the vocabulary (sorted distinct tokens; empty vocabulary
      raises [ValueError]), smooth idf [ln((1 + n) / (1 + df)) + 1];
    - rows: raw counts times idf, L2-normalised (a zero row stays zero);
    - [cosine]: [cosine_similarity] normalises both vectors again and takes
      their dot product;
    - [fit_transform_tfidf]: the vectorizer is [None] before a fit and
      after a fit that raised (scikit-learn 1.x replaces the fitted
      transformer before counting the vocabulary), [Some] of the fitted
      vocabulary and idf after a fit that returned; [transform] on [None]
      raises [NotFittedError].

    Floats are rationals.  [ln] and [sqrt] are not rational functions: they
    are the two operations of the class [RealOps], with the laws the
    proofs use ([ln] is non-negative from 1 on, [sqrt] is positive on
    positive numbers); every theorem holds for every lawful instance, and
    [approx_reals] is one (a truncated [atanh] series for [ln], an integer
    square root at six decimals for [sqrt]) used to run concrete cases.
    Lower-casing and word characters are modelled on ASCII; any other code
    point is lower-cased to itself and is a word character unless
    [str.isspace()] holds of it. *)

From S2P Require Import Prelude PyStr VectorIndex.
From Stdlib Require Import Lqa Qpower.
#[local] Open Scope nat_scope.

(** The two real functions scikit-learn's TF-IDF needs. *)
Class RealOps := {
  q_ln : Q -> Q;
  q_sqrt : Q -> Q;
}.

Class RealOpsLaws `{!RealOps} := {
  q_ln_nonneg x : (1 <= x)%Q -> (0 <= q_ln x)%Q;
  q_sqrt_pos x : (0 < x)%Q -> (0 < q_sqrt x)%Q;
}.

Module Tfidf.

(** ** Text analysis *)

(** [str.lower()] on one code point. *)
Definition lower_char (c : N) : N := if ((65 <=? c) && (c <=? 90))%N then (c + 32)%N else c.

Definition lower (s : pystr) : pystr := lower_char <$> s.

(** [\w]: letters, digits and the underscore. *)
Definition is_word (c : N) : bool :=
  (((48 <=? c) && (c <=? 57)) || ((65 <=? c) && (c <=? 90)) ||
   ((97 <=? c) && (c <=? 122)) || (c =? 95) || ((128 <=? c) && negb (is_space c)))%N.

(** The maximal runs of word characters of [s]; [cur] is the run being
    read, reversed. *)
Fixpoint word_runs (s : pystr) (cur : pystr) : list pystr :=
  match s with
  | [] => match cur with [] => [] | _ :: _ => [reverse cur] end
  | c :: s' =>
      if is_word c then word_runs s' (c :: cur)
      else match cur with
           | [] => word_runs s' []
           | _ :: _ => reverse cur :: word_runs s' []
           end
  end.

(** [re.findall(r"(?u)\b\w\w+\b", s)] *)
Definition tokenize (s : pystr) : list pystr :=
  filter (fun w => 2 <= length w) (word_runs s []).

(** [sklearn.feature_extraction.text.ENGLISH_STOP_WORDS] *)
Definition ENGLISH_STOP_WORDS : list string := [
  "a"; "about"; "above"; "across"; "after"; "afterwards"; "again"; "against";
  "all"; "almost"; "alone"; "along"; "already"; "also"; "although"; "always";
  "am"; "among"; "amongst"; "amoungst"; "amount"; "an"; "and"; "another";
  "any"; "anyhow"; "anyone"; "anything"; "anyway"; "anywhere"; "are";
  "around"; "as"; "at"; "back"; "be"; "became"; "because"; "become";
  "becomes"; "becoming"; "been"; "before"; "beforehand"; "behind"; "being";
  "below"; "beside"; "besides"; "between"; "beyond"; "bill"; "both";
  "bottom"; "but"; "by"; "call"; "can"; "cannot"; "cant"; "co"; "con";
  "could"; "couldnt"; "cry"; "de"; "describe"; "detail"; "do"; "done";
  "down"; "due"; "during"; "each"; "eg"; "eight"; "either"; "eleven"; "else";
  "elsewhere"; "empty"; "enough"; "etc"; "even"; "ever"; "every"; "everyone";
  "everything"; "everywhere"; "except"; "few"; "fifteen"; "fifty"; "fill";
  "find"; "fire"; "first"; "five"; "for"; "former"; "formerly"; "forty";
  "found"; "four"; "from"; "front"; "full"; "further"; "get"; "give"; "go";
  "had"; "has"; "hasnt"; "have"; "he"; "hence"; "her"; "here"; "hereafter";
  "hereby"; "herein"; "hereupon"; "hers"; "herself"; "him"; "himself"; "his";
  "how"; "however"; "hundred"; "i"; "ie"; "if"; "in"; "inc"; "indeed";
  "interest"; "into"; "is"; "it"; "its"; "itself"; "keep"; "last"; "latter";
  "latterly"; "least"; "less"; "ltd"; "made"; "many"; "may"; "me";
  "meanwhile"; "might"; "mill"; "mine"; "more"; "moreover"; "most"; "mostly";
  "move"; "much"; "must"; "my"; "myself"; "name"; "namely"; "neither";
  "never"; "nevertheless"; "next"; "nine"; "no"; "nobody"; "none"; "noone";
  "nor"; "not"; "nothing"; "now"; "nowhere"; "of"; "off"; "often"; "on";
  "once"; "one"; "only"; "onto"; "or"; "other"; "others"; "otherwise"; "our";
  "ours"; "ourselves"; "out"; "over"; "own"; "part"; "per"; "perhaps";
  "please"; "put"; "rather"; "re"; "same"; "see"; "seem"; "seemed";
  "seeming"; "seems"; "serious"; "several"; "she"; "should"; "show"; "side";
  "since"; "sincere"; "six"; "sixty"; "so"; "some"; "somehow"; "someone";
  "something"; "sometime"; "sometimes"; "somewhere"; "still"; "such";
  "system"; "take"; "ten"; "than"; "that"; "the"; "their"; "them";
  "themselves"; "then"; "thence"; "there"; "thereafter"; "thereby";
  "therefore"; "therein"; "thereupon"; "these"; "they"; "thick"; "thin";
  "third"; "this"; "those"; "though"; "three"; "through"; "throughout";
  "thru"; "thus"; "to"; "together"; "too"; "top"; "toward"; "towards";
  "twelve"; "twenty"; "two"; "un"; "under"; "until"; "up"; "upon"; "us";
  "very"; "via"; "was"; "we"; "well"; "were"; "what"; "whatever"; "when";
  "whence"; "whenever"; "where"; "whereafter"; "whereas"; "whereby";
  "wherein"; "whereupon"; "wherever"; "whether"; "which"; "while";
  "whither"; "who"; "whoever"; "whole"; "whom"; "whose"; "why"; "will";
  "with"; "within"; "without"; "would"; "yet"; "you"; "your"; "yours";
  "yourself"; "yourselves"]%string.

Definition is_stop_word (w : pystr) : bool :=
  existsb (fun s => bool_decide (lit s = w)) ENGLISH_STOP_WORDS.

(** The analyzer of the vectorizer: lower-case, tokenize, drop stop words. *)
Definition analyze (doc : pystr) : list pystr :=
  filter (fun w => is_stop_word w = false) (tokenize (lower doc)).

(** ** Fitting and weighting *)

(** Python's [<] on strings: code point by code point. *)
Fixpoint str_ltb (a b : pystr) : bool :=
  match a, b with
  | [], _ :: _ => true
  | _, [] => false
  | x :: a', y :: b' => if (x <? y)%N then true else if (y <? x)%N then false else str_ltb a' b'
  end.

(** Insert a term into a sorted vocabulary without duplicates. *)
Fixpoint vocab_insert (w : pystr) (vocab : list pystr) : list pystr :=
  match vocab with
  | [] => [w]
  | u :: vocab' =>
      if bool_decide (w = u) then vocab
      else if str_ltb w u then w :: vocab else u :: vocab_insert w vocab'
  end.

(** [vocabulary_]: the distinct terms of the analysed corpus, sorted. *)
Definition fit_vocabulary (docs : list (list pystr)) : list pystr :=
  foldr vocab_insert [] (concat docs).

(** The number of occurrences of term [t] in a document. *)
Definition count (t : pystr) (toks : list pystr) : nat := length (filter (fun w => w = t) toks).

(** The number of documents that contain [t]. *)
Definition doc_freq (t : pystr) (docs : list (list pystr)) : nat :=
  length (filter (fun toks => t ∈ toks) docs).

Definition EMPTY_VOCABULARY : string :=
  "empty vocabulary; perhaps the documents only contain stop words".

(** A fitted vectorizer: [vocabulary_] and [idf_]. *)
Record fitted := mk_fitted { vocabulary : list pystr; idf : list Q }.

Section Weights.
Context `{!RealOps}.
#[local] Open Scope Q_scope.

(** [idf(t) = ln((1 + n) / (1 + df(t))) + 1] ([smooth_idf=True]). *)
Definition smooth_idf (n df : nat) : Q :=
  q_ln (inject_Z (Z.of_nat (1 + n)) / inject_Z (Z.of_nat (1 + df))) + 1.

(** [fit]: vocabulary and idf of a corpus, or [ValueError]. *)
Definition fit (docs : list pystr) : pyres fitted :=
  let toks := analyze <$> docs in
  match fit_vocabulary toks with
  | [] => Raise (ValueError EMPTY_VOCABULARY)
  | vocab =>
      Ok (mk_fitted vocab ((fun t => smooth_idf (length docs) (doc_freq t toks)) <$> vocab))
  end.

(** The raw tf-idf row of an analysed document. *)
Definition tf_idf (f : fitted) (toks : list pystr) : list Q :=
  zip_with (fun t w => inject_Z (Z.of_nat (count t toks)) * w) (vocabulary f) (idf f).

Definition sum_sq (v : list Q) : Q := foldr (fun x acc => Qred (x * x + acc)) 0 v.

(** [sklearn.preprocessing.normalize(v, norm="l2")]: a zero norm is
    replaced by 1. *)
Definition normalize (v : list Q) : list Q :=
  let n := q_sqrt (sum_sq v) in
  if Qeq_bool n 0 then v else (fun x => Qred (x / n)) <$> v.

Definition dot (u v : list Q) : Q := foldr (fun x acc => Qred (x + acc)) 0 (zip_with Qmult u v).

(** [cosine_similarity] of two vectors. *)
Definition cosine (u v : list Q) : Q := dot (normalize u) (normalize v).

(** [vectorizer.transform([doc])] *)
Definition transform (f : fitted) (doc : pystr) : list Q := normalize (tf_idf f (analyze doc)).

(** [vectorizer.fit_transform(docs)] on the vectorizer [v]: the vectorizer
    it leaves and the matrix.  [TfidfVectorizer.fit_transform] first
    replaces its inner [TfidfTransformer] by a fresh, unfitted one and
    then counts the vocabulary, which raises on an empty one: a fit that
    raises leaves a vectorizer whose [transform] raises [NotFittedError]
    ([None]).  Nothing of [v] is used. *)
Definition fit_transform_tfidf (v : option fitted) (docs : list pystr)
    : option fitted * pyres (list (list Q)) :=
  match fit docs with
  | Ok f => (Some f, Ok ((fun d => normalize (tf_idf f (analyze d))) <$> docs))
  | Raise e => (None, Raise e)
  end.

(** [cosine_similarity(vectorizer.transform([query]), matrix).flatten()];
    an unfitted vectorizer raises [NotFittedError]. *)
Definition similarities_tfidf (v : option fitted) (m : list (list Q)) (query : pystr)
    : pyres (list Q) :=
  match v with
  | None => Raise NotFittedError
  | Some f => Ok (cosine (transform f query) <$> m)
  end.

#[export] Instance tfidf_vectorizer : Vectorizer (option fitted) (list (list Q)) := {|
  unfitted := None;
  fit_transform := fit_transform_tfidf;
  n_rows := length;
  similarities := similarities_tfidf;
|}.

#[export] Instance tfidf_vectorizer_laws : VectorizerLaws (option fitted) (list (list Q)).
Proof.
  split; simpl; unfold fit_transform_tfidf.
  - intros v c v' m. destruct (fit c); [|done]. intros [= _ <-]. by rewrite length_fmap.
  - intros v c v' m q. destruct (fit c); [|done]. intros [= <- <-].
    eexists. split; [done|]. by rewrite length_fmap.
  - done.
Qed.
End Weights.

(** ** The vocabulary *)

Lemma elem_of_vocab_insert w vocab t : t ∈ vocab_insert w vocab <-> t = w \/ t ∈ vocab.
Proof.
  induction vocab as [|u vocab IH]; simpl.
  - set_solver.
  - case_bool_decide as Hwu; [subst; set_solver|].
    destruct (str_ltb w u); [set_solver|]. rewrite !elem_of_cons, IH. tauto.
Qed.

Lemma elem_of_foldr_vocab_insert ws acc t :
  t ∈ foldr vocab_insert acc ws <-> t ∈ ws \/ t ∈ acc.
Proof.
  induction ws as [|w ws IH]; simpl; [set_solver|].
  rewrite elem_of_vocab_insert, elem_of_cons, IH. tauto.
Qed.

Lemma elem_of_fit_vocabulary (docs : list (list pystr)) t :
  t ∈ fit_vocabulary docs <-> exists d, d ∈ docs /\ t ∈ d.
Proof.
  unfold fit_vocabulary. induction docs as [|d docs IH]; simpl; [set_solver|].
  rewrite foldr_app, elem_of_foldr_vocab_insert, IH. set_solver.
Qed.

Lemma fit_vocabulary_nil (docs : list (list pystr)) :
  fit_vocabulary docs = [] <-> Forall (fun d => d = []) docs.
Proof.
  split.
  - intros Hnil. apply Forall_forall. intros d Hd.
    destruct d as [|t d]; [done|]. exfalso.
    assert (Ht : t ∈ fit_vocabulary docs)
      by (apply elem_of_fit_vocabulary; exists (t :: d); set_solver).
    rewrite Hnil in Ht. set_solver.
  - intros Hall. destruct (fit_vocabulary docs) as [|t vocab] eqn:E; [done|].
    assert (Ht : t ∈ fit_vocabulary docs) by (rewrite E; set_solver).
    apply elem_of_fit_vocabulary in Ht as (d & Hd & Htd).
    rewrite Forall_forall in Hall. rewrite (Hall d Hd) in Htd. set_solver.
Qed.

Section Errors.
Context `{!RealOps}.

(** C14 (error): [fit_transform] raises exactly when no document has a
    term left after tokenizing and dropping the stop words. *)
Theorem fit_transform_error_iff v docs :
  (exists e, (fit_transform_tfidf v docs).2 = Raise e) <->
  Forall (fun d => analyze d = []) docs.
Proof.
  assert (Hiff : Forall (fun d => analyze d = []) docs <->
                 fit_vocabulary (analyze <$> docs) = []).
  { rewrite fit_vocabulary_nil, Forall_fmap. done. }
  rewrite Hiff. unfold fit_transform_tfidf, fit.
  destruct (fit_vocabulary _) as [|t vocab]; simpl; split.
  - done.
  - intros _. by eexists.
  - by intros [e He].
  - discriminate.
Qed.

(** A corpus with a term left in some document is fitted. *)
Lemma fit_transform_ok v docs :
  Exists (fun d => analyze d <> []) docs ->
  exists f m, fit_transform_tfidf v docs = (Some f, Ok m).
Proof.
  intros Hex. unfold fit_transform_tfidf, fit.
  destruct (fit_vocabulary _) as [|t vocab] eqn:E; [|by eexists _, _].
  apply fit_vocabulary_nil, Forall_fmap in E.
  apply Exists_exists in Hex as (d & Hd & Hne). rewrite Forall_forall in E. by destruct (Hne (E d Hd)).
Qed.

(** What it raises is the [ValueError] "empty vocabulary", and the
    vectorizer it leaves cannot transform. *)
Lemma fit_transform_raise v docs e :
  (fit_transform_tfidf v docs).2 = Raise e ->
  (fit_transform_tfidf v docs).1 = None /\ e = ValueError EMPTY_VOCABULARY.
Proof.
  unfold fit_transform_tfidf, fit. destruct (fit_vocabulary _); simpl; [|done].
  by intros [= <-].
Qed.
End Errors.


(** ** Signs of vectors *)

(** Row [v] has a positive entry at position [i]. *)
Definition pos_at (v : list Q) (i : nat) : Prop := exists x, v !! i = Some x /\ (0 < x)%Q.

(** [w] is non-negative and positive exactly where [v] is. *)
Definition same_signs (v w : list Q) : Prop :=
  Forall2 (fun x y => (0 <= y)%Q /\ ((0 < y)%Q <-> (0 < x)%Q)) v w.

Lemma same_signs_pos_at v w i : same_signs v w -> pos_at w i <-> pos_at v i.
Proof.
  intros Hs. unfold pos_at. split.
  - intros (y & Hy & Hpos). destruct (Forall2_lookup_r _ _ _ _ _ Hs Hy) as (x & Hx & _ & Hiff).
    exists x. split; [done|]. by apply Hiff.
  - intros (x & Hx & Hpos). destruct (Forall2_lookup_l _ _ _ _ _ Hs Hx) as (y & Hy & _ & Hiff).
    exists y. split; [done|]. by apply Hiff.
Qed.

Lemma same_signs_nonneg v w : same_signs v w -> Forall (fun y => (0 <= y)%Q) w.
Proof.
  intros Hs. apply Forall_forall. intros y (i & Hy)%list_elem_of_lookup.
  destruct (Forall2_lookup_r _ _ _ _ _ Hs Hy) as (x & _ & ? & _). done.
Qed.

Section Signs.
Context `{!RealOps}.
#[local] Open Scope Q_scope.

Lemma sum_sq_cons x v : sum_sq (x :: v) = Qred (x * x + sum_sq v).
Proof. reflexivity. Qed.

Lemma dot_cons x u y v : dot (x :: u) (y :: v) = Qred (x * y + dot u v).
Proof. reflexivity. Qed.

Lemma sum_sq_nonneg v : 0 <= sum_sq v.
Proof. induction v as [|z v IH]; [apply Qle_refl|]. rewrite sum_sq_cons, Qred_correct. nra. Qed.

Lemma sum_sq_ge v x : x ∈ v -> x * x <= sum_sq v.
Proof.
  induction v as [|y v IH]; intros Hx; [set_solver|].
  rewrite sum_sq_cons, Qred_correct. pose proof (sum_sq_nonneg v).
  apply elem_of_cons in Hx as [->|Hx]; [nra|]. specialize (IH Hx). nra.
Qed.

Lemma dot_nonneg u v :
  Forall (fun x => 0 <= x) u -> Forall (fun x => 0 <= x) v -> 0 <= dot u v.
Proof.
  revert v. induction u as [|x u IH]; intros [|y v] Hu Hv; try apply Qle_refl.
  apply Forall_cons in Hu as [? ?]. apply Forall_cons in Hv as [? ?].
  rewrite dot_cons, Qred_correct. pose proof (IH v ltac:(done) ltac:(done)). nra.
Qed.

(** The dot product of non-negative vectors is positive exactly when both
    are positive at a common position. *)
Lemma dot_pos_iff u v :
  Forall (fun x => 0 <= x) u -> Forall (fun x => 0 <= x) v ->
  0 < dot u v <-> exists i, pos_at u i /\ pos_at v i.
Proof.
  revert v. induction u as [|x u IH]; intros [|y v] Hu Hv.
  - split; [intros Hc; cbv in Hc; discriminate|]. intros (i & (? & Hi & _) & _). by rewrite lookup_nil in Hi.
  - split; [intros Hc; cbv in Hc; discriminate|]. intros (i & (? & Hi & _) & _). by rewrite lookup_nil in Hi.
  - split; [intros Hc; cbv in Hc; discriminate|]. intros (i & _ & (? & Hi & _)). by rewrite lookup_nil in Hi.
  - apply Forall_cons in Hu as [Hx Hu]. apply Forall_cons in Hv as [Hy Hv].
    rewrite dot_cons, Qred_correct. pose proof (dot_nonneg u v Hu Hv).
    split.
    + intros Hpos. destruct (Qlt_le_dec 0 (dot u v)) as [Hd|Hd].
      * apply (IH v Hu Hv) in Hd as (i & Hui & Hvi). by exists (S i).
      * exists 0%nat. unfold pos_at; simpl.
        split; eexists; (split; [done|]); nra.
    + intros ([|i] & (x' & Hx' & Hxp) & (y' & Hy' & Hyp)); simpl in *.
      * injection Hx' as <-. injection Hy' as <-. nra.
      * assert (0 < dot u v) by (apply IH; [done|done|]; exists i; split; eexists; done).
        nra.
Qed.

Context `{!RealOpsLaws}.

(** [normalize] keeps a non-negative vector's signs. *)
Lemma normalize_same_signs v : Forall (fun x => 0 <= x) v -> same_signs v (normalize v).
Proof.
  intros Hv. unfold normalize. destruct (Qeq_bool _ 0).
  - apply Forall_Forall2_diag. eapply Forall_impl; [done|]. simpl. tauto.
  - apply Forall2_fmap_r, Forall_Forall2_diag. rewrite Forall_forall in Hv |- *.
    intros x Hx. unfold compose. rewrite Qred_correct. specialize (Hv x Hx).
    destruct (Qlt_le_dec 0 (sum_sq v)) as [Hpos|Hz].
    + apply q_sqrt_pos in Hpos. rewrite Qdiv_pos_iff by done. split; [|done].
      destruct (Qle_lt_or_eq _ _ Hv) as [Hlt|Heq].
      * apply Qlt_le_weak. by apply Qdiv_pos_iff.
      * rewrite <- Heq. unfold Qdiv. rewrite Qmult_0_l. apply Qle_refl.
    + assert (Hx0 : x == 0) by (pose proof (sum_sq_ge v x Hx); nra).
      rewrite Hx0. unfold Qdiv. rewrite Qmult_0_l. split; [apply Qle_refl|lra].
Qed.

Lemma normalize_twice_same_signs v :
  Forall (fun x => 0 <= x) v -> same_signs v (normalize (normalize v)).
Proof.
  intros Hv. pose proof (normalize_same_signs v Hv) as H1.
  pose proof (normalize_same_signs _ (same_signs_nonneg _ _ H1)) as H2.
  unfold same_signs in *. revert H2. generalize (normalize (normalize v)) as w2.
  revert H1. generalize (normalize v) as w1. intros w1 H1 w2 H2.
  induction H1 as [|x y v' w1' [_ Hxy] H1' IH] in w2, H2 |- *; inversion H2; subst; constructor.
  - match goal with H : _ /\ _ |- _ => destruct H as [Hz Hyz] end. split; [done|]. by rewrite Hyz.
  - by apply IH.
Qed.
End Signs.


(** ** Rows of a fitted vectorizer *)

Lemma count_pos t toks : (0 < count t toks)%nat <-> t ∈ toks.
Proof.
  unfold count. induction toks as [|w toks IH]; simpl; [split; [lia|set_solver]|].
  rewrite filter_cons, elem_of_cons. case_decide; simpl; [split; [intros _; by left|lia]|].
  rewrite IH. naive_solver.
Qed.

Lemma doc_freq_le t (docs : list (list pystr)) : (doc_freq t docs <= length docs)%nat.
Proof. unfold doc_freq. apply length_filter. Qed.

Section Rows.
Context `{!RealOps} `{!RealOpsLaws}.
#[local] Open Scope Q_scope.

Lemma smooth_idf_ge_1 n df : (df <= n)%nat -> 1 <= smooth_idf n df.
Proof.
  intros Hle. unfold smooth_idf.
  assert (Hr : 1 <= inject_Z (Z.of_nat (1 + n)) / inject_Z (Z.of_nat (1 + df))).
  { apply Qle_shift_div_l; [unfold Qlt; simpl; lia|]. unfold Qle; simpl; lia. }
  pose proof (q_ln_nonneg _ Hr). lra.
Qed.

(** A fitted vectorizer has one idf, at least 1, per vocabulary term. *)
Lemma fit_idf docs f :
  fit docs = Ok f ->
  length (idf f) = length (vocabulary f) /\ Forall (fun w => 1 <= w) (idf f).
Proof.
  assert (Hgen : forall vs : list pystr,
    let ws := (fun t => smooth_idf (length docs) (doc_freq t (analyze <$> docs))) <$> vs in
    length ws = length vs /\ Forall (fun w => 1 <= w) ws).
  { intros vs ws. split; [apply length_fmap|].
    apply Forall_fmap, Forall_forall. intros u _. apply smooth_idf_ge_1.
    etrans; [apply doc_freq_le|]. by rewrite length_fmap. }
  unfold fit. destruct (fit_vocabulary _) as [|t vocab]; [done|]. intros [= <-].
  apply (Hgen (t :: vocab)).
Qed.

Lemma tf_idf_lookup f toks i x :
  tf_idf f toks !! i = Some x <->
  exists t w, vocabulary f !! i = Some t /\ idf f !! i = Some w /\
              x = inject_Z (Z.of_nat (count t toks)) * w.
Proof.
  unfold tf_idf. rewrite lookup_zip_with.
  destruct (vocabulary f !! i) as [t|]; simpl; [|naive_solver].
  destruct (idf f !! i) as [w|]; simpl; naive_solver.
Qed.

Lemma tf_idf_nonneg docs f toks :
  fit docs = Ok f -> Forall (fun x => 0 <= x) (tf_idf f toks).
Proof.
  intros Hf. destruct (fit_idf docs f Hf) as [_ Hidf]. apply Forall_forall.
  intros x (i & (t & w & _ & Hw & ->)%tf_idf_lookup)%list_elem_of_lookup.
  rewrite Forall_lookup in Hidf. specialize (Hidf i w Hw).
  apply Qmult_le_0_compat; [unfold Qle; simpl; lia|lra].
Qed.

(** Entry [i] of a row is positive exactly when the [i]-th vocabulary term
    occurs in the document. *)
Lemma tf_idf_pos_at docs f toks i :
  fit docs = Ok f ->
  pos_at (tf_idf f toks) i <-> exists t, vocabulary f !! i = Some t /\ t ∈ toks.
Proof.
  intros Hf. destruct (fit_idf docs f Hf) as [Hlen Hidf]. unfold pos_at.
  setoid_rewrite tf_idf_lookup. split.
  - intros (x & (t & w & Ht & Hw & ->) & Hx). exists t. split; [done|].
    apply count_pos. destruct (count t toks); [|lia].
    exfalso. rewrite Qmult_0_l in Hx. lra.
  - intros (t & Ht & Hin). apply count_pos in Hin.
    destruct (idf f !! i) as [w|] eqn:Hw.
    + rewrite Forall_lookup in Hidf. specialize (Hidf i w Hw).
      eexists. split; [by exists t, w|].
      apply Qmult_lt_0_compat; [unfold Qlt; simpl; lia|lra].
    + apply lookup_lt_Some in Ht. apply lookup_ge_None in Hw. lia.
Qed.

(** The cosine of a query and a document is positive exactly when they
    share a term of the vocabulary. *)
Lemma cosine_pos_iff docs f q d :
  fit docs = Ok f ->
  0 < cosine (transform f q) (normalize (tf_idf f (analyze d))) <->
  exists t, t ∈ vocabulary f /\ t ∈ analyze q /\ t ∈ analyze d.
Proof.
  intros Hf. unfold cosine, transform.
  pose proof (normalize_twice_same_signs _ (tf_idf_nonneg docs f (analyze q) Hf)) as Sq.
  pose proof (normalize_twice_same_signs _ (tf_idf_nonneg docs f (analyze d) Hf)) as Sd.
  rewrite dot_pos_iff by eauto using same_signs_nonneg.
  setoid_rewrite (same_signs_pos_at _ _ _ Sq). setoid_rewrite (same_signs_pos_at _ _ _ Sd).
  setoid_rewrite (tf_idf_pos_at docs f _ _ Hf). split.
  - intros (i & (t & Ht & Hq) & (t' & Ht' & Hd)). rewrite Ht in Ht'. injection Ht' as <-.
    exists t. split; [by eapply list_elem_of_lookup_2|done].
  - intros (t & (i & Hi)%list_elem_of_lookup & Hq & Hd). exists i. split; by exists t.
Qed.

Lemma cosine_row_nonneg docs f q d :
  fit docs = Ok f -> 0 <= cosine (transform f q) (normalize (tf_idf f (analyze d))).
Proof.
  intros Hf. unfold cosine, transform. apply dot_nonneg; eapply same_signs_nonneg;
    apply normalize_twice_same_signs; eapply tf_idf_nonneg; done.
Qed.

(** terms of the query outside the fitted vocabulary carry no signal:
    a query none of whose terms is in the vocabulary scores 0 against
    every row of the fitted matrix. *)
Theorem similarities_unseen v0 docs v m q sims :
  fit_transform_tfidf v0 docs = (v, Ok m) ->
  similarities_tfidf v m q = Ok sims ->
  (forall t, t ∈ analyze q -> t ∉ vocabulary (default (mk_fitted [] []) v)) ->
  Forall (fun s => s == 0) sims.
Proof.
  unfold fit_transform_tfidf. intros Hft Hs Hq.
  destruct (fit docs) as [f|e] eqn:Hf; [|done]. injection Hft as <- <-.
  simpl in Hs, Hq. injection Hs as <-.
  apply Forall_fmap, Forall_fmap, Forall_forall. intros d _. unfold compose.
  pose proof (cosine_row_nonneg docs f q d Hf) as Hnn.
  destruct (Qle_lt_or_eq _ _ Hnn) as [Hpos|Heq]; [|by symmetry].
  apply (cosine_pos_iff docs f q d Hf) in Hpos as (t & Hv & Htq & _).
  exfalso. by apply (Hq t).
Qed.

(** C33 (functional): with the TF-IDF vectorizer, the score of row [i]
    is positive exactly when the query and document [i] share a term of
    the fitted vocabulary (after lower-casing, tokenizing and dropping
    stop words). *)
Theorem similarity_pos_iff v0 docs v m q sims i s :
  fit_transform_tfidf v0 docs = (v, Ok m) ->
  similarities_tfidf v m q = Ok sims -> sims !! i = Some s ->
  0 < s <-> exists t, t ∈ vocabulary (default (mk_fitted [] []) v) /\
                      t ∈ analyze q /\ t ∈ analyze (docs !!! i).
Proof.
  unfold fit_transform_tfidf. intros Hft Hs Hi.
  destruct (fit docs) as [f|e] eqn:Hf; [|done]. injection Hft as <- <-.
  injection Hs as <-. rewrite !list_lookup_fmap in Hi.
  destruct (docs !! i) as [d|] eqn:Hd; [|done]. injection Hi as <-.
  rewrite (list_lookup_total_correct _ _ _ Hd). by apply (cosine_pos_iff docs).
Qed.

End Rows.


(** ** A lawful choice of [ln] and [sqrt] *)

(** [x] rounded down to [1 / scale]. *)
Definition floor_to (scale : positive) (x : Q) : Q :=
  Z.div (Qnum x * Zpos scale) (Zpos (Qden x)) # scale.

(** [ln x = 2 atanh((x - 1) / (x + 1))], cut after four terms and rounded
    down to nine decimals. *)
Definition ln_approx (x : Q) : Q :=
  let y := ((x - 1) / (x + 1))%Q in
  floor_to 1000000000 (2 * (y + y ^ 3 / 3 + y ^ 5 / 5 + y ^ 7 / 7))%Q.

(** [sqrt x] to six decimals, rounded up so that it stays positive on
    positive numbers. *)
Definition sqrt_approx (x : Q) : Q :=
  if Qle_bool x 0 then 0
  else (Z.sqrt (Z.div (Qnum x * 1000000000000) (Zpos (Qden x))) + 1) # 1000000.

#[export] Instance approx_reals : RealOps := {| q_ln := ln_approx; q_sqrt := sqrt_approx |}.

Lemma floor_to_nonneg scale x : (0 <= x)%Q -> (0 <= floor_to scale x)%Q.
Proof.
  destruct x as [n d]. unfold floor_to, Qle. simpl. intros Hn.
  pose proof (Z.div_pos (n * Zpos scale) (Zpos d) ltac:(nia) ltac:(lia)). lia.
Qed.

#[export] Instance approx_reals_laws : @RealOpsLaws approx_reals.
Proof.
  split; simpl.
  - intros x Hx. unfold ln_approx. apply floor_to_nonneg.
    assert (Hy : (0 <= (x - 1) / (x + 1))%Q).
    { apply Qle_shift_div_l; lra. }
    set (y := ((x - 1) / (x + 1))%Q) in *.
    assert (0 <= y ^ 3 /\ 0 <= y ^ 5 /\ 0 <= y ^ 7)%Q as (H3 & H5 & H7).
    { repeat split; apply Qpower_0_le; done. }
    assert (0 <= y ^ 3 / 3 /\ 0 <= y ^ 5 / 5 /\ 0 <= y ^ 7 / 7)%Q as (D3 & D5 & D7).
    { repeat split; apply Qle_shift_div_l; lra. }
    lra.
  - intros x Hx. unfold sqrt_approx.
    destruct (Qle_bool x 0) eqn:E; [apply Qle_bool_iff in E; lra|].
    unfold Qlt. simpl. pose proof (Z.sqrt_nonneg (Z.div (Qnum x * 1000000000000) (Zpos (Qden x)))).
    lia.
Qed.


End Tfidf.
