(* ===== verification/KnowledgeBase.v ===== *)
(** * The knowledge base tables (models.py)

    [KnowledgeBaseEntry] and [QueryLog] are Django models; a table is a
    [gmap] from primary key to row.  JSON fields ([tags], [metadata],
    [retrieved_context_ids]) hold [json] values.  The two queries of the
    retrieval core are modelled here:
    - [active_entries]: [KnowledgeBaseEntry.objects.filter(is_active=True)]
      in the model's default order [-updated_at] (Meta.ordering).  SQL
      leaves the order of rows with equal [updated_at] open; the model
      fixes one (stdpp's merge sort of the table in key order), so every
      theorem below that does not mention the order holds for any choice.
    - [fetch_by_ids]: the dict [{e.id: e for e in
      KnowledgeBaseEntry.objects.filter(id__in=ids)}], which does NOT
      filter on [is_active]. *)

From S2P Require Import Prelude PyStr.
From stdpp Require Import gmap sorting.
#[local] Open Scope nat_scope.

Module KnowledgeBase.

(** A JSON value as Python holds it after [json.loads]: [None], [bool],
    [int], [float] (a rational: the binary value of the double), [str],
    [list], [dict] (its items in order). *)
Inductive json : Type :=
  | JNull
  | JBool (b : bool)
  | JInt (z : Z)
  | JFloat (x : Q)
  | JStr (s : pystr)
  | JArr (items : list json)
  | JObj (fields : list (pystr * json)).

(** A row of [KnowledgeBaseEntry] (models.py, 5-22), with the two
    timestamps of [TimeStampedModel] as integers (microseconds).  The
    primary key [id] is the field [kb_id]. *)
Record entry := mk_entry {
  kb_id : Z;
  created_at : Z;
  updated_at : Z;
  title : pystr;
  question : pystr;
  answer : pystr;
  tags : json;
  source : pystr;
  metadata : json;
  is_active : bool;
}.

(** A row of [QueryLog] (models.py, 35-43); [user] is the user's primary
    key or [None]. *)
Record query_log := mk_query_log {
  log_id : Z;
  log_created_at : Z;
  log_updated_at : Z;
  user : option Z;
  log_question : pystr;
  retrieved_context_ids : json;
  log_answer : pystr;
  latency_ms : Z;
  status : pystr;
  error : pystr;
}.

(** [KnowledgeBaseEntry.__str__]: [self.title or f"KB Entry {self.id}"] *)
Definition entry_str (e : entry) : pystr :=
  match title e with [] => lit "KB Entry " ++ str_of_Z (kb_id e) | t => t end.

(** [QueryLog.__str__]: [f"QueryLog({self.id})"] *)
Definition query_log_str (l : query_log) : pystr := lit "QueryLog(" ++ str_of_Z (log_id l) ++ lit ")".

(** The [KnowledgeBaseEntry] table. *)
Abbreviation table := (gmap Z entry).

(** Rows are stored under their own primary key. *)
Definition table_wf (db : table) : Prop :=
  forall k e, db !! k = Some e -> kb_id e = k.

(** The order [-updated_at]: [a] may come before [b]. *)
Definition by_updated_desc (a b : entry) : Prop := (updated_at b <= updated_at a)%Z.

#[export] Instance by_updated_desc_dec : RelDecision by_updated_desc :=
  fun a b => Z.le_dec (updated_at b) (updated_at a).

(** [KnowledgeBaseEntry.objects.filter(is_active=True)], ordered by
    [-updated_at]. *)
Definition active_entries (db : table) : list entry :=
  merge_sort by_updated_desc
    (filter (fun e => is_active e = true) (map_to_list db).*2).

(** [{e.id: e for e in KnowledgeBaseEntry.objects.filter(id__in=ids)}] *)
Definition fetch_by_ids (db : table) (ids : list Z) : gmap Z entry :=
  filter (fun kv => kv.1 ∈ ids) db.

(** ** Facts *)

Lemma elem_of_active_entries db e :
  e ∈ active_entries db <-> (exists k, db !! k = Some e) /\ is_active e = true.
Proof.
  unfold active_entries. rewrite merge_sort_Permutation, list_elem_of_filter.
  rewrite list_elem_of_fmap. split.
  - intros [Ha ([k e'] & -> & Hkv)]. split; [|done].
    exists k. by apply elem_of_map_to_list in Hkv.
  - intros [[k Hk] Ha]. split; [done|]. exists (k, e). split; [done|].
    by apply elem_of_map_to_list.
Qed.

Lemma active_entries_sorted db : Sorted by_updated_desc (active_entries db).
Proof. apply Sorted_merge_sort. intros a b. unfold by_updated_desc. lia. Qed.

Lemma fetch_by_ids_lookup db ids i :
  i ∈ ids -> fetch_by_ids db ids !! i = db !! i.
Proof.
  intros Hi. unfold fetch_by_ids. rewrite map_lookup_filter.
  destruct (db !! i); simpl; [|done]. by rewrite option_guard_True.
Qed.

Lemma table_wf_empty : table_wf ∅.
Proof. intros k e. by rewrite lookup_empty. Qed.

(** Saving an entry under its own primary key keeps the table well formed. *)
Lemma table_wf_insert db e : table_wf db -> table_wf (<[kb_id e := e]> db).
Proof.
  intros Hdb k e'. rewrite lookup_insert_Some.
  intros [[<- <-]|[_ Hk]]; [done|by apply Hdb].
Qed.

(** The label [str(entry)] of a row is never empty: an untitled row is
    labelled by its primary key. *)
Lemma entry_str_nonempty e : entry_str e <> [].
Proof. unfold entry_str. by destruct (title e). Qed.

#[export] Hint Resolve table_wf_empty table_wf_insert : py.


End KnowledgeBase.
