(* ===== verification/Migrations.v ===== *)
(** * The schema: models.py against migrations/0001_initial.py

    Django derives the state of every model from its class: the fields
    of its abstract bases first ([TimeStampedModel]: [created_at],
    [updated_at]), then its own, and an automatic primary key [id] of the
    class [DEFAULT_AUTO_FIELD] in front; [Meta.ordering] and
    [Meta.indexes] become options.  A migration is a list of operations
    whose [state_forwards] builds the same kind of state: [CreateModel]
    adds a model under its lower-cased name, [AddIndex] appends an index
    to one.  [makemigrations] writes no new migration exactly when the
    two states agree: the same models, the same fields by name with the
    same [deconstruct()] (the class and the keyword arguments, in any
    order), the same ordering and the same indexes.

    A field is its class with its keyword arguments as they are written;
    a positional model of [ForeignKey] is its [to] argument, and
    [get_user_model()] is [settings.AUTH_USER_MODEL], which
    [deconstruct()] writes for the swappable user model.  Index names are
    compared by the rule of [Index.set_name_with_model]; its six-character
    digest is an MD5 value that is not computed here.  The app label is
    [api], as the migration's index names show.

    Theorems: the initial migration builds the state of models.py exactly
    when [DEFAULT_AUTO_FIELD] is [BigAutoField]; its index names follow
    Django's rule; and three columns are indexed twice, by
    [db_index=True] and again by [Meta.indexes]. *)

From S2P Require Import Prelude PyStr.
From stdpp Require Import gmap.
#[local] Open Scope nat_scope.

Module Migrations.

(** ** Fields *)

Inductive field_class :=
  | AutoField | BigAutoField | SmallAutoField
  | DateTimeField | CharField | TextField | JSONField | BooleanField | IntegerField
  | ForeignKey.

(** The value of [default=]: a literal or a callable ([list], [dict]). *)
Inductive default_value :=
  | DefStr (s : pystr)
  | DefBool (b : bool)
  | DefInt (z : Z)
  | DefCallable (name : pystr).

(** The keyword arguments of the fields of this app ([default] is
    [default_], to keep stdpp's [default]). *)
Inductive kwarg :=
  | auto_created (b : bool)
  | primary_key (b : bool)
  | serialize (b : bool)
  | verbose_name (s : pystr)
  | auto_now (b : bool)
  | auto_now_add (b : bool)
  | db_index (b : bool)
  | max_length (n : nat)
  | blank (b : bool)
  | null (b : bool)
  | default_ (d : default_value)
  | on_delete (action : pystr)
  | to (model : pystr).

#[export] Instance field_class_eq_dec : EqDecision field_class.
Proof. solve_decision. Defined.
#[export] Instance default_value_eq_dec : EqDecision default_value.
Proof. solve_decision. Defined.
#[export] Instance kwarg_eq_dec : EqDecision kwarg.
Proof. solve_decision. Defined.

Definition field : Type := field_class * list kwarg.

(** [settings.AUTH_USER_MODEL] *)
Definition AUTH_USER_MODEL : pystr := lit "settings.AUTH_USER_MODEL".

(** ** models.py *)

(** [TimeStampedModel] (abstract) *)
Definition TimeStampedModel_fields : list (pystr * field) :=
  [(lit "created_at", (DateTimeField, [auto_now_add true; db_index true]));
   (lit "updated_at", (DateTimeField, [auto_now true; db_index true]))].

(** [Meta.ordering] and [Meta.indexes] (each index by its fields) *)
Record meta := mk_meta { meta_ordering : list pystr; meta_indexes : list (list pystr) }.

Definition KnowledgeBaseEntry_fields : list (pystr * field) :=
  [(lit "title", (CharField, [max_length 255; db_index true]));
   (lit "question", (TextField, [blank true; default_ (DefStr [])]));
   (lit "answer", (TextField, []));
   (lit "tags", (JSONField, [blank true; default_ (DefCallable (lit "list"))]));
   (lit "source", (CharField, [max_length 255; blank true; default_ (DefStr [])]));
   (lit "metadata", (JSONField, [blank true; default_ (DefCallable (lit "dict"))]));
   (lit "is_active", (BooleanField, [default_ (DefBool true); db_index true]))].

Definition KnowledgeBaseEntry_meta : meta :=
  mk_meta [lit "-updated_at"] [[lit "is_active"]; [lit "title"]].

Definition QueryLog_fields : list (pystr * field) :=
  [(lit "user", (ForeignKey, [to AUTH_USER_MODEL; null true; blank true;
                              on_delete (lit "SET_NULL")]));
   (lit "question", (TextField, []));
   (lit "retrieved_context_ids", (JSONField, [blank true; default_ (DefCallable (lit "list"))]));
   (lit "answer", (TextField, [blank true; default_ (DefStr [])]));
   (lit "latency_ms", (IntegerField, [default_ (DefInt 0)]));
   (lit "status", (CharField, [max_length 32; default_ (DefStr (lit "ok"))]));
   (lit "error", (TextField, [blank true; default_ (DefStr [])]))].

Definition QueryLog_meta : meta :=
  mk_meta [lit "-created_at"] [[lit "created_at"]; [lit "status"]].

(** ** Model states *)

Record model_index := mk_index { idx_fields : list pystr; idx_name : option pystr }.

Record model_state := mk_model_state {
  ms_fields : list (pystr * field);
  ms_ordering : list pystr;
  ms_indexes : list model_index;
}.

Definition project_state : Type := gmap pystr model_state.

(** [Options._prepare]: the primary key Django adds to a model without
    one, of the class [DEFAULT_AUTO_FIELD], as [deconstruct()] writes it. *)
Definition auto_pk (auto_field : field_class) : pystr * field :=
  (lit "id", (auto_field, [auto_created true; primary_key true; serialize false;
                           verbose_name (lit "ID")])).

(** [ModelState.from_model] of a concrete model with abstract bases. *)
Definition model_state_of (auto_field : field_class) (bases own : list (pystr * field))
    (m : meta) : model_state :=
  mk_model_state (auto_pk auto_field :: bases ++ own) (meta_ordering m)
    ((fun fs => mk_index fs None) <$> meta_indexes m).

(** The state of the app [api] as models.py declares it. *)
Definition models_state (auto_field : field_class) : project_state :=
  <[lit "knowledgebaseentry" :=
      model_state_of auto_field TimeStampedModel_fields KnowledgeBaseEntry_fields
        KnowledgeBaseEntry_meta]>
  (<[lit "querylog" :=
      model_state_of auto_field TimeStampedModel_fields QueryLog_fields QueryLog_meta]> ∅).

(** ** migrations/0001_initial.py *)

Inductive operation :=
  | CreateModel (name : pystr) (fields : list (pystr * field)) (ordering : list pystr)
  | AddIndex (model_name : pystr) (fields : list pystr) (name : pystr).

(** [state_forwards]: [CreateModel] under [name_lower], [AddIndex]
    appended to the model's indexes. *)
Definition state_forwards (s : project_state) (op : operation) : project_state :=
  match op with
  | CreateModel name fs ord => <[ascii_fold <$> name := mk_model_state fs ord []]> s
  | AddIndex m fs nm =>
      alter (fun ms => mk_model_state (ms_fields ms) (ms_ordering ms)
                         (ms_indexes ms ++ [mk_index fs (Some nm)])) m s
  end.

Definition migrate (ops : list operation) (s : project_state) : project_state :=
  foldl state_forwards s ops.

Definition ID_FIELD : pystr * field :=
  (lit "id", (BigAutoField, [auto_created true; primary_key true; serialize false;
                             verbose_name (lit "ID")])).

Definition migration_0001 : list operation :=
  [CreateModel (lit "KnowledgeBaseEntry")
     [ID_FIELD;
      (lit "created_at", (DateTimeField, [auto_now_add true; db_index true]));
      (lit "updated_at", (DateTimeField, [auto_now true; db_index true]));
      (lit "title", (CharField, [db_index true; max_length 255]));
      (lit "question", (TextField, [blank true; default_ (DefStr [])]));
      (lit "answer", (TextField, []));
      (lit "tags", (JSONField, [blank true; default_ (DefCallable (lit "list"))]));
      (lit "source", (CharField, [blank true; default_ (DefStr []); max_length 255]));
      (lit "metadata", (JSONField, [blank true; default_ (DefCallable (lit "dict"))]));
      (lit "is_active", (BooleanField, [db_index true; default_ (DefBool true)]))]
     [lit "-updated_at"];
   CreateModel (lit "QueryLog")
     [ID_FIELD;
      (lit "created_at", (DateTimeField, [auto_now_add true; db_index true]));
      (lit "updated_at", (DateTimeField, [auto_now true; db_index true]));
      (lit "question", (TextField, []));
      (lit "retrieved_context_ids", (JSONField, [blank true; default_ (DefCallable (lit "list"))]));
      (lit "answer", (TextField, [blank true; default_ (DefStr [])]));
      (lit "latency_ms", (IntegerField, [default_ (DefInt 0)]));
      (lit "status", (CharField, [default_ (DefStr (lit "ok")); max_length 32]));
      (lit "error", (TextField, [blank true; default_ (DefStr [])]));
      (lit "user", (ForeignKey, [blank true; null true; on_delete (lit "SET_NULL");
                                 to AUTH_USER_MODEL]))]
     [lit "-created_at"];
   AddIndex (lit "knowledgebaseentry") [lit "is_active"] (lit "api_knowled_is_acti_42cf5a_idx");
   AddIndex (lit "knowledgebaseentry") [lit "title"] (lit "api_knowled_title_c6a1e8_idx");
   AddIndex (lit "querylog") [lit "created_at"] (lit "api_querylo_created_b3eb3f_idx");
   AddIndex (lit "querylog") [lit "status"] (lit "api_querylo_status_9d97df_idx")].

(** ** Comparing states *)

(** [deconstruct()] of two fields agrees: the same class and the same
    keyword arguments. *)
Definition field_equiv (f g : field) : bool :=
  bool_decide (f.1 = g.1) &&
  forallb (fun k => bool_decide (k ∈ g.2)) f.2 && forallb (fun k => bool_decide (k ∈ f.2)) g.2.

Definition fields_equiv (fs gs : list (pystr * field)) : bool :=
  bool_decide (length fs = length gs) &&
  forallb (fun f => match list_find (fun g => g.1 = f.1) gs with
                    | Some (_, g) => field_equiv f.2 g.2 | None => false end) fs.

Definition model_equiv (a b : model_state) : bool :=
  fields_equiv (ms_fields a) (ms_fields b) &&
  bool_decide (ms_ordering a = ms_ordering b) &&
  bool_decide (idx_fields <$> ms_indexes a ≡ₚ idx_fields <$> ms_indexes b).

(** The autodetector finds no change between the two states. *)
Definition state_equiv (s t : project_state) : bool :=
  bool_decide (dom s = dom t) &&
  forallb (fun km => match t !! km.1 with Some m => model_equiv km.2 m | None => false end)
    (map_to_list s).

(** ** Index names *)

(** [Index.set_name_with_model]:
    [table[:11] + "_" + column[:7] + "_" + digest[:6] + "_idx"], the
    table being [api_<model name>]. *)
Definition index_name_ok (model : pystr) (fields : list pystr) (name : pystr) : bool :=
  match fields with
  | [] => false
  | col :: _ =>
      let pre := take 11 (lit "api_" ++ model) ++ lit "_" ++ take 7 col ++ lit "_" in
      prefixb pre name && bool_decide (drop (length pre + 6) name = lit "_idx")
  end.

(** ** Indexes of a column *)

(** The single-column indexes the schema creates on [col]: one for
    [db_index=True], one per index of [Meta.indexes] on [col] alone. *)
Definition index_count (ms : model_state) (col : pystr) : nat :=
  (match list_find (fun f => f.1 = col) (ms_fields ms) with
   | Some (_, (_, (_, kws))) => if bool_decide (db_index true ∈ kws) then 1 else 0
   | None => 0
   end) +
  length (filter (fun i => idx_fields i = [col]) (ms_indexes ms)).

Definition indexed_twice (ms : model_state) : list pystr :=
  filter (fun col => 2 <= index_count ms col) (ms_fields ms).*1.

(** ** Theorems *)

(** applying the operations of
  [migrations/0001_initial.py] to the empty state gives the state models.py
  declares (the same models, fields with the same class and keyword
  arguments, ordering and indexes) exactly when the automatic primary
  key is a [BigAutoField]: with [DEFAULT_AUTO_FIELD] set to it,
  [makemigrations] has nothing to write; with any other auto field it
  would write an [AlterField] of every [id]. *)
Theorem migration_0001_in_sync af :
  state_equiv (migrate migration_0001 ∅) (models_state af) = true <-> af = BigAutoField.
Proof.
  split; intros H.
  - destruct af; try reflexivity; vm_compute in H; discriminate H.
  - subst af. vm_compute. reflexivity.
Qed.

(** The names of the migration's indexes are the ones
    [Index.set_name_with_model] derives from the table and the first
    column. *)
Lemma migration_index_names :
  forallb (fun op => match op with
                     | AddIndex m fs nm => index_name_ok m fs nm
                     | CreateModel _ _ _ => true end) migration_0001 = true.
Proof. vm_compute. reflexivity. Qed.

(** the schema of models.py indexes [title] and
  [is_active] of [KnowledgeBaseEntry] and [created_at] of [QueryLog]
  twice: each has [db_index=True] and an model_index of [Meta.indexes] on
  the same column alone. *)
Theorem indexed_twice_models af :
  indexed_twice <$> models_state af !! lit "knowledgebaseentry" = Some [lit "title"; lit "is_active"] /\
  indexed_twice <$> models_state af !! lit "querylog" = Some [lit "created_at"].
Proof. split; vm_compute; reflexivity. Qed.

End Migrations.
