(* ===== verification/Http.v ===== *)
(** * Requests, responses and request validation (views.py, serializers.py)

    What the views read of a request ([request.user], [request.data],
    [request.query_params]) and what they answer (a status code and a
    JSON body), with the parts of Django REST framework the views rely on
    to read a request:
    - [query_get]: [request.query_params.get(key, default)], the last
      value given for [key];
    - [char_field]: [CharField.run_validation] (required, not null, not
      blank after trimming, a [str], [int] or [float] but not a [bool],
      then [str(value).strip()] and the validators [MaxLengthValidator],
      [ProhibitNullCharactersValidator] and
      [ProhibitSurrogateCharactersValidator], whose errors are all
      collected);
    - [validate_char_fields]: [Serializer(data=request.data).is_valid(
      raise_exception=True)] for a serializer of [CharField]s (the
      serializers [AskRequestSerializer] and [AuthRequestSerializer]):
      the body of the 400 response, or the validated values.
    [str(x)] of a JSON float is the parameter [float_repr] (CPython's
    shortest repr of a double, which is not modelled).  The file ends
    with what [AskRequestSerializer] guarantees of the question it
    validates ([ask_question_valid]). *)

From S2P Require Import Prelude PyStr KnowledgeBase.
#[local] Open Scope nat_scope.
Import KnowledgeBase.

Module Http.

(** [request.user] when authenticated: its primary key and [is_staff];
    [None] is Django's [AnonymousUser]. *)
Record user := mk_user { user_pk : Z; is_staff : bool }.

(** The parts of a request the views read. *)
Record request := mk_request {
  req_user : option user;
  (** [request.data]: the parsed body (a form body is an object of strings) *)
  req_data : json;
  (** [request.query_params], in the order of the query string *)
  req_params : list (pystr * pystr);
}.

Record response := mk_response { status_code : Z; body : json }.

(** [data.get(key)] on a parsed JSON object or a [QueryDict]: the last
    item with that key. *)
Definition obj_get (items : list (pystr * json)) (key : pystr) : option json :=
  snd <$> last (filter (fun kv => kv.1 = key) items).

(** [request.query_params.get(key, dflt)] *)
Definition query_get (params : list (pystr * pystr)) (key dflt : pystr) : pystr :=
  default dflt (snd <$> last (filter (fun kv => kv.1 = key) params)).

(** [{"detail": msg}] *)
Definition detail (msg : pystr) : json := JObj [(lit "detail", JStr msg)].

(** ** [CharField] *)

Definition MSG_REQUIRED : pystr := lit "This field is required.".
Definition MSG_NULL : pystr := lit "This field may not be null.".
Definition MSG_BLANK : pystr := lit "This field may not be blank.".
Definition MSG_INVALID : pystr := lit "Not a valid string.".
Definition MSG_MAX_LENGTH (n : nat) : pystr :=
  lit "Ensure this field has no more than " ++ str_of_Z (Z.of_nat n) ++ lit " characters.".
Definition MSG_NULL_CHARACTERS : pystr := lit "Null characters are not allowed.".
Definition MSG_SURROGATE (c : N) : pystr :=
  lit "Surrogate characters are not allowed: U+" ++ hex_upper c ++ lit ".".

Definition is_surrogate (c : N) : bool := ((55296 <=? c) && (c <=? 57343))%N.

(** The validators of [CharField(max_length=...)], run on the trimmed
    value in the order the field installs them; every error is kept. *)
Definition char_validators (max_length : option nat) (s : pystr) : list pystr :=
  match max_length with
  | Some n => if decide (n < length s) then [MSG_MAX_LENGTH n] else []
  | None => []
  end ++
  (if decide (0%N ∈ s) then [MSG_NULL_CHARACTERS] else []) ++
  match list_find (fun c => is_surrogate c = true) s with
  | Some (_, c) => [MSG_SURROGATE c]
  | None => []
  end.

(** The Python type name in "Expected a dictionary, but got ...". *)
Definition type_name (d : json) : pystr :=
  match d with
  | JNull => lit "NoneType" | JBool _ => lit "bool" | JInt _ => lit "int"
  | JFloat _ => lit "float" | JStr _ => lit "str" | JArr _ => lit "list"
  | JObj _ => lit "dict"
  end.

(** [data is None] *)
Definition is_null (j : json) : bool := match j with JNull => true | _ => false end.

Section Validation.
Variable float_repr : Q -> pystr.

(** [CharField(max_length=..., allow_blank=...).run_validation] on a
    value that is present: blank strings first, then [str(value).strip()]
    and the validators. *)
Definition char_field (max_length : option nat) (allow_blank : bool) (v : json)
    : list pystr + pystr :=
  let check s :=
    let s := strip s in
    match char_validators max_length s with [] => inr s | errs => inl errs end in
  match v with
  | JNull => inl [MSG_NULL]
  | JStr s =>
      if decide (strip s = []) then (if allow_blank then inr [] else inl [MSG_BLANK])
      else check s
  | JInt z => check (str_of_Z z)
  | JFloat x => check (float_repr x)
  | JBool _ | JArr _ | JObj _ => inl [MSG_INVALID]
  end.
End Validation.

(** [Field.validate_empty_values], then the field's own validation [run]
    ([None]: the key is absent).  An absent field is skipped ([None])
    by a partial update and when it is not required; [null] is refused
    ([allow_null] is false for every field of this code). *)
Definition run_field {A} (required partial : bool) (run : json -> list pystr + A)
    (v : option json) : option (list pystr + A) :=
  match v with
  | None => if partial then None else if required then Some (inl [MSG_REQUIRED]) else None
  | Some v => if is_null v then Some (inl [MSG_NULL]) else Some (run v)
  end.

(** [Serializer(data=...).is_valid(raise_exception=True)]: every field,
    in declaration order, on the value of its key; the body of the 400
    response ([{field: [errors]}] in field order, or [non_field_errors]
    when the data is not an object), or [validated_data], the fields
    that were not skipped, in field order. *)
Definition validate_fields {A} (fields : list (pystr * (option json -> option (list pystr + A))))
    (data : json) : json + list (pystr * A) :=
  match data with
  | JObj items =>
      let results := omap (fun f => pair f.1 <$> f.2 (obj_get items f.1)) fields in
      let errors := omap (fun r => match r.2 with
                                   | inl errs => Some (r.1, JArr (JStr <$> errs))
                                   | inr _ => None end) results in
      match errors with
      | [] => inr (omap (fun r => match r.2 with inr v => Some (r.1, v) | inl _ => None end) results)
      | _ :: _ => inl (JObj errors)
      end
  | JNull => inl (JObj [(lit "non_field_errors", JArr [JStr (lit "No data provided")])])
  | d => inl (JObj [(lit "non_field_errors",
                     JArr [JStr (lit "Invalid data. Expected a dictionary, but got " ++
                                 type_name d ++ lit ".")])])
  end.

(** A serializer whose fields are required, non-blank [CharField]s, named
    with their [max_length]: the 400 body or the validated values in
    field order. *)
Definition validate_char_fields (fr : Q -> pystr) (fields : list (pystr * option nat)) (data : json)
    : json + list pystr :=
  sum_map id (fmap snd)
    (validate_fields ((fun f => (f.1, run_field true false (char_field fr f.2 false))) <$> fields) data).

(** [AskRequestSerializer]: [question = CharField(max_length=5000)] *)
Definition ASK_FIELDS : list (pystr * option nat) := [(lit "question", Some 5000)].

(** [AuthRequestSerializer]: [username = CharField()], [password = CharField()] *)
Definition AUTH_FIELDS : list (pystr * option nat) :=
  [(lit "username", None); (lit "password", None)].

(** ** Facts *)

(** The validators accept exactly a value within the length bound, with
    no null and no surrogate character. *)
Lemma char_validators_nil m s :
  char_validators m s = [] <->
  (forall n, m = Some n -> length s <= n) /\ 0%N ∉ s /\
  Forall (fun c => is_surrogate c = false) s.
Proof.
  unfold char_validators. rewrite !app_nil. split.
  - intros (H1 & H2 & H3). split; [|split].
    + intros n ->. revert H1. destruct (decide (n < length s)); [done|intros _; lia].
    + revert H2. by destruct (decide (0%N ∈ s)).
    + destruct (list_find _ s) as [[i c]|] eqn:Hf; [done|].
      apply list_find_None in Hf. eapply Forall_impl; [exact Hf|].
      intros c Hc. by apply not_true_iff_false.
  - intros (H1 & H2 & H3). split; [|split].
    + destruct m as [n|]; [|done]. specialize (H1 n eq_refl). by rewrite decide_False by lia.
    + by rewrite decide_False.
    + rewrite (proj2 (list_find_None _ _)); [done|].
      eapply Forall_impl; [exact H3|]. intros c Hc. by rewrite Hc.
Qed.

(** What a non-blank [CharField] accepts: a non-blank string, trimmed,
    or the trimmed [str()] of a number, that passes the validators. *)
Lemma char_field_inr fr m v q :
  char_field fr m false v = inr q ->
  char_validators m q = [] /\
  ((exists s, v = JStr s /\ strip s <> [] /\ q = strip s) \/
   (exists z, v = JInt z /\ q = strip (str_of_Z z)) \/
   (exists x, v = JFloat x /\ q = strip (fr x))).
Proof.
  assert (Hcheck : forall t, (match char_validators m (strip t) with
                              | [] => inr (strip t) | errs => inl errs end : list pystr + pystr) = inr q ->
                             char_validators m q = [] /\ q = strip t).
  { intros t. destruct (char_validators m (strip t)) eqn:E; [|done]. by intros [= <-]. }
  destruct v as [| |z|x|t| |]; simpl; try discriminate.
  - intros (? & ->)%Hcheck. eauto 10.
  - intros (? & ->)%Hcheck. eauto 10.
  - case_decide; [done|]. intros (? & ->)%Hcheck. eauto 10.
Qed.

(** A present value goes through the field's own validation when that
    refuses [null] the way [validate_empty_values] does ([CharField]
    does). *)
Lemma run_field_present {A} req partial (run : json -> list pystr + A) v :
  run JNull = inl [MSG_NULL] -> run_field req partial run (Some v) = Some (run v).
Proof. intros Hnull. destruct v; simpl; congruence. Qed.

(** A field that returns a value was given a value other than [null]. *)
Lemma run_field_Some_inr {A} req partial (run : json -> list pystr + A) o v :
  run_field req partial run o = Some (inr v) ->
  exists j, o = Some j /\ is_null j = false /\ run j = inr v.
Proof.
  destruct o as [j|]; simpl.
  - destruct (is_null j) eqn:E; [done|]. intros [= H]. eauto.
  - destruct partial; [done|]. by destruct req.
Qed.

(** A required field of a full validation is never skipped. *)
Lemma run_field_required {A} (run : json -> list pystr + A) o :
  is_Some (run_field true false run o).
Proof. destruct o as [j|]; simpl; [destruct (is_null j)|]; eauto. Qed.

Lemma char_field_null fr m ab : char_field fr m ab JNull = inl [MSG_NULL].
Proof. done. Qed.

(** A serializer of one required [CharField] validates an object whose
    value for the field [CharField] accepts. *)
Lemma validate_one_field fr f m data vals :
  validate_char_fields fr [(f, m)] data = inr vals ->
  exists items v q, data = JObj items /\ obj_get items f = Some v /\
                    char_field fr m false v = inr q /\ vals = [q].
Proof.
  destruct data as [| | | | | |items]; try discriminate.
  unfold validate_char_fields, validate_fields. intros H. simpl in H.
  destruct (obj_get items f) as [v|] eqn:Hv; [|discriminate].
  rewrite run_field_present in H by apply char_field_null.
  destruct (char_field fr m false v) as [errs|q] eqn:E; [discriminate|].
  injection H as <-. by exists items, v, q.
Qed.

(** [data.get(key)] returns a value the data holds under [key], and
    finds one whenever there is one. *)
Lemma obj_get_elem items k v : obj_get items k = Some v -> (k, v) ∈ items.
Proof.
  unfold obj_get. destruct (last _) as [[k' v']|] eqn:E; [|done]. intros [= <-].
  apply last_Some_elem_of, list_elem_of_filter in E as [Hk Hin]. simpl in Hk. by subst.
Qed.

Lemma obj_get_is_Some items k v : (k, v) ∈ items -> is_Some (obj_get items k).
Proof.
  intros Hin. unfold obj_get. apply fmap_is_Some, last_is_Some.
  intros Hnil. assert (Hf : (k, v) ∈ filter (fun kv => kv.1 = k) items).
  { by apply list_elem_of_filter. }
  rewrite Hnil in Hf. by apply not_elem_of_nil in Hf.
Qed.

Lemma obj_get_NoDup items k v :
  NoDup items.*1 -> (k, v) ∈ items -> obj_get items k = Some v.
Proof.
  intros Hnd Hin. destruct (obj_get_is_Some items k v Hin) as [v' Hv'].
  rewrite Hv'. f_equal. exact (NoDup_fst_unique _ _ _ _ Hnd (obj_get_elem _ _ _ Hv') Hin).
Qed.

(** What a serializer returns on success: the data was an object, every
    validated attribute comes from its field, and a field that was not
    skipped succeeded and is in [validated_data]. *)
Lemma validate_fields_inr {A} (fields : list (pystr * (option json -> option (list pystr + A))))
    data vd :
  validate_fields fields data = inr vd ->
  exists items, data = JObj items /\
    (forall k v, (k, v) ∈ vd ->
       exists run, (k, run) ∈ fields /\ run (obj_get items k) = Some (inr v)) /\
    (forall k run r, (k, run) ∈ fields -> run (obj_get items k) = Some r ->
       exists v, r = inr v /\ (k, v) ∈ vd).
Proof.
  destruct data as [| | | | | |items]; try discriminate. simpl.
  set (results := omap _ fields).
  destruct (omap _ results) as [|err errs] eqn:Herr; [|discriminate].
  intros [= <-]. exists items. split; [done|]. split.
  - intros k v ([k' [errs'|v']] & Hr & Hg)%list_elem_of_omap; simplify_eq/=.
    apply list_elem_of_omap in Hr as ([k'' run] & Hf & Hh). simpl in Hh.
    destruct (run (obj_get items k'')) eqn:E; simplify_eq/=. eauto.
  - intros k run r Hf Hrun.
    assert (Hin : (k, r) ∈ results).
    { apply list_elem_of_omap. exists (k, run). simpl. by rewrite Hrun. }
    destruct r as [errs'|v].
    + exfalso. assert (Hbad : (k, JArr (JStr <$> errs')) ∈ ([] : list (pystr * json))).
      { rewrite <- Herr. apply list_elem_of_omap. by exists (k, inl errs'). }
      by apply not_elem_of_nil in Hbad.
    + exists v. split; [done|]. apply list_elem_of_omap. by exists (k, inr v).
Qed.

(** ** The question [AskView.post] passes on *)

(** C37 (functional): every question [AskRequestSerializer] validates,
  which [AskView.post] passes to the pipeline, is non-empty, trimmed of
  surrounding whitespace ([strip q = q]), at most 5000 code points long, with no null
  and no surrogate character: the caller's side of the contract
  [ask(question: non-empty string, <= some max length)]. *)
Theorem ask_question_valid (float_repr : Q -> pystr) data vals :
  (forall x, strip (float_repr x) <> []) ->
  validate_char_fields float_repr ASK_FIELDS data = inr vals ->
  exists q, vals = [q] /\ q <> [] /\ strip q = q /\ length q <= 5000 /\ 0%N ∉ q /\
            Forall (fun c => is_surrogate c = false) q.
Proof.
  unfold ASK_FIELDS. intros Hfloat Hv.
  apply validate_one_field in Hv as (items & v & q & _ & _ & Hq & ->).
  apply char_field_inr in Hq as [Hval Hcase].
  apply char_validators_nil in Hval as (Hlen & H0 & Hs).
  exists q. split; [done|]. split; [|split; [|split; [by apply Hlen|done]]].
  - destruct Hcase as [(s & _ & Hs0 & ->)|[(z & _ & ->)|(x & _ & ->)]];
      [done|apply strip_str_of_Z|apply Hfloat].
  - destruct Hcase as [(s & _ & _ & ->)|[(z & _ & ->)|(x & _ & ->)]]; apply strip_idemp.
Qed.

End Http.
