(* ===== verification/Serializers.v ===== *)
(** * [KnowledgeBaseEntrySerializer] (serializers.py, 5-9)

    A [ModelSerializer] on [KnowledgeBaseEntry] (models.py, 5-22) with
    the fields [id, title, question, answer, tags, source, metadata,
    is_active, created_at, updated_at].  Django REST framework derives one
    serializer field from each model field; this file writes the derived
    fields out:
    - [title = CharField(max_length=255)], required, not blank;
    - [question = CharField(allow_blank=True)], not required (the model
      field has [blank=True, default=""]);
    - [answer = CharField()], required, not blank;
    - [tags], [metadata] = [JSONField()], not required, not null;
    - [source = CharField(max_length=255, allow_blank=True)], not required;
    - [is_active = BooleanField()], not required ([default=True]);
    - [id], [created_at], [updated_at] are read-only (an [AutoField] and
      two [auto_now]/[auto_now_add] fields): a request cannot set them.
    [validate_entry] is [is_valid(raise_exception=True)] on a JSON body
    (form bodies, where [JSONField] and [BooleanField] read strings, are
    not modelled); [create_entry] is [ModelSerializer.create]
    ([KnowledgeBaseEntry.objects.create] with [validated_data] as keyword arguments) and
    [update_entry] is [ModelSerializer.update] (one [setattr] per
    validated attribute, then [save()], which sets [updated_at]);
    [entry_to_json] is [serializer.data].  The messages and the accepted
    boolean spellings are those of Django REST framework 3.14-3.15.

    Theorems: everything the serializer accepts satisfies [entry_valid],
    the constraints of the serializer fields; a row built from a
    validated body is valid; and on a valid row, validating
    [entry_to_json] gives back its fields, so that [update_entry] with
    that body changes nothing but [updated_at]. *)

From S2P Require Import Prelude PyStr KnowledgeBase Http.
From stdpp Require Import list.
#[local] Open Scope nat_scope.
Import KnowledgeBase Http.

Module Serializers.

(** ** Fields *)

(** [BooleanField.TRUE_VALUES] and [FALSE_VALUES] that are strings *)
Definition TRUE_STRINGS : list pystr :=
  lit <$> ["t"; "T"; "y"; "Y"; "yes"; "Yes"; "YES"; "true"; "True"; "TRUE"; "on"; "On"; "ON"; "1"]%string.
Definition FALSE_STRINGS : list pystr :=
  lit <$> ["f"; "F"; "n"; "N"; "no"; "No"; "NO"; "false"; "False"; "FALSE"; "off"; "Off"; "OFF"; "0"]%string.

Definition MSG_BOOL_INVALID : pystr := lit "Must be a valid boolean.".

(** [BooleanField.to_internal_value]: [data in TRUE_VALUES] compares with
    Python's [==], so [1], [1.0] and [True] are true, [0], [0.0] and
    [False] false; a list or an object is unhashable and invalid. *)
Definition bool_field (v : json) : list pystr + bool :=
  match v with
  | JBool b => inr b
  | JInt z => if decide (z = 1%Z) then inr true else if decide (z = 0%Z) then inr false
              else inl [MSG_BOOL_INVALID]
  | JFloat x => if Qeq_bool x 1 then inr true else if Qeq_bool x 0 then inr false
                else inl [MSG_BOOL_INVALID]
  | JStr s => if decide (s ∈ TRUE_STRINGS) then inr true
              else if decide (s ∈ FALSE_STRINGS) then inr false else inl [MSG_BOOL_INVALID]
  | _ => inl [MSG_BOOL_INVALID]
  end.

(** [JSONField.to_internal_value] on a parsed JSON body: [json.dumps]
    succeeds and the value is kept. *)
Definition json_field (v : json) : list pystr + json := inr v.

(** The kind of a serializer field, with the options [ModelSerializer]
    derives from the model field. *)
Inductive field_kind :=
  | KChar (max_length : option nat) (allow_blank : bool)
  | KJson
  | KBool.

(** The writable fields of [KnowledgeBaseEntrySerializer] in declaration
    order: name, kind and [required]. *)
Definition ENTRY_FIELDS : list (pystr * (field_kind * bool)) :=
  [(lit "title", (KChar (Some 255) false, true));
   (lit "question", (KChar None true, false));
   (lit "answer", (KChar None false, true));
   (lit "tags", (KJson, false));
   (lit "source", (KChar (Some 255) true, false));
   (lit "metadata", (KJson, false));
   (lit "is_active", (KBool, false))].

Section EntrySerializer.
Variable float_repr : Q -> pystr.

(** [to_internal_value] of a field of this kind; the value it returns. *)
Definition run_kind (kd : field_kind) (v : json) : list pystr + json :=
  match kd with
  | KChar m ab => sum_map id JStr (char_field float_repr m ab v)
  | KJson => json_field v
  | KBool => sum_map id JBool (bool_field v)
  end.

(** The fields for a full ([partial = false]) or a partial update. *)
Definition entry_fields (partial : bool)
    : list (pystr * (option json -> option (list pystr + json))) :=
  (fun f => (f.1, run_field f.2.2 partial (run_kind f.2.1))) <$> ENTRY_FIELDS.

(** [KnowledgeBaseEntrySerializer(data=..., partial=...).is_valid(raise_exception=True)] *)
Definition validate_entry (partial : bool) (data : json) : json + list (pystr * json) :=
  validate_fields (entry_fields partial) data.
End EntrySerializer.

(** ** Saving *)

Definition attr_str (vd : list (pystr * json)) (k : pystr) (d : pystr) : pystr :=
  match obj_get vd k with Some (JStr s) => s | _ => d end.
Definition attr_json (vd : list (pystr * json)) (k : pystr) (d : json) : json :=
  default d (obj_get vd k).
Definition attr_bool (vd : list (pystr * json)) (k : pystr) (d : bool) : bool :=
  match obj_get vd k with Some (JBool b) => b | _ => d end.

(** [setattr(instance, attr, value)] for every attribute of
    [validated_data] (a dict: the last value of a key counts). *)
Definition assign (e : entry) (vd : list (pystr * json)) : entry :=
  mk_entry (kb_id e) (created_at e) (updated_at e)
    (attr_str vd (lit "title") (title e)) (attr_str vd (lit "question") (question e))
    (attr_str vd (lit "answer") (answer e)) (attr_json vd (lit "tags") (tags e))
    (attr_str vd (lit "source") (source e)) (attr_json vd (lit "metadata") (metadata e))
    (attr_bool vd (lit "is_active") (is_active e)).

(** A new row under the primary key [pk], saved at [now], with the
    model's defaults ([""] for a text field without a default). *)
Definition new_entry (pk now : Z) : entry :=
  mk_entry pk now now [] [] [] (JArr []) [] (JObj []) true.

(** [ModelSerializer.create]: [KnowledgeBaseEntry.objects.create] with [validated_data] as keyword arguments;
    [auto_now_add] and [auto_now] both read the clock [now]. *)
Definition create_entry (pk now : Z) (vd : list (pystr * json)) : entry :=
  assign (new_entry pk now) vd.

(** [ModelSerializer.update]: the attributes, then [instance.save()],
    whose [auto_now] sets [updated_at]. *)
Definition update_entry (e : entry) (now : Z) (vd : list (pystr * json)) : entry :=
  let e' := assign e vd in
  mk_entry (kb_id e') (created_at e') now (title e') (question e') (answer e') (tags e')
    (source e') (metadata e') (is_active e').

(** ** Reading *)

Section Representation.
(** [DateTimeField.to_representation] (ISO 8601) *)
Variable datetime_repr : Z -> pystr.

(** [KnowledgeBaseEntrySerializer(e).data] *)
Definition entry_to_json (e : entry) : json :=
  JObj [(lit "id", JInt (kb_id e)); (lit "title", JStr (title e));
        (lit "question", JStr (question e)); (lit "answer", JStr (answer e));
        (lit "tags", tags e); (lit "source", JStr (source e)); (lit "metadata", metadata e);
        (lit "is_active", JBool (is_active e));
        (lit "created_at", JStr (datetime_repr (created_at e)));
        (lit "updated_at", JStr (datetime_repr (updated_at e)))].
End Representation.

(** ** What the serializer accepts *)

(** A text value a [CharField] with these options returns: trimmed,
    non-blank unless blank is allowed, and passing the validators. *)
Definition text_ok (m : option nat) (allow_blank : bool) (s : pystr) : Prop :=
  strip s = s /\ (allow_blank = false -> s <> []) /\ char_validators m s = [].

#[export] Instance text_ok_dec m ab s : Decision (text_ok m ab s).
Proof. unfold text_ok. apply _. Defined.

(** The constraints of the serializer's fields on a row. *)
Definition entry_valid (e : entry) : Prop :=
  text_ok (Some 255) false (title e) /\ text_ok None true (question e) /\
  text_ok None false (answer e) /\ text_ok (Some 255) true (source e) /\
  is_null (tags e) = false /\ is_null (metadata e) = false.

#[export] Instance entry_valid_dec e : Decision (entry_valid e).
Proof. unfold entry_valid. apply _. Defined.

(** The values a field of each kind returns. *)
Definition kind_ok (kd : field_kind) (v : json) : Prop :=
  match kd with
  | KChar m ab => exists s, v = JStr s /\ text_ok m ab s
  | KJson => is_null v = false
  | KBool => exists b, v = JBool b
  end.

(** The writable attributes of a row, as [validated_data] holds them. *)
Definition entry_data (e : entry) : list (pystr * json) :=
  [(lit "title", JStr (title e)); (lit "question", JStr (question e));
   (lit "answer", JStr (answer e)); (lit "tags", tags e); (lit "source", JStr (source e));
   (lit "metadata", metadata e); (lit "is_active", JBool (is_active e))].

(** ** Facts *)

Lemma entry_fields_NoDup : NoDup ENTRY_FIELDS.*1.
Proof. by_eval. Qed.

Lemma char_validators_empty m : char_validators m [] = [].
Proof.
  apply char_validators_nil. split; [intros n _; simpl; lia|]. split; [|constructor].
  apply not_elem_of_nil.
Qed.

Section Fields.
Variable float_repr : Q -> pystr.
(** CPython's [repr] of a float is never blank. *)
Hypothesis float_repr_nonblank : forall x, strip (float_repr x) <> [].

(** Whatever a [CharField] returns is trimmed, within its validators,
    and blank only when blank is allowed. *)
Lemma char_field_text_ok m ab v s : char_field float_repr m ab v = inr s -> text_ok m ab s.
Proof.
  assert (Hcheck : forall t, (match char_validators m (strip t) with
                              | [] => inr (strip t) | errs => inl errs end : list pystr + pystr) = inr s ->
                             strip t <> [] -> text_ok m ab s).
  { intros t. destruct (char_validators m (strip t)) eqn:E; [|done].
    intros [= <-] Ht. split; [apply strip_idemp|]. by split. }
  destruct v as [| |z|x|t| |]; simpl; try discriminate.
  - intros H. apply (Hcheck _ H), strip_str_of_Z.
  - intros H. apply (Hcheck _ H), float_repr_nonblank.
  - case_decide as Hb.
    + destruct ab; [intros [= <-]|done]. split; [done|]. split; [done|].
      apply char_validators_empty.
    + intros H. exact (Hcheck _ H Hb).
Qed.

Lemma run_kind_ok kd j v :
  is_null j = false -> run_kind float_repr kd j = inr v -> kind_ok kd v.
Proof.
  intros Hj. destruct kd as [m ab| |]; simpl.
  - destruct (char_field _ _ _ _) as [|s] eqn:E; [done|]. intros [= <-].
    exists s. split; [done|]. by eapply char_field_text_ok.
  - by intros [= <-].
  - destruct (bool_field j) as [|b]; [done|]. intros [= <-]. by exists b.
Qed.

(** Every attribute of [validated_data] is a value its field returns. *)
Lemma validated_kind p data vd k kd r v :
  validate_entry float_repr p data = inr vd -> (k, (kd, r)) ∈ ENTRY_FIELDS ->
  (k, v) ∈ vd -> kind_ok kd v.
Proof.
  intros Hv Hk Hin. apply validate_fields_inr in Hv as (items & _ & Hsound & _).
  destruct (Hsound k v Hin) as (run & Hrun & Hres).
  apply list_elem_of_fmap in Hrun as ([k' [kd' r']] & Heq & Hk'). simplify_eq/=.
  assert (Hkd : (kd', r') = (kd, r)) by exact (NoDup_fst_unique _ _ _ _ entry_fields_NoDup Hk' Hk).
  simplify_eq. apply run_field_Some_inr in Hres as (j & _ & Hj & Hrun).
  by eapply run_kind_ok.
Qed.

(** A full validation returns every required field. *)
Lemma validated_required data vd k kd :
  validate_entry float_repr false data = inr vd -> (k, (kd, true)) ∈ ENTRY_FIELDS ->
  exists v, (k, v) ∈ vd.
Proof.
  intros Hv Hk. apply validate_fields_inr in Hv as (items & _ & _ & Hcomplete).
  destruct (run_field_required (run_kind float_repr kd) (obj_get items k)) as [r Hr].
  destruct (Hcomplete k (run_field true false (run_kind float_repr kd)) r) as (v & _ & Hin);
    [|exact Hr|by exists v].
  apply list_elem_of_fmap. by exists (k, (kd, true)).
Qed.
End Fields.

Lemma attr_str_text vd k m ab d :
  (forall v, (k, v) ∈ vd -> kind_ok (KChar m ab) v) ->
  text_ok m ab d \/ (exists v, (k, v) ∈ vd) -> text_ok m ab (attr_str vd k d).
Proof.
  intros Hvd Hd. unfold attr_str. destruct (obj_get vd k) as [j|] eqn:E.
  - apply obj_get_elem in E. by destruct (Hvd _ E) as (s & -> & Hs).
  - destruct Hd as [Hd|[v Hv]]; [done|]. apply obj_get_is_Some in Hv. rewrite E in Hv.
    by destruct Hv.
Qed.

Lemma attr_json_nonnull vd k d :
  (forall v, (k, v) ∈ vd -> is_null v = false) -> is_null d = false ->
  is_null (attr_json vd k d) = false.
Proof.
  intros Hvd Hd. unfold attr_json. destruct (obj_get vd k) as [j|] eqn:E; [|done].
  by apply Hvd, obj_get_elem.
Qed.

Local Ltac field_in :=
  repeat (first [apply elem_of_cons; left; reflexivity | apply elem_of_cons; right]).

Section Saving.
Variable float_repr : Q -> pystr.
Hypothesis float_repr_nonblank : forall x, strip (float_repr x) <> [].

(** Assigning validated attributes keeps the constraints; the required
    ones need not hold before a full validation, which sets them. *)
Lemma assign_valid p data vd e :
  validate_entry float_repr p data = inr vd ->
  text_ok (Some 255) false (title e) \/ p = false ->
  text_ok None false (answer e) \/ p = false ->
  text_ok None true (question e) -> text_ok (Some 255) true (source e) ->
  is_null (tags e) = false -> is_null (metadata e) = false ->
  entry_valid (assign e vd).
Proof using float_repr_nonblank.
  intros Hv Ht Ha Hq Hs Htg Hm.
  assert (Hkind : forall k kd r, (k, (kd, r)) ∈ ENTRY_FIELDS ->
                  forall v, (k, v) ∈ vd -> kind_ok kd v).
  { intros k kd r Hk v. by eapply validated_kind. }
  assert (Hreq : forall k kd, p = false -> (k, (kd, true)) ∈ ENTRY_FIELDS -> exists v, (k, v) ∈ vd).
  { intros k kd -> Hk. by eapply validated_required. }
  unfold entry_valid, assign; cbn [title question answer tags source metadata].
  split; [|split; [|split; [|split; [|split]]]].
  - apply attr_str_text; [apply (Hkind _ _ true); field_in|].
    destruct Ht as [Ht|Hp]; [by left|right]. apply (Hreq _ (KChar (Some 255) false) Hp). field_in.
  - apply attr_str_text; [apply (Hkind _ _ false); field_in|by left].
  - apply attr_str_text; [apply (Hkind _ _ true); field_in|].
    destruct Ha as [Ha|Hp]; [by left|right]. apply (Hreq _ (KChar None false) Hp). field_in.
  - apply attr_str_text; [apply (Hkind _ _ false); field_in|by left].
  - apply attr_json_nonnull; [|done]. apply (Hkind _ KJson false). field_in.
  - apply attr_json_nonnull; [|done]. apply (Hkind _ KJson false). field_in.
Qed.

(** [ModelSerializer.create] saves a row the serializer's constraints hold of. *)
Lemma create_entry_valid data vd pk now :
  validate_entry float_repr false data = inr vd -> entry_valid (create_entry pk now vd).
Proof using float_repr_nonblank.
  intros Hv. apply (assign_valid false data); auto; by_eval.
Qed.

(** [ModelSerializer.update] keeps them. *)
Lemma update_entry_valid e now p data vd :
  entry_valid e -> validate_entry float_repr p data = inr vd ->
  entry_valid (update_entry e now vd).
Proof using float_repr_nonblank.
  intros (Ht & Hq & Ha & Hs & Htg & Hm) Hv.
  exact (assign_valid p data vd e Hv (or_introl Ht) (or_introl Ha) Hq Hs Htg Hm).
Qed.
End Saving.

(** A [CharField] returns a value its constraints hold of unchanged. *)
Lemma char_field_text_ok_id fr m ab t : text_ok m ab t -> char_field fr m ab (JStr t) = inr t.
Proof.
  intros (Hs & Hb & Hv). simpl. destruct (decide (strip t = [])) as [E|E].
  - rewrite Hs in E. subst t. destruct ab; [done|]. by destruct Hb.
  - by rewrite Hs, Hv.
Qed.

Lemma assign_entry_data e : assign e (entry_data e) = e.
Proof. by destruct e. Qed.

Lemma assign_nil e : assign e [] = e.
Proof. by destruct e. Qed.

#[local] Arguments char_field : simpl never.

(** Validating the representation of a row whose fields meet the
    constraints gives back its writable attributes. *)
Lemma validate_entry_roundtrip fr dr e :
  entry_valid e -> validate_entry fr false (entry_to_json dr e) = inr (entry_data e).
Proof.
  intros (Ht & Hq & Ha & Hs & Htg & Hm).
  unfold validate_entry, validate_fields, entry_fields, entry_to_json. simpl.
  rewrite (char_field_text_ok_id _ _ _ _ Ht), (char_field_text_ok_id _ _ _ _ Hq),
    (char_field_text_ok_id _ _ _ _ Ha), (char_field_text_ok_id _ _ _ _ Hs), Htg, Hm.
  reflexivity.
Qed.

(** Updating a row with its own attributes changes only [updated_at]. *)
Lemma update_entry_data e now : update_entry e now (entry_data e) = update_entry e now [].
Proof. unfold update_entry. by rewrite assign_entry_data, assign_nil. Qed.

(** A partial validation of an empty object skips every field. *)
Lemma validate_entry_partial_empty fr : validate_entry fr true (JObj []) = inr [].
Proof. reflexivity. Qed.

End Serializers.
