(* ===== verification/RagService.v ===== *)
(** * The retrieve-and-compose pipeline: [RAGService] (services.py, 39-102)

    The service owns one [SimpleVectorIndex] ([svc_index]).  It reads the
    knowledge-base table [db] (passed explicitly: it is the database the
    ORM queries) and two readings of the wall clock [time.time()] for
    [ask] (passed explicitly: the clock is the environment).

    - [load_index] is [_load_index] (and [refresh_index], which only calls
      it): corpus [f"{title}\n{question}\n{answer}"] and ids of the active
      entries, then [index.build]; it returns the service it leaves with
      the outcome of the build (an exception propagates to the caller of
      [RAGService()] or of [refresh_index()], the service object stays).
      [init_service] is [RAGService()]: a raising [_load_index] means no
      service.  [service_reachable svc r] is the set of services the
      process can hold, with the outcome [r] of their last build:
      [RAGService()] and any number of refreshes, each against the table
      of its moment.
    - [retrieve] ranks with [index.search(question, top_k=k)], fetches the
      ranked ids and keeps, in rank order, those the fetch returned.
    - [generate] composes from at most three contexts; [snippet_of] is the
      body of its loop (strip, cut at 400 code points, "..." marker).
    - [ask] runs [retrieve(question, k=5)], [generate], and computes
      [int((t1 - t0) * 1000)]: [latency_of] truncates toward zero like
      Python's [int] on a float.  Times are rationals; the rounding of
      the float subtraction is not modelled.

    Theorems: every reachable service keeps one id per matrix row (rule
    induction on [service_reachable]); while its last build returned,
    [ask] never raises; after a refresh that raised (a corpus of stop
    words only), the TF-IDF service keeps the old matrix with a vectorizer
    that is not fitted, and every [ask] raises [NotFittedError];
    [load_index] is idempotent; [retrieve] keeps exactly the ranked ids
    present in the table in rank order, deactivated entries included;
    [generate] falls back iff it has no context and cuts long answers at
    exactly 400 code points; the latency is negative whenever the clock
    steps back by a millisecond or more; and with a consistent non-empty
    index whose ids are all in the table, [ask] never answers with the
    fallback message, whatever the similarity scores. *)

From S2P Require Import Prelude PyStr Ranking VectorIndex Tfidf KnowledgeBase.
From stdpp Require Import gmap.
From Stdlib Require Import Lqa.
#[local] Open Scope nat_scope.
Import KnowledgeBase.

Module RagService.

Section Service.
Context {V M : Type} `{!Vectorizer V M}.

(** The state of a [RAGService]: its index. *)
Record service := mk_service { svc_index : VectorIndex.index V M }.

(** [f"{e.title}\n{e.question}\n{e.answer}"] *)
Definition doc_text (e : entry) : pystr := title e ++ NL ++ question e ++ NL ++ answer e.

(** [RAGService._load_index]: the service it leaves (its index is
    changed in place by [build], also when [build] raises) and the
    outcome. *)
Definition load_index (svc : service) (db : table) : service * pyres () :=
  let entries := active_entries db in
  let corpus := doc_text <$> entries in
  let ids := kb_id <$> entries in
  let '(idx, r) := VectorIndex.build (svc_index svc) corpus ids in
  (mk_service idx, r).

(** [RAGService.__init__]: a constructor that raises yields no service. *)
Definition init_service (db : table) : pyres service :=
  match load_index (mk_service VectorIndex.init) db with
  | (svc, Ok _) => Ok svc
  | (_, Raise e) => Raise e
  end.

(** [RAGService.refresh_index] *)
Definition refresh_index (svc : service) (db : table) : service * pyres () := load_index svc db.

(** [RAGService.retrieve(question, k)] *)
Definition retrieve (svc : service) (db : table) (q : pystr) (k : Z) : pyres (list entry) :=
  results ← VectorIndex.search (svc_index svc) q k;
  let id_order := results.*1 in
  let entries := fetch_by_ids db id_order in
  mret (omap (fun i => entries !! i) id_order).

(** The message when no context was retrieved. *)
Definition FALLBACK : pystr :=
  lit "I don't have an exact answer in the knowledge base. Please provide more details.".

Definition HEADER : pystr := lit "Here is what I found related to your question:".

Definition FOOTER : pystr :=
  lit "If this doesn't fully answer your question, please rephrase or ask a follow-up.".

(** The loop body of [generate]: [e.answer.strip()], cut to its first
    400 code points with ["..."] appended when longer, as [f"- {snippet}"]. *)
Definition snippet_of (e : entry) : pystr :=
  let snippet := strip (answer e) in
  let snippet :=
    if decide (400 < length snippet) then py_take 400 snippet ++ lit "..." else snippet in
  lit "- " ++ snippet.

(** [RAGService.generate(question, contexts)] *)
Definition generate (q : pystr) (contexts : list entry) : pystr :=
  let snippets := snippet_of <$> py_take 3 contexts in
  match snippets with
  | [] => FALLBACK
  | _ :: _ => HEADER ++ NL ++ py_join NL snippets ++ NL ++ NL ++ FOOTER
  end.

(** One element of [contexts_json]. *)
Record context_json := mk_context_json {
  cj_id : Z; cj_title : pystr; cj_question : pystr; cj_answer : pystr;
  cj_tags : json; cj_source : pystr;
}.

Definition to_context_json (e : entry) : context_json :=
  mk_context_json (kb_id e) (title e) (question e) (answer e) (tags e) (source e).

(** Python's [int(x)] of a number: truncation toward zero. *)
Definition py_int (x : Q) : Z := Z.quot (Qnum x) (Zpos (Qden x)).

(** [int((time.time() - t0) * 1000)] *)
Definition latency_of (t0 t1 : Q) : Z := py_int ((t1 - t0) * 1000).

(** [RAGService.ask(question)], with the clock readings [t0] before and
    [t1] after the work. *)
Definition ask (svc : service) (db : table) (q : pystr) (t0 t1 : Q)
    : pyres (pystr * list context_json * Z) :=
  contexts ← retrieve svc db q 5;
  let answer := generate q contexts in
  let latency_ms := latency_of t0 t1 in
  mret (answer, to_context_json <$> contexts, latency_ms).

(** The services the process can hold, with the outcome of their last
    build: the one built at import time ([rag_service = RAGService()])
    and any refresh of a reachable one, each against the table of its
    moment, whether the refresh returned or raised. *)
Inductive service_reachable : service -> pyres () -> Prop :=
  | reach_init db svc :
      init_service db = Ok svc -> service_reachable svc (Ok ())
  | reach_refresh svc r db svc' r' :
      service_reachable svc r -> refresh_index svc db = (svc', r') -> service_reachable svc' r'.
End Service.

Section Theorems.
Context {V M : Type} `{!Vectorizer V M} `{!VectorizerLaws V M}.
Implicit Types (svc : service (V:=V) (M:=M)) (db : table) (q : pystr).

Lemma load_index_wf svc db svc' :
  load_index svc db = (svc', Ok ()) -> VectorIndex.index_wf (svc_index svc').
Proof.
  unfold load_index. destruct (VectorIndex.build _ _ _) as [idx r] eqn:Hb.
  intros [= <- ->]. simpl. eapply VectorIndex.build_wf; [|done]. by rewrite !length_fmap.
Qed.

Lemma init_service_ok db svc :
  init_service db = Ok svc -> load_index (mk_service VectorIndex.init) db = (svc, Ok ()).
Proof.
  unfold init_service. destruct (load_index _ _) as [svc0 [[]|e]]; [|done]. by intros [= ->].
Qed.

(** A service whose last build returned holds a consistent index. *)
Lemma reachable_wf svc :
  service_reachable svc (Ok ()) -> VectorIndex.index_wf (svc_index svc).
Proof.
  inversion 1 as [db ? Hinit|? ? db ? ? _ Hre]; subst.
  - by eapply load_index_wf, init_service_ok.
  - by eapply load_index_wf.
Qed.

(** C15 (invariant): every service the process can hold, also after a
  refresh that raised, has one id per matrix row and no ids without a
  matrix: a failed build changes neither. *)
Theorem reachable_rows_match svc r :
  service_reachable svc r -> VectorIndex.rows_match (svc_index svc).
Proof.
  induction 1 as [db svc Hinit|svc r db svc' r' _ IH Hre].
  - apply init_service_ok in Hinit. unfold load_index in Hinit.
    destruct (VectorIndex.build _ _ _) as [idx r] eqn:Hb. injection Hinit as <- _.
    change idx with (idx, r).1. rewrite <- Hb.
    apply VectorIndex.build_rows_match; [done|]. by rewrite !length_fmap.
  - unfold refresh_index, load_index in Hre.
    destruct (VectorIndex.build _ _ _) as [idx r0] eqn:Hb. injection Hre as <- _.
    change idx with (idx, r0).1. rewrite <- Hb.
    apply VectorIndex.build_rows_match; [done|]. by rewrite !length_fmap.
Qed.

(** [ask] on a consistent index does not raise. *)
Lemma ask_wf_total svc db q t0 t1 :
  VectorIndex.index_wf (svc_index svc) -> exists r, ask svc db q t0 t1 = Ok r.
Proof.
  intros Hwf. destruct (VectorIndex.search_total (svc_index svc) q 5 Hwf) as [res Hres].
  unfold ask, retrieve. rewrite Hres. by eexists.
Qed.

(** C1 (safety): [ask] never raises on a service whose last build
  returned. *)
Theorem ask_total svc db q t0 t1 :
  service_reachable svc (Ok ()) -> exists r, ask svc db q t0 t1 = Ok r.
Proof. intros Hr. by apply ask_wf_total, reachable_wf. Qed.

(** [_load_index] is idempotent: refreshing a second
  time against the same table gives back the same service. *)
Theorem load_index_idem svc db svc1 :
  load_index svc db = (svc1, Ok ()) -> load_index svc1 db = (svc1, Ok ()).
Proof.
  unfold load_index, VectorIndex.build. destruct (active_entries db) as [|e es]; simpl.
  - by intros [= <-].
  - destruct (fit_transform _ _) as [v [m|err]] eqn:Hfit; [|done]. intros [= <-]. simpl.
    by rewrite (fit_transform_fresh v (VectorIndex.vectorizer (svc_index svc))), Hfit.
Qed.

Lemma retrieve_ok_inv svc db q k l :
  retrieve svc db q k = Ok l ->
  exists res, VectorIndex.search (svc_index svc) q k = Ok res /\
              l = omap (fun i => db !! i) res.*1.
Proof.
  unfold retrieve. intros H. py_inv H. injection H as <-.
  exists a. split; [done|]. apply list_omap_ext, Forall_Forall2_diag, Forall_forall.
  intros i Hi. by apply fetch_by_ids_lookup.
Qed.

(** [retrieve] keeps exactly the ranked ids that are rows of the
  table, in rank order: nothing reordered, nothing padded. *)
Theorem retrieve_rank_order svc db q k l :
  table_wf db -> retrieve svc db q k = Ok l ->
  exists res, VectorIndex.search (svc_index svc) q k = Ok res /\
              kb_id <$> l = filter (fun i => is_Some (db !! i)) res.*1.
Proof.
  intros Hdb Hl. apply retrieve_ok_inv in Hl as (res & Hres & ->).
  exists res. split; [done|]. apply omap_fmap_inv. intros i e. apply Hdb.
Qed.

(** C10 (functional): a ranked entry that is still a row of the table is returned,
  whatever its [is_active] flag: [retrieve] does not drop entries
  deactivated since the last refresh. *)
Theorem retrieve_keeps_rows svc db q k l res i sc e :
  retrieve svc db q k = Ok l ->
  VectorIndex.search (svc_index svc) q k = Ok res ->
  (i, sc) ∈ res -> db !! i = Some e -> e ∈ l.
Proof.
  intros Hl Hres Hi He. apply retrieve_ok_inv in Hl as (res' & Hres' & ->).
  rewrite Hres in Hres'. injection Hres' as <-.
  apply list_elem_of_omap. exists i. split; [|done].
  apply list_elem_of_fmap. by exists (i, sc).
Qed.
(** A composed answer is never the fallback message: they differ in
  their first code point. *)
Lemma generate_cons_not_fallback q e cs : generate q (e :: cs) <> FALLBACK.
Proof.
  unfold generate. rewrite py_take_nonneg by lia. simpl. intros H.
  apply (f_equal (fun s => head s)) in H. vm_compute in H. discriminate.
Qed.

(** [generate] answers with the fallback message exactly when it is
  given no context. *)
Theorem generate_fallback_iff q contexts :
  generate q contexts = FALLBACK <-> contexts = [].
Proof.
  split; [|by intros ->]. destruct contexts as [|e cs]; [done|].
  by intros ?%generate_cons_not_fallback.
Qed.

(** C32 (bounds): an answer longer than 400 code points after [strip] is cut to
  exactly its first 400 code points followed by "...". *)
Theorem snippet_of_long e :
  400 < length (strip (answer e)) ->
  snippet_of e = lit "- " ++ take 400 (strip (answer e)) ++ lit "..." /\
  length (snippet_of e) = 405.
Proof.
  intros Hlong. unfold snippet_of. rewrite decide_True by done.
  rewrite py_take_nonneg by lia. split; [done|].
  rewrite !length_app, length_take. change (Z.to_nat 400) with 400. simpl length. lia.
Qed.

(** A shorter answer is kept whole, stripped. *)
Lemma snippet_of_short e :
  length (strip (answer e)) <= 400 -> snippet_of e = lit "- " ++ strip (answer e).
Proof. intros Hshort. unfold snippet_of. rewrite decide_False by lia. done. Qed.

(** The composed answer contains the snippet of the best-ranked
  context. *)
Theorem generate_first_snippet q e cs :
  str_in (snippet_of e) (generate q (e :: cs)).
Proof.
  unfold generate. rewrite py_take_nonneg by lia. change (Z.to_nat 3) with 3.
  rewrite firstn_cons. change (Init.Nat.pred 3) with 2.
  destruct (take 2 cs) as [|e' cs'] eqn:Ht; rewrite fmap_cons.
  - exists (HEADER ++ NL), (NL ++ NL ++ FOOTER). by rewrite <- !app_assoc.
  - rewrite fmap_cons, py_join_cons2.
    exists (HEADER ++ NL), (NL ++ py_join NL (snippet_of e' :: (snippet_of <$> cs')) ++ NL ++ NL ++ FOOTER).
    by rewrite <- !app_assoc.
Qed.

Lemma py_int_nonneg_iff x : (0 <= py_int x)%Z <-> (-1 < x)%Q.
Proof.
  destruct x as [n d]. unfold py_int, Qlt. simpl.
  destruct (Z.le_gt_cases 0 n) as [Hn|Hn].
  - pose proof (Z.quot_pos n (Zpos d) Hn ltac:(lia)). lia.
  - pose proof (Z.quot_opp_l (- n) (Zpos d) ltac:(lia)) as Hopp.
    rewrite Z.opp_involutive in Hopp. rewrite Hopp.
    pose proof (Z.quot_rem' (- n) (Zpos d)) as Hqr.
    pose proof (Z.rem_bound_pos (- n) (Zpos d) ltac:(lia) ltac:(lia)).
    pose proof (Z.quot_pos (- n) (Zpos d) ltac:(lia) ltac:(lia)). nia.
Qed.

(** C13 (bounds): the latency is non-negative exactly when the second
  clock reading is less than a millisecond before the first; a wall
  clock stepped back by a millisecond or more yields a negative
  [latency_ms]: nothing clamps it to zero. *)
Theorem latency_nonneg_iff t0 t1 :
  (0 <= latency_of t0 t1)%Z <-> (t0 - (1 # 1000) < t1)%Q.
Proof.
  unfold latency_of. rewrite py_int_nonneg_iff.
  split; intros H; lra.
Qed.

Lemma load_index_ids svc db svc' :
  load_index svc db = (svc', Ok ()) ->
  VectorIndex.ids (svc_index svc') = kb_id <$> active_entries db.
Proof.
  unfold load_index, VectorIndex.build. destruct (active_entries db) as [|e es]; simpl.
  - by intros [= <-].
  - destruct (fit_transform _ _) as [v [m|err]]; [|done]. by intros [= <-].
Qed.

(** On a consistent index whose ids are all rows of the table, [ask]
  returns [min(5, n)] contexts. *)
Lemma ask_contexts_length svc db q t0 t1 a cj lat :
  VectorIndex.index_wf (svc_index svc) ->
  (forall i, i ∈ VectorIndex.ids (svc_index svc) -> is_Some (db !! i)) ->
  ask svc db q t0 t1 = Ok (a, cj, lat) ->
  length cj = Nat.min 5 (length (VectorIndex.ids (svc_index svc))) /\
  exists contexts, a = generate q contexts /\ length contexts = length cj.
Proof.
  intros Hwf Hdb Hask. unfold ask in Hask. py_inv Hask. injection Hask as <- <- _.
  apply retrieve_ok_inv in Hc as (res & Hres & ->).
  destruct (VectorIndex.search_ok_inv _ _ _ _ Hwf Hres) as (sims & Hsl & ->).
  assert (Hl : length (omap (fun i => db !! i) (VectorIndex.search_spec
                 (VectorIndex.ids (svc_index svc)) sims 5).*1) =
               length (VectorIndex.search_spec (VectorIndex.ids (svc_index svc)) sims 5)).
  { rewrite omap_all_Some, length_fmap; [done|].
    intros i (x & -> & Hx)%list_elem_of_fmap. apply Hdb.
    eapply VectorIndex.search_ids_in; [done|by rewrite Hres|done]. }
  split; [|eexists; split; [done|by rewrite length_fmap]].
  rewrite length_fmap, Hl, VectorIndex.length_search_spec by done.
  by rewrite decide_True by lia.
Qed.

(** C11 (functional): there is no similarity cutoff: on a consistent index
  with at least one row, whose ids are all rows of the table, [ask]
  composes its answer from [min(5, n)] contexts and never answers with
  the fallback message, whatever the question. *)
Theorem ask_never_fallback svc db q t0 t1 a cj lat :
  VectorIndex.index_wf (svc_index svc) ->
  VectorIndex.ids (svc_index svc) <> [] ->
  (forall i, i ∈ VectorIndex.ids (svc_index svc) -> is_Some (db !! i)) ->
  ask svc db q t0 t1 = Ok (a, cj, lat) ->
  a <> FALLBACK /\ length cj = Nat.min 5 (length (VectorIndex.ids (svc_index svc))).
Proof.
  intros Hwf Hne Hdb Hask.
  destruct (ask_contexts_length _ _ _ _ _ _ _ _ Hwf Hdb Hask) as [Hlen (cs & -> & Hcs)].
  split; [|done]. destruct cs as [|e cs]; [|apply generate_cons_not_fallback].
  destruct (VectorIndex.ids (svc_index svc)); [done|]. simpl in *. lia.
Qed.

(** The ids of a refreshed index are rows of the table. *)
Lemma load_index_ids_in svc db svc' :
  table_wf db -> load_index svc db = (svc', Ok ()) ->
  forall i, i ∈ VectorIndex.ids (svc_index svc') -> is_Some (db !! i).
Proof.
  intros Hdb Hre. rewrite (load_index_ids _ _ _ Hre).
  intros i (e & -> & He)%list_elem_of_fmap.
  apply elem_of_active_entries in He as [[k Hk] _]. rewrite (Hdb _ _ Hk). by eexists.
Qed.

(** C12 (functional): right after a refresh against a table with an active
  entry, any question, related or not, gets a composed answer, not the
  fallback. *)
Theorem ask_after_refresh_never_fallback svc db svc' q t0 t1 a cj lat :
  table_wf db -> active_entries db <> [] ->
  refresh_index svc db = (svc', Ok ()) ->
  ask svc' db q t0 t1 = Ok (a, cj, lat) -> a <> FALLBACK.
Proof.
  intros Hdb Hact Hre Hask. unfold refresh_index in Hre.
  destruct (ask_contexts_length svc' db q t0 t1 a cj lat) as [Hlen (cs & -> & Hcs)];
    [by eapply load_index_wf|by eapply load_index_ids_in|done|].
  destruct cs as [|e cs]; [|apply generate_cons_not_fallback].
  rewrite (load_index_ids _ _ _ Hre), length_fmap in Hlen.
  destruct (active_entries db); [done|]. simpl in *. lia.
Qed.
End Theorems.

Section TfidfService.
Context `{!RealOps}.
#[local] Existing Instance Tfidf.tfidf_vectorizer.
Implicit Types (svc : service (V:=option Tfidf.fitted) (M:=list (list Q))).

(** A refresh that raises leaves an index on which every search of a
  non-empty snapshot raises [NotFittedError]. *)
Lemma search_after_failed_refresh svc db svc' e q k :
  VectorIndex.matrix (svc_index svc) <> None -> VectorIndex.ids (svc_index svc) <> [] ->
  refresh_index svc db = (svc', Raise e) ->
  VectorIndex.search (svc_index svc') q k = Raise NotFittedError.
Proof.
  intros Hm Hids Hre. unfold refresh_index, load_index in Hre.
  destruct (VectorIndex.build _ _ _) as [idx r] eqn:Hb. injection Hre as <- ->.
  destruct (VectorIndex.build_raise _ _ _ _ _ Hb) as (Hv & Hm' & Hids').
  assert (Hfail : (Tfidf.fit_transform_tfidf (VectorIndex.vectorizer (svc_index svc))
                     (doc_text <$> active_entries db)).2 = Raise e).
  { revert Hb. unfold VectorIndex.build. destruct (doc_text <$> active_entries db); [done|].
    simpl. destruct (Tfidf.fit_transform_tfidf _ _) as [v [m|e']]; [done|]. by intros [= _ ->]. }
  apply Tfidf.fit_transform_raise in Hfail as [Hnone _]. simpl in Hv. rewrite Hnone in Hv.
  unfold VectorIndex.search. simpl. rewrite Hm', Hids', Hv.
  destruct (VectorIndex.matrix (svc_index svc)); [|done]. by rewrite decide_False.
Qed.

(** A refresh against a table with an active entry that keeps a term
  after the stop words are dropped returns. *)
Lemma refresh_index_ok svc db :
  Exists (fun e => Tfidf.analyze (doc_text e) <> []) (active_entries db) ->
  (refresh_index svc db).2 = Ok ().
Proof.
  intros Hex. unfold refresh_index, load_index, VectorIndex.build.
  destruct (active_entries db) as [|e es] eqn:E; [by inversion Hex|].
  destruct (Tfidf.fit_transform_ok (VectorIndex.vectorizer (svc_index svc)) (doc_text <$> e :: es))
    as (f & m & Hfit); [by apply Exists_fmap|].
  simpl in Hfit |- *. by rewrite Hfit.
Qed.

(** C7 (error): with the TF-IDF vectorizer, a refresh that raises (a
  table whose active entries hold only stop words) leaves the index with
  its previous matrix and ids but an unfitted vectorizer: from then on
  every [ask] raises [NotFittedError], until a refresh returns. *)
Theorem ask_after_failed_refresh svc db svc' e db' q t0 t1 :
  VectorIndex.matrix (svc_index svc) <> None -> VectorIndex.ids (svc_index svc) <> [] ->
  refresh_index svc db = (svc', Raise e) ->
  ask svc' db' q t0 t1 = Raise NotFittedError.
Proof.
  intros Hm Hids Hre. unfold ask, retrieve.
  by rewrite (search_after_failed_refresh svc db svc' e q 5 Hm Hids Hre).
Qed.
End TfidfService.

End RagService.
