(* ===== verification/Views.v ===== *)
(** * The HTTP views (views.py)

    The process holds the two tables, the two primary-key counters of the
    database and the service [rag_service]: the record [world].  Each
    view is a function from the world and a request to the world it
    leaves and the response:
    - [health], [auth_post] ([AuthView.post]): no state;
      [authenticate] and the two JWT tokens of [RefreshToken.for_user]
      are parameters (Django's and simplejwt's);
    - [ask_post] ([AskView.post]): validation, [rag_service.ask], and one
      [QueryLog] row on success (status "ok") and on an exception (status
      "error", response 500);
    - [search_get] ([SearchView.get]): [int(limit)] is parsed before the
      empty-query check; [icontains] is SQLite's [LIKE], case-insensitive
      for ASCII letters only; [queryset[:limit]] refuses a negative
      limit.  An exception escapes the view: [respond] turns it into
      Django's 500 page;
    - [kb_view] ([KnowledgeBaseViewSet]): [get_permissions] (anyone may
      list and retrieve, only staff may write or refresh), the
      [ModelViewSet] actions ([get_object] before validation, then
      [KnowledgeBaseEntrySerializer] and [create] or [update]), and the
      [refresh-index] action.
    [handle] dispatches an [event] (one request, with the clock readings
    it sees) and [world_reachable] is the set of worlds the process can
    reach from its start, [step] one request between two worlds.  The
    theorems: the world invariant and the row constraints of the
    serializer by rule induction, the type of every [QueryLog] row
    ([log_typed]), who may write, the answers of each view, and recovery
    from a failed refresh by one staff request ([refresh_recovers]). *)

From S2P Require Import Prelude PyStr Ranking VectorIndex Tfidf KnowledgeBase Http Serializers RagService.
From stdpp Require Import gmap sorting.
From Stdlib Require Import Lqa.
#[local] Open Scope nat_scope.
Import KnowledgeBase Http Serializers.
#[local] Set Default Proof Using "Type".

Module Views.

Section Views.
Context {V M : Type} `{!Vectorizer V M}.
(** CPython's [repr] of a float and [DateTimeField]'s rendering *)
Variable float_repr : Q -> pystr.
Variable datetime_repr : Z -> pystr.
(** [django.contrib.auth.authenticate(username=..., password=...)] and
    the two tokens of [RefreshToken.for_user(user)] *)
Variable authenticate : pystr -> pystr -> option user.
Variable access_token refresh_token : user -> pystr.

(** The state of the process: the [KnowledgeBaseEntry] and [QueryLog]
    tables, the next primary key each table assigns, and [rag_service]. *)
Record world := mk_world {
  w_kb : table;
  w_logs : gmap Z query_log;
  w_next_log : Z;
  w_next_kb : Z;
  w_svc : RagService.service (V:=V) (M:=M);
}.

(** [health] *)
Definition health : response := mk_response 200 (JObj [(lit "message", JStr (lit "Server is up!"))]).

(** The answer of [AuthView.post] to the user [authenticate] returned. *)
Definition auth_response (u : option user) : response :=
  match u with
  | None => mk_response 401 (detail (lit "Invalid credentials"))
  | Some u => mk_response 200 (JObj [(lit "access", JStr (access_token u));
                                     (lit "refresh", JStr (refresh_token u))])
  end.

(** [AuthView.post] *)
Definition auth_post (r : request) : response :=
  match validate_char_fields float_repr AUTH_FIELDS (req_data r) with
  | inl errs => mk_response 400 errs
  | inr vals => auth_response (authenticate (vals !!! 0) (vals !!! 1))
  end.

(** [str(exc)] *)
Definition exc_str (e : exc) : pystr :=
  match e with
  | IndexError => lit "list index out of range"
  | ValueError msg => lit msg
  | NotFittedError =>
      lit "This TfidfTransformer instance is not fitted yet. Call 'fit' with appropriate arguments before using this estimator."
  end.

(** [QueryLog.objects.create(...)]: the row under the next primary key,
    [created_at] and [updated_at] set to [now]. *)
Definition create_log (w : world) (now : Z) (u : option user) (q : pystr) (ctx_ids : json)
    (ans : pystr) (lat : Z) (st err : pystr) : world * Z :=
  let lid := w_next_log w in
  let row := mk_query_log lid now now (user_pk <$> u) q ctx_ids ans lat st err in
  (mk_world (w_kb w) (<[lid := row]> (w_logs w)) (lid + 1) (w_next_kb w) (w_svc w), lid).

(** One element of [contexts] in the response. *)
Definition context_to_json (c : RagService.context_json) : json :=
  JObj [(lit "id", JInt (RagService.cj_id c)); (lit "title", JStr (RagService.cj_title c));
        (lit "question", JStr (RagService.cj_question c));
        (lit "answer", JStr (RagService.cj_answer c)); (lit "tags", RagService.cj_tags c);
        (lit "source", JStr (RagService.cj_source c))].

(** [AskView.post], with the clock readings [t0], [t1] of [ask] and the
    time [now] of the log row. *)
Definition ask_post (w : world) (r : request) (t0 t1 : Q) (now : Z) : world * response :=
  match validate_char_fields float_repr ASK_FIELDS (req_data r) with
  | inl errs => (w, mk_response 400 errs)
  | inr vals =>
      let q := vals !!! 0 in
      match RagService.ask (w_svc w) (w_kb w) q t0 t1 with
      | Ok (ans, contexts, lat) =>
          let '(w', qid) := create_log w now (req_user r) q
                              (JArr ((fun c => JInt (RagService.cj_id c)) <$> contexts))
                              ans lat (lit "ok") [] in
          (w', mk_response 200 (JObj [(lit "answer", JStr ans);
                                      (lit "contexts", JArr (context_to_json <$> contexts));
                                      (lit "latency_ms", JInt lat); (lit "query_id", JInt qid)]))
      | Raise e =>
          let '(w', qid) := create_log w now (req_user r) q (JArr []) [] 0 (lit "error")
                              (exc_str e) in
          (w', mk_response 500 (JObj [(lit "detail", JStr (lit "Failed to generate answer"));
                                      (lit "query_id", JInt qid)]))
      end
  end.

(** ** Search *)

(** [field__icontains=query] on SQLite: [LIKE '%query%' ESCAPE '\'],
    which ignores the case of ASCII letters only. *)
Definition icontains (field query : pystr) : bool :=
  infixb (ascii_fold <$> query) (ascii_fold <$> field).

(** The active entries matching the query in one of the three fields, by
    [-updated_at]. *)
Definition search_matches (db : table) (query : pystr) : list entry :=
  filter (fun e => (icontains (title e) query || icontains (question e) query ||
                    icontains (answer e) query) = true) (active_entries db).

(** [queryset[:limit]] *)
Definition qs_slice {A} (l : list A) (limit : Z) : pyres (list A) :=
  if decide (limit < 0)%Z then Raise (ValueError "Negative indexing is not supported.")
  else Ok (take (Z.to_nat limit) l).

(** [SearchView.get]; an exception escapes the view. *)
Definition search_get (w : world) (r : request) : pyres response :=
  let query := strip (query_get (req_params r) (lit "query") []) in
  limit ← py_int_of_str (query_get (req_params r) (lit "limit") (lit "10"));
  if decide (query = []) then mret (mk_response 200 (JObj [(lit "results", JArr [])]))
  else
    rows ← qs_slice (search_matches (w_kb w) query) limit;
    mret (mk_response 200 (JObj [(lit "results", JArr (entry_to_json datetime_repr <$> rows))])).

(** An exception that escapes a view: Django's "Server Error (500)"
    page, whose HTML body is not modelled. *)
Definition respond (r : pyres response) : response :=
  match r with Ok resp => resp | Raise _ => mk_response 500 JNull end.

(** ** [KnowledgeBaseViewSet] *)

(** The actions of the viewset, with the request body of the writes;
    [KbUpdate pk data partial] is [update] (PUT) or, when [partial],
    [partial_update] (PATCH). *)
Inductive kb_action :=
  | KbList
  | KbRetrieve (pk : Z)
  | KbCreate (data : json)
  | KbUpdate (pk : Z) (data : json) (partial : bool)
  | KbDestroy (pk : Z)
  | KbRefreshIndex.

(** [get_permissions]: [AllowAny] for [list] and [retrieve],
    [IsAdminUser] otherwise. *)
Definition kb_allowed (a : kb_action) (u : option user) : bool :=
  match a with
  | KbList | KbRetrieve _ => true
  | _ => match u with Some u => is_staff u | None => false end
  end.

(** The refusal: 401 without credentials (the first authentication class
    names a [WWW-Authenticate] scheme, as simplejwt's does), 403 for a
    user who is not staff. *)
Definition denied (u : option user) : response :=
  match u with
  | None => mk_response 401 (detail (lit "Authentication credentials were not provided."))
  | Some _ => mk_response 403 (detail (lit "You do not have permission to perform this action."))
  end.

Definition not_found : response :=
  mk_response 404 (detail (lit "No KnowledgeBaseEntry matches the given query.")).

(** [queryset = KnowledgeBaseEntry.objects.all().order_by('-updated_at')] *)
Definition all_entries (db : table) : list entry :=
  merge_sort by_updated_desc (map_to_list db).*2.

Definition set_kb (w : world) (db : table) (next_kb : Z) : world :=
  mk_world db (w_logs w) (w_next_log w) next_kb (w_svc w).

(** One request to the viewset by [u] at time [now]. *)
Definition kb_view (w : world) (u : option user) (a : kb_action) (now : Z)
    : world * pyres response :=
  if negb (kb_allowed a u) then (w, Ok (denied u)) else
  match a with
  | KbList => (w, Ok (mk_response 200 (JArr (entry_to_json datetime_repr <$> all_entries (w_kb w)))))
  | KbRetrieve pk =>
      (w, Ok (match w_kb w !! pk with
              | Some e => mk_response 200 (entry_to_json datetime_repr e)
              | None => not_found
              end))
  | KbCreate data =>
      match validate_entry float_repr false data with
      | inl errs => (w, Ok (mk_response 400 errs))
      | inr vd =>
          let pk := w_next_kb w in
          let e := create_entry pk now vd in
          (set_kb w (<[pk := e]> (w_kb w)) (pk + 1), Ok (mk_response 201 (entry_to_json datetime_repr e)))
      end
  | KbUpdate pk data partial =>
      match w_kb w !! pk with
      | None => (w, Ok not_found)
      | Some old =>
          match validate_entry float_repr partial data with
          | inl errs => (w, Ok (mk_response 400 errs))
          | inr vd =>
              let e := update_entry old now vd in
              (set_kb w (<[pk := e]> (w_kb w)) (w_next_kb w),
               Ok (mk_response 200 (entry_to_json datetime_repr e)))
          end
      end
  | KbDestroy pk =>
      match w_kb w !! pk with
      | Some _ => (set_kb w (delete pk (w_kb w)) (w_next_kb w), Ok (mk_response 204 JNull))
      | None => (w, Ok not_found)
      end
  | KbRefreshIndex =>
      let '(svc', r) := RagService.refresh_index (w_svc w) (w_kb w) in
      (mk_world (w_kb w) (w_logs w) (w_next_log w) (w_next_kb w) svc',
       r;; mret (mk_response 200 (JObj [(lit "status", JStr (lit "ok"))])))
  end.

(** ** Requests *)

(** One request, with the clock readings the view sees. *)
Inductive event :=
  | EvHealth
  | EvAuth (r : request)
  | EvAsk (r : request) (t0 t1 : Q) (now : Z)
  | EvSearch (r : request)
  | EvKb (u : option user) (a : kb_action) (now : Z).

Definition handle (w : world) (ev : event) : world * response :=
  match ev with
  | EvHealth => (w, health)
  | EvAuth r => (w, auth_post r)
  | EvAsk r t0 t1 now => ask_post w r t0 t1 now
  | EvSearch r => (w, respond (search_get w r))
  | EvKb u a now => let '(w', r) := kb_view w u a now in (w', respond r)
  end.

(** The tables are stored under their primary keys, below the next key
    their counter assigns. *)
Definition world_wf (w : world) : Prop :=
  table_wf (w_kb w) /\ (forall k, is_Some (w_kb w !! k) -> (k < w_next_kb w)%Z) /\
  (forall k l, w_logs w !! k = Some l -> log_id l = k /\ (k < w_next_log w)%Z).

(** The worlds the process reaches: it starts on well-formed tables with
    the service [RAGService()] builds from them, then serves requests one
    at a time. *)
Inductive world_reachable : world -> Prop :=
  | world_init w svc :
      world_wf w -> RagService.init_service (w_kb w) = Ok svc ->
      w_svc w = svc -> world_reachable w
  | world_step w ev : world_reachable w -> world_reachable (handle w ev).1.

(** One request served. *)
Definition step (w w' : world) : Prop := exists ev, w' = (handle w ev).1.

(** The values [AskView.post] writes in a [QueryLog] row: the ids of the
    contexts, a list of integers, with status "ok"; or no context, no
    answer, latency 0, with status "error". *)
Definition log_typed (l : query_log) : Prop :=
  (status l = lit "ok" /\ exists ids, retrieved_context_ids l = JArr (JInt <$> ids)) \/
  (status l = lit "error" /\ retrieved_context_ids l = JArr [] /\ log_answer l = [] /\
   latency_ms l = 0%Z).

(** ** The world invariant *)

Context `{!VectorizerLaws V M}.

Lemma create_log_wf w now u q ids ans lat st err :
  world_wf w -> world_wf (create_log w now u q ids ans lat st err).1.
Proof.
  intros (Hkb & Hnext & Hlogs). split; [done|]. split; [done|]. simpl.
  intros k l. rewrite lookup_insert_Some.
  intros [[<- <-]|[_ Hk]]; [simpl; lia|]. destruct (Hlogs k l Hk). lia.
Qed.

Lemma create_log_kb_svc w now u q ids ans lat st err :
  w_kb (create_log w now u q ids ans lat st err).1 = w_kb w /\
  w_svc (create_log w now u q ids ans lat st err).1 = w_svc w.
Proof. done. Qed.

(** [AskView.post] changes the log table only. *)
Lemma ask_post_kb_svc w r t0 t1 now :
  w_kb (ask_post w r t0 t1 now).1 = w_kb w /\ w_svc (ask_post w r t0 t1 now).1 = w_svc w.
Proof.
  unfold ask_post. destruct (validate_char_fields _ _ _); [done|].
  by destruct (RagService.ask _ _ _ _ _) as [[[? ?] ?]|?].
Qed.

Lemma ask_post_wf w r t0 t1 now : world_wf w -> world_wf (ask_post w r t0 t1 now).1.
Proof.
  intros Hw. unfold ask_post. destruct (validate_char_fields _ _ _); [done|].
  destruct (RagService.ask _ _ _ _ _) as [[[? ?] ?]|?]; by apply create_log_wf.
Qed.

Lemma kb_view_wf w u a now : world_wf w -> world_wf (kb_view w u a now).1.
Proof.
  intros (Hkb & Hnext & Hlogs). unfold kb_view.
  destruct (negb _); [done|]. destruct a as [| |data|pk data partial|pk|]; simpl.
  - done.
  - done.
  - destruct (validate_entry _ _ _) as [errs|vd]; [done|].
    split; [|split; [|done]]; simpl.
    + change (w_next_kb w) with (kb_id (create_entry (w_next_kb w) now vd)) at 1.
      by apply table_wf_insert.
    + intros k [<-|He]%lookup_insert_is_Some'; [lia|]. specialize (Hnext k He). lia.
  - destruct (w_kb w !! pk) as [old|] eqn:Hold; [|done].
    destruct (validate_entry _ _ _) as [errs|vd]; [done|].
    split; [|split; [|done]]; simpl.
    + assert (Hid : kb_id (update_entry old now vd) = pk) by exact (Hkb pk old Hold).
      rewrite <- Hid at 1. by apply table_wf_insert.
    + intros k [<-|Hk]%lookup_insert_is_Some'; apply Hnext; [by rewrite Hold|done].
  - destruct (w_kb w !! pk); [|done]. split; [|split; [|done]]; simpl.
    + intros k e0. rewrite lookup_delete_Some. intros [_ Hk]. by apply Hkb.
    + intros k [_ Hk]%lookup_delete_is_Some. by apply Hnext.
  - by destruct (RagService.refresh_index _ _).
Qed.

Lemma handle_wf w ev : world_wf w -> world_wf (handle w ev).1.
Proof.
  intros Hw. destruct ev as [|r|r t0 t1 now|r|u a now]; simpl; try done.
  - by apply ask_post_wf.
  - pose proof (kb_view_wf w u a now Hw). by destruct (kb_view w u a now).
Qed.

(** The service only changes by a refresh against the current table. *)
Lemma handle_svc w ev :
  w_svc (handle w ev).1 = w_svc w \/
  exists r, RagService.refresh_index (w_svc w) (w_kb w) = (w_svc (handle w ev).1, r).
Proof.
  destruct ev as [|r|r t0 t1 now|r|u a now]; simpl; try by left.
  - left. apply ask_post_kb_svc.
  - unfold kb_view. destruct (negb _); [by left|].
    destruct a as [| |data|pk data partial|pk|]; simpl; try by left.
    + destruct (validate_entry _ _ _); by left.
    + destruct (w_kb w !! pk); [destruct (validate_entry _ _ _)|]; by left.
    + destruct (w_kb w !! pk); by left.
    + right. destruct (RagService.refresh_index _ _) as [svc' r] eqn:Hre. by exists r.
Qed.

(** The service of a reachable world is one the process can hold. *)
Lemma world_reachable_svc w :
  world_reachable w -> exists r, RagService.service_reachable (w_svc w) r.
Proof.
  induction 1 as [w svc Hwf Hinit Hsvc|w ev _ [r Hr]].
  - exists (Ok ()). rewrite Hsvc. by eapply RagService.reach_init.
  - destruct (handle_svc w ev) as [->|[r' Hre]]; [by exists r|].
    exists r'. by eapply RagService.reach_refresh.
Qed.

(** C16 (invariant): in every world the process reaches, both tables are
  stored under their primary keys below their counters (so [QueryLog]
  ids are never reused), and the service is one the process can hold:
  built by [RAGService()] and refreshed against the table of each
  refresh's moment. *)
Theorem world_reachable_wf w :
  world_reachable w ->
  world_wf w /\ exists r, RagService.service_reachable (w_svc w) r.
Proof.
  intros Hr. split; [|by apply world_reachable_svc].
  induction Hr as [w svc Hwf| w ev _ Hwf]; [done|by apply handle_wf].
Qed.

(** ** [AskView.post] *)

(** C17 (functional): [AskView.post] answers an invalid request with 400
  and leaves the world as it was; a valid one writes exactly one
  [QueryLog] row, under the next primary key, with the validated
  question, and answers 200 with a row of status "ok" or 500 with a row
  of status "error", the response naming the row's id as [query_id];
  nothing else changes. *)
Theorem ask_post_logs_once w r t0 t1 now w' resp :
  ask_post w r t0 t1 now = (w', resp) ->
  (exists errs, validate_char_fields float_repr ASK_FIELDS (req_data r) = inl errs /\
                w' = w /\ resp = mk_response 400 errs) \/
  (exists vals row items,
     validate_char_fields float_repr ASK_FIELDS (req_data r) = inr vals /\
     w' = mk_world (w_kb w) (<[w_next_log w := row]> (w_logs w)) (w_next_log w + 1)
            (w_next_kb w) (w_svc w) /\
     log_id row = w_next_log w /\ log_question row = vals !!! 0 /\
     ((status_code resp = 200%Z /\ status row = lit "ok") \/
      (status_code resp = 500%Z /\ status row = lit "error")) /\
     body resp = JObj items /\ obj_get items (lit "query_id") = Some (JInt (w_next_log w))).
Proof.
  unfold ask_post. destruct (validate_char_fields _ _ _) as [errs|vals]; intros Hask.
  - injection Hask as <- <-. left. by exists errs.
  - right. destruct (RagService.ask _ _ _ _ _) as [[[ans ctx] lat]|e];
      simpl in Hask; injection Hask as <- <-; do 3 eexists;
      (split; [done|]); (split; [done|]); (split; [done|]); (split; [done|]);
      (split; [by (left + right)|]); done.
Qed.

(** The row [ask_post] writes for a valid request. *)
Lemma ask_post_row w r t0 t1 now vals :
  validate_char_fields float_repr ASK_FIELDS (req_data r) = inr vals ->
  exists row, w_logs (ask_post w r t0 t1 now).1 !! w_next_log w = Some row /\
    match RagService.ask (w_svc w) (w_kb w) (vals !!! 0) t0 t1 with
    | Ok _ => status_code (ask_post w r t0 t1 now).2 = 200%Z /\ status row = lit "ok"
    | Raise e => status_code (ask_post w r t0 t1 now).2 = 500%Z /\ status row = lit "error" /\
                 error row = exc_str e
    end.
Proof.
  intros Hv. unfold ask_post. rewrite Hv.
  destruct (RagService.ask _ _ _ _ _) as [[[ans ctx] lat]|e]; simpl;
    (eexists; split; [apply lookup_insert_eq|]); simpl; repeat split.
Qed.

(** C18 (safety): while the service's last build returned, every valid
  question is answered with 200 and logged with status "ok". *)
Theorem ask_post_ok w r t0 t1 now vals :
  RagService.service_reachable (w_svc w) (Ok ()) ->
  validate_char_fields float_repr ASK_FIELDS (req_data r) = inr vals ->
  status_code (ask_post w r t0 t1 now).2 = 200%Z /\
  exists row, w_logs (ask_post w r t0 t1 now).1 !! w_next_log w = Some row /\
              status row = lit "ok".
Proof using VectorizerLaws0.
  intros Hr Hv. destruct (ask_post_row w r t0 t1 now vals Hv) as (row & Hrow & Hst).
  destruct (RagService.ask_wf_total (w_svc w) (w_kb w) (vals !!! 0) t0 t1)
    as [res Hres]; [by apply RagService.reachable_wf|].
  rewrite Hres in Hst. destruct Hst. eauto.
Qed.

(** ** Who writes *)

(** C19 (safety): only a staff user's request changes the knowledge base
  or the service: an anonymous or non-staff request to the viewset, and
  every request to the other views, leaves both as they were. *)
Theorem only_staff_writes w ev :
  w_kb (handle w ev).1 <> w_kb w \/ w_svc (handle w ev).1 <> w_svc w ->
  exists u a now, ev = EvKb (Some u) a now /\ is_staff u = true.
Proof.
  destruct ev as [|r|r t0 t1 now|r|u a now]; simpl; try tauto.
  - destruct (ask_post_kb_svc w r t0 t1 now) as [-> ->]. tauto.
  - unfold kb_view. destruct (kb_allowed a u) eqn:Ha; simpl; [|tauto].
    destruct a as [| |data|pk data partial|pk|]; simpl; try tauto;
      (destruct u as [u|]; [|done]; intros _; exists u; eexists _, _; split; [reflexivity|exact Ha]).
Qed.

(** ** Writes through [KnowledgeBaseEntrySerializer] *)

Lemma kb_view_entries_valid w u a now :
  (forall x, strip (float_repr x) <> []) ->
  map_Forall (fun _ => entry_valid) (w_kb w) ->
  map_Forall (fun _ => entry_valid) (w_kb (kb_view w u a now).1).
Proof.
  intros Hfr Hw. unfold kb_view. destruct (negb _); [done|].
  destruct a as [| |data|pk data partial|pk|]; simpl; try done.
  - destruct (validate_entry _ _ _) as [errs|vd] eqn:Hv; [done|].
    apply map_Forall_insert_2; [by eapply create_entry_valid|done].
  - destruct (w_kb w !! pk) as [old|] eqn:Hold; [|done].
    destruct (validate_entry _ _ _) as [errs|vd] eqn:Hv; [done|].
    apply map_Forall_insert_2; [|done].
    eapply update_entry_valid; [done| |exact Hv]. exact (Hw pk old Hold).
  - destruct (w_kb w !! pk); [|done]. by apply map_Forall_delete.
  - by destruct (RagService.refresh_index _ _).
Qed.

(** ** [SearchView.get] *)

Lemma search_matches_sorted db q : StronglySorted by_updated_desc (search_matches db q).
Proof.
  apply StronglySorted_filter, Sorted_StronglySorted; [|apply active_entries_sorted].
  intros a b c. unfold by_updated_desc. lia.
Qed.

Lemma search_matches_spec db q e :
  e ∈ search_matches db q <->
  (exists k, db !! k = Some e) /\ is_active e = true /\
  (str_in (ascii_fold <$> q) (ascii_fold <$> title e) \/
   str_in (ascii_fold <$> q) (ascii_fold <$> question e) \/
   str_in (ascii_fold <$> q) (ascii_fold <$> answer e)).
Proof.
  unfold search_matches, icontains.
  rewrite list_elem_of_filter, elem_of_active_entries, !orb_true_iff, !infixb_spec. split.
  - intros [[[H|H]|H] [Hk Ha]]; (split; [done|split; [done|]]); [left|right; left|right; right]; done.
  - intros (Hk & Ha & [H|[H|H]]); (split; [|done]); [left; left|left; right|right]; done.
Qed.

(** C35 (error): [SearchView.get] parses [limit] before it looks at the
  query: a request with an empty query gets the empty result list
  exactly when its [limit] is an integer literal; otherwise the view
  raises and the client gets a 500. *)
Theorem search_empty_query w r :
  strip (query_get (req_params r) (lit "query") []) = [] ->
  search_get w r = Ok (mk_response 200 (JObj [(lit "results", JArr [])])) <->
  exists n, py_int_of_str (query_get (req_params r) (lit "limit") (lit "10")) = Ok n.
Proof.
  intros Hq. unfold search_get. rewrite Hq.
  destruct (py_int_of_str _) as [n|e]; simpl.
  - split; [by exists n|done].
  - split; [done|by intros [? ?]].
Qed.

(** C34 (functional): for a non-empty query and a limit [n >= 0],
  [SearchView.get] answers the first [n] (all when fewer) of the entries
  [search_matches] lists, which are exactly the active rows containing
  the query in their title, question or answer (ignoring the case of
  ASCII letters), newest [updated_at] first; a negative limit makes it
  raise. *)
Theorem search_get_results w r q n :
  strip (query_get (req_params r) (lit "query") []) = q -> q <> [] ->
  py_int_of_str (query_get (req_params r) (lit "limit") (lit "10")) = Ok n ->
  if decide (n < 0)%Z then exists e, search_get w r = Raise e
  else
    search_get w r =
      Ok (mk_response 200 (JObj [(lit "results",
            JArr (entry_to_json datetime_repr <$> take (Z.to_nat n) (search_matches (w_kb w) q)))])) /\
    StronglySorted by_updated_desc (search_matches (w_kb w) q) /\
    forall e, e ∈ search_matches (w_kb w) q <->
      (exists k, w_kb w !! k = Some e) /\ is_active e = true /\
      (str_in (ascii_fold <$> q) (ascii_fold <$> title e) \/
       str_in (ascii_fold <$> q) (ascii_fold <$> question e) \/
       str_in (ascii_fold <$> q) (ascii_fold <$> answer e)).
Proof.
  intros Hq Hne Hn. unfold search_get. cbn zeta. rewrite Hq, Hn. simpl.
  destruct (decide (q = [])) as [Heq|_]; [exfalso; exact (Hne Heq)|]. unfold qs_slice.
  case_decide; simpl; [eexists; reflexivity|].
  split; [done|]. split; [apply search_matches_sorted|]. intros e. apply search_matches_spec.
Qed.

(** ** [AuthView.post] *)

(** C36 (functional): [AuthView.post] trims both fields before it
  authenticates ([CharField] trims by default): given as strings with no
  null or surrogate character, the username and the password reach
  [authenticate] without their surrounding whitespace, so a password
  that begins or ends with whitespace is checked without it. *)
Theorem auth_post_strips r items u p :
  req_data r = JObj items ->
  obj_get items (lit "username") = Some (JStr u) ->
  obj_get items (lit "password") = Some (JStr p) ->
  strip u <> [] -> strip p <> [] ->
  char_validators None (strip u) = [] -> char_validators None (strip p) = [] ->
  auth_post r = auth_response (authenticate (strip u) (strip p)).
Proof.
  intros Hd Hu Hp Hu0 Hp0 Hvu Hvp. unfold auth_post, validate_char_fields, validate_fields, AUTH_FIELDS.
  rewrite Hd. simpl. rewrite Hu, Hp. simpl.
  rewrite !decide_False by done. rewrite Hvu, Hvp. reflexivity.
Qed.

(** ** The knowledge base through the viewset *)

(** C20 (invariant): the constraints of [KnowledgeBaseEntrySerializer]
  (a trimmed, non-blank title of at most 255 code points, a trimmed
  answer that is not blank, trimmed question and source, non-null tags
  and metadata, no null or surrogate character) hold of every row of the
  table after any request when they held before: every create, update
  and partial update goes through the serializer, and no other request
  writes a row. *)
Theorem handle_entries_valid w ev :
  (forall x, strip (float_repr x) <> []) ->
  map_Forall (fun _ => entry_valid) (w_kb w) ->
  map_Forall (fun _ => entry_valid) (w_kb (handle w ev).1).
Proof.
  intros Hfr Hw. destruct ev as [|r|r t0 t1 now|r|u a now]; simpl; try done.
  - by rewrite (proj1 (ask_post_kb_svc w r t0 t1 now)).
  - pose proof (kb_view_entries_valid w u a now Hfr Hw). by destruct (kb_view w u a now).
Qed.

(** C22 (roundtrip): a staff user's PUT of the representation a GET
  returned for a row that meets the serializer's constraints is the same
  request as an empty PATCH: the row keeps every attribute and only its
  [updated_at] moves to the time of the request. *)
Theorem kb_put_roundtrip w u pk e now :
  is_staff u = true -> w_kb w !! pk = Some e -> entry_valid e ->
  kb_view w (Some u) (KbUpdate pk (entry_to_json datetime_repr e) false) now =
  kb_view w (Some u) (KbUpdate pk (JObj []) true) now.
Proof.
  intros Hs Hk Hv. unfold kb_view, kb_allowed. rewrite Hs, Hk. cbn [negb].
  by rewrite validate_entry_roundtrip, validate_entry_partial_empty, update_entry_data.
Qed.

(** ** The values of the log table *)

Lemma kb_view_logs w u a now : w_logs (kb_view w u a now).1 = w_logs w.
Proof.
  unfold kb_view. destruct (negb _); [done|].
  destruct a as [| |data|pk data partial|pk|]; simpl; try done.
  - by destruct (validate_entry _ _ _).
  - destruct (w_kb w !! pk); [|done]. by destruct (validate_entry _ _ _).
  - by destruct (w_kb w !! pk).
  - by destruct (RagService.refresh_index _ _).
Qed.

Lemma ask_post_logs_typed w r t0 t1 now :
  map_Forall (fun _ => log_typed) (w_logs w) ->
  map_Forall (fun _ => log_typed) (w_logs (ask_post w r t0 t1 now).1).
Proof.
  intros Hw. unfold ask_post. destruct (validate_char_fields _ _ _); [done|].
  destruct (RagService.ask _ _ _ _ _) as [[[ans ctxs] lat]|e]; simpl;
    (apply map_Forall_insert_2; [|done]).
  - left. split; [done|]. exists (RagService.cj_id <$> ctxs). by rewrite <- list_fmap_compose.
  - right. by repeat split.
Qed.

(** C21 (type): every [QueryLog] row holds what [AskView.post] writes:
  status "ok" with the list of the integer ids of the contexts, or
  status "error" with no context, no answer and latency 0; no other
  request writes the log table, so this holds of every row after any
  request when it held before. *)
Theorem handle_logs_typed w ev :
  map_Forall (fun _ => log_typed) (w_logs w) ->
  map_Forall (fun _ => log_typed) (w_logs (handle w ev).1).
Proof.
  intros Hw. destruct ev as [|r|r t0 t1 now|r|u a now]; simpl; try done.
  - by apply ask_post_logs_typed.
  - pose proof (kb_view_logs w u a now) as E. destruct (kb_view w u a now). simpl in E |- *.
    by rewrite E.
Qed.

End Views.


Section TfidfViews.
Context `{!RealOps}.
#[local] Existing Instance Tfidf.tfidf_vectorizer.
#[local] Existing Instance Tfidf.tfidf_vectorizer_laws.
Variable float_repr : Q -> pystr.
Variable datetime_repr : Z -> pystr.
Variable authenticate : pystr -> pystr -> option user.
Variable access_token refresh_token : user -> pystr.
Implicit Types (w : world (V:=option Tfidf.fitted) (M:=list (list Q))).

(** C8 (error): with the TF-IDF vectorizer, once a refresh-index request
  has failed (the client got a 500) on a non-empty snapshot, every valid
  question is answered with 500 and logged with status "error" and the
  [NotFittedError] message, until a refresh succeeds. *)
Theorem ask_post_after_failed_refresh w u now w' e r t0 t1 now' vals :
  VectorIndex.matrix (RagService.svc_index (w_svc w)) <> None ->
  VectorIndex.ids (RagService.svc_index (w_svc w)) <> [] ->
  kb_view float_repr datetime_repr w u KbRefreshIndex now = (w', Raise e) ->
  validate_char_fields float_repr ASK_FIELDS (req_data r) = inr vals ->
  status_code (ask_post float_repr w' r t0 t1 now').2 = 500%Z /\
  exists row, w_logs (ask_post float_repr w' r t0 t1 now').1 !! w_next_log w' = Some row /\
    status row = lit "error" /\ error row = exc_str NotFittedError.
Proof.
  intros Hm Hids Hre Hv. unfold kb_view in Hre.
  destruct (kb_allowed _ _); simpl in Hre; [|done].
  destruct (RagService.refresh_index _ _) as [svc' [[]|e']] eqn:Hr; simpl in Hre; [done|].
  injection Hre as <- _.
  destruct (ask_post_row float_repr (mk_world (w_kb w) (w_logs w) (w_next_log w) (w_next_kb w) svc')
              r t0 t1 now' vals Hv) as (row & Hrow & Hst).
  assert (Hask : RagService.ask svc' (w_kb w) (vals !!! 0) t0 t1 = Raise NotFittedError).
  { unfold RagService.ask, RagService.retrieve.
    by rewrite (RagService.search_after_failed_refresh (w_svc w) (w_kb w) svc' e' _ 5 Hm Hids Hr). }
  simpl in Hst. rewrite Hask in Hst. destruct Hst as (? & ? & ?). eauto.
Qed.
(** C9 (liveness): whatever state the process is in (a failed refresh
  included), as soon as an active entry keeps a term after the stop
  words are dropped, one refresh-index request by a staff user leads to a
  world in which every valid question is answered 200. *)
Theorem refresh_recovers w u (now : Z) :
  world_reachable float_repr datetime_repr authenticate access_token refresh_token w ->
  is_staff u = true ->
  Exists (fun e => Tfidf.analyze (RagService.doc_text e) <> []) (active_entries (w_kb w)) ->
  exists w', rtc (step float_repr datetime_repr authenticate access_token refresh_token) w w' /\
    forall r t0 t1 now' vals,
      validate_char_fields float_repr ASK_FIELDS (req_data r) = inr vals ->
      status_code (ask_post float_repr w' r t0 t1 now').2 = 200%Z.
Proof.
  intros Hw Hs Hex.
  set (ev := EvKb (Some u) KbRefreshIndex now).
  exists (handle float_repr datetime_repr authenticate access_token refresh_token w ev).1.
  split; [apply rtc_once; by exists ev|].
  intros r t0 t1 now' vals Hv.
  destruct (world_reachable_svc float_repr datetime_repr authenticate access_token refresh_token
              w Hw) as [r0 Hr0].
  destruct (RagService.refresh_index (w_svc w) (w_kb w)) as [svc' r'] eqn:Hre.
  assert (r' = Ok ()) as ->.
  { pose proof (RagService.refresh_index_ok (w_svc w) (w_kb w) Hex) as Hok. by rewrite Hre in Hok. }
  destruct (ask_post_row float_repr
              (handle float_repr datetime_repr authenticate access_token refresh_token w ev).1
              r t0 t1 now' vals Hv) as (row & _ & Hst).
  assert (Hsvc : w_svc (handle float_repr datetime_repr authenticate access_token refresh_token w ev).1
                 = svc' /\
                 w_kb (handle float_repr datetime_repr authenticate access_token refresh_token w ev).1
                 = w_kb w).
  { simpl. unfold kb_view, kb_allowed. rewrite Hs. simpl. by rewrite Hre. }
  destruct Hsvc as [E1 E2]. rewrite E1, E2 in Hst.
  destruct (RagService.ask_wf_total svc' (w_kb w) (vals !!! 0) t0 t1) as [res Hres].
  { apply RagService.reachable_wf. eapply RagService.reach_refresh; [exact Hr0|exact Hre]. }
  rewrite Hres in Hst. by destruct Hst.
Qed.
End TfidfViews.

End Views.
