(* ===== verification/Admin.v ===== *)
(** * The admin site (admin.py)

    [KnowledgeBaseEntryAdmin] and [QueryLogAdmin] configure Django's
    change lists.  A change list shows the rows that pass the sidebar
    filters of [list_filter] and the search box, in the order
    [ordering], with the columns [list_display]:
    - the search ([ModelAdmin.get_search_results]) splits the search term
      into bits ([SmartSplit.smart_split]), turns a bit in quotes back
      into its phrase ([unescape_string_literal]), and keeps a row when
      every bit is found, [icontains], in one of [search_fields];
    - the filters are exact lookups on [is_active] and [status]; the
      filter on the JSON field [tags] (an exact lookup of a JSON value
      given as a query-string) is not modelled;
    - [ChangeList.get_ordering] appends [-pk] to an ordering that does
      not determine the order of the rows, so the change lists are in
      [(-updated_at, -pk)] and [(-created_at, -pk)] order;
    - pagination ([list_per_page = 100] by default) is not modelled.

    [kb_changelist] and [ql_changelist] return [pyres]: the unescaping of
    a bit could raise, though the guard before it never lets it
    ([search_terms_ok]).

    Theorems: with the filter [is_active = True] and one word, the entry
    change list holds exactly what [SearchView.get] matches for that
    query, and the entries found by [source] alone; a phrase in quotes
    is searched as one bit, blanks included; and the change lists
    are strictly sorted, so their order is the only one a sorted listing
    of those rows can have, where the order of [SearchView.get] between
    rows of equal [updated_at] is left to the database. *)

From S2P Require Import Prelude PyStr SmartSplit KnowledgeBase Views.
From stdpp Require Import gmap sorting.
#[local] Open Scope nat_scope.
Import KnowledgeBase.

Module Admin.

(** ** Search and filters *)

(** The rows of a change list kept by the search: every bit is found in
    one of the [search_fields]. *)
Definition search_results {A} (fields : list (A -> pystr)) (rows : list A) (bits : list pystr)
    : list A :=
  filter (fun r => forallb (fun bit => existsb (fun f => Views.icontains (f r) bit) fields) bits = true)
    rows.

(** [if bit.startswith(QUOTES) and bit[0] == bit[-1]:
    bit = unescape_string_literal(bit)], where [QUOTES] holds the double
    and the single quote. *)
Definition prepare_bit (bit : pystr) : pyres pystr :=
  match bit with
  | c :: _ =>
      if SmartSplit.is_quote c && bool_decide (last bit = Some c)
      then SmartSplit.unescape_string_literal bit else mret bit
  | [] => mret bit
  end.

(** The bits of [get_search_results]: none when the term is empty
    ([if search_fields and search_term]), else those of [smart_split]. *)
Definition search_terms (term : pystr) : pyres (list pystr) :=
  if bool_decide (term = []) then mret [] else mapM prepare_bit (SmartSplit.smart_split term).

(** An exact filter of the sidebar; [None]: "All". *)
Definition exact_filter {A B} (get : A -> B) (choice : option B) (r : A) : Prop :=
  match choice with Some v => get r = v | None => True end.

#[export] Instance exact_filter_dec {A B} `{EqDecision B} (get : A -> B) choice r :
  Decision (exact_filter get choice r).
Proof. destruct choice; simpl; apply _. Defined.

(** ** Change lists *)

Section Changelist.
Context {A : Type} (time pk : A -> Z).

(** [ordering = ("-time",)] followed by [-pk]: [a] comes before [b]. *)
Definition before (a b : A) : Prop :=
  (time b < time a)%Z \/ (time a = time b /\ (pk b < pk a)%Z).

(** The same order, allowing equal keys. *)
Definition before_eq (a b : A) : Prop :=
  (time b < time a)%Z \/ (time a = time b /\ (pk b <= pk a)%Z).

#[export] Instance before_eq_dec : RelDecision before_eq.
Proof. intros a b. unfold before_eq. apply _. Defined.

(** The rows of a table, filtered by the sidebar, searched, sorted. *)
Definition changelist (fields : list (A -> pystr)) (filt : A -> Prop) `{!forall r, Decision (filt r)}
    (rows : gmap Z A) (bits : list pystr) : list A :=
  merge_sort before_eq (search_results fields (filter filt (map_to_list rows).*2) bits).
End Changelist.

(** ** [KnowledgeBaseEntryAdmin] *)

(** [search_fields = ("title", "question", "answer", "source")] *)
Definition KB_SEARCH_FIELDS : list (entry -> pystr) := [title; question; answer; source].

(** [list_filter] on [is_active], the search term, [ordering = ("-updated_at",)]. *)
Definition kb_changelist (db : table) (active : option bool) (term : pystr) : pyres (list entry) :=
  bits ← search_terms term;
  mret (changelist updated_at kb_id KB_SEARCH_FIELDS (exact_filter is_active active) db bits).

(** [list_display = ("id", "title", "is_active", "updated_at")] *)
Definition kb_display (datetime_repr : Z -> pystr) (e : entry) : list json :=
  [JInt (kb_id e); JStr (title e); JBool (is_active e); JStr (datetime_repr (updated_at e))].

(** ** [QueryLogAdmin] *)

(** [search_fields = ("question", "answer", "error")] *)
Definition QL_SEARCH_FIELDS : list (query_log -> pystr) := [log_question; log_answer; error].

(** [list_filter = ("status",)], the search, [ordering = ("-created_at",)]. *)
Definition ql_changelist (logs : gmap Z query_log) (st : option pystr) (term : pystr)
    : pyres (list query_log) :=
  bits ← search_terms term;
  mret (changelist log_created_at log_id QL_SEARCH_FIELDS (exact_filter status st) logs bits).

(** [list_display = ("id", "user", "status", "latency_ms", "created_at")];
    the user column is the user's primary key here. *)
Definition ql_display (datetime_repr : Z -> pystr) (l : query_log) : list json :=
  [JInt (log_id l); match user l with Some u => JInt u | None => JNull end;
   JStr (status l); JInt (latency_ms l); JStr (datetime_repr (log_created_at l))].

(** ** Facts *)

Section ChangelistFacts.
Context {A : Type} (time pk : A -> Z).

Lemma elem_of_rows (rows : gmap Z A) x :
  x ∈ (map_to_list rows).*2 <-> exists k, rows !! k = Some x.
Proof.
  rewrite list_elem_of_fmap. split.
  - intros ([k y] & -> & Hin). exists k. by apply elem_of_map_to_list in Hin.
  - intros [k Hk]. exists (k, x). split; [done|]. by apply elem_of_map_to_list.
Qed.

(** Rows stored under their own primary key have distinct keys. *)
Lemma rows_pk_NoDup (rows : gmap Z A) :
  (forall k x, rows !! k = Some x -> pk x = k) -> NoDup (pk <$> (map_to_list rows).*2).
Proof.
  intros Hk. assert (E : pk <$> (map_to_list rows).*2 = (map_to_list rows).*1).
  { rewrite <- list_fmap_compose. apply list_fmap_ext. intros i [k x] Hi. simpl.
    apply Hk, elem_of_map_to_list. by eapply list_elem_of_lookup_2. }
  rewrite E. apply NoDup_fst_map_to_list.
Qed.

Lemma strict_of_sorted l :
  StronglySorted (before_eq time pk) l -> NoDup (pk <$> l) -> StronglySorted (before time pk) l.
Proof.
  induction l as [|x l IH]; intros Hs Hnd; [constructor|].
  apply StronglySorted_inv in Hs as [Hs Hx]. rewrite fmap_cons, NoDup_cons in Hnd.
  destruct Hnd as [Hnin Hnd]. constructor; [by apply IH|].
  rewrite Forall_forall in Hx |- *. intros y Hy.
  assert (Hne : pk y <> pk x).
  { intros E. apply Hnin, list_elem_of_fmap. by exists y. }
  destruct (Hx y Hy) as [?|[? ?]]; [by left|right; split; [done|lia]].
Qed.

(** A change list is strictly sorted: no two of its rows tie. *)
Lemma changelist_sorted fields filt `{!forall r, Decision (filt r)} rows bits :
  (forall k x, rows !! k = Some x -> pk x = k) ->
  StronglySorted (before time pk) (changelist time pk fields filt rows bits).
Proof.
  intros Hk. apply strict_of_sorted.
  - apply Sorted_StronglySorted; [intros a b c; unfold before_eq; lia|].
    apply Sorted_merge_sort. intros a b. unfold before_eq. lia.
  - unfold changelist. rewrite merge_sort_Permutation.
    eapply sublist_NoDup; [by apply rows_pk_NoDup|].
    apply fmap_sublist. etrans; apply sublist_filter.
Qed.

(** So it is the only sorted listing of its rows. *)
Lemma changelist_unique fields filt `{!forall r, Decision (filt r)} rows bits l :
  (forall k x, rows !! k = Some x -> pk x = k) ->
  l ≡ₚ changelist time pk fields filt rows bits -> StronglySorted (before time pk) l ->
  l = changelist time pk fields filt rows bits.
Proof.
  intros Hk Hp Hs. apply (StronglySorted_Permutation_eq (before time pk)); [|done|by apply changelist_sorted|done].
  intros x y. unfold before. lia.
Qed.
(** The rows of a change list: stored, passing the filter, and each
    bit found in one of the fields. *)
Lemma changelist_elem fields filt `{!forall r, Decision (filt r)} rows bits x :
  x ∈ changelist time pk fields filt rows bits <->
  (exists k, rows !! k = Some x) /\ filt x /\
  Forall (fun bit => Exists (fun f => Views.icontains (f x) bit = true) fields) bits.
Proof.
  unfold changelist, search_results.
  rewrite merge_sort_Permutation, !list_elem_of_filter, elem_of_rows, forallb_forall, Forall_forall.
  setoid_rewrite existsb_exists. setoid_rewrite Exists_exists.
  setoid_rewrite <- list_elem_of_In. naive_solver.
Qed.
End ChangelistFacts.

(** ** The search term *)

(** A bit is prepared without raising: the guard is the one
    [unescape_string_literal] checks. *)
Lemma prepare_bit_ok bit : exists b, prepare_bit bit = Ok b.
Proof.
  destruct bit as [|c t]; [by eexists|]. unfold prepare_bit.
  destruct (SmartSplit.is_quote c && bool_decide (last (c :: t) = Some c)) eqn:E; [|by eexists].
  unfold SmartSplit.unescape_string_literal. rewrite E. by eexists.
Qed.

Lemma search_terms_ok term : exists bits, search_terms term = Ok bits.
Proof.
  unfold search_terms. case_bool_decide; [by eexists|].
  induction (SmartSplit.smart_split term) as [|b l [bits IH]]; [by eexists|].
  destruct (prepare_bit_ok b) as [b' Hb]. exists (b' :: bits). simpl. by rewrite Hb, IH.
Qed.

(** A word without blanks or quotes is searched as itself. *)
Lemma search_terms_word q :
  q <> [] -> Forall (fun c => SmartSplit.is_plain c = true) q -> search_terms q = Ok [q].
Proof.
  intros Hne Hp. unfold search_terms. rewrite bool_decide_false by done.
  rewrite SmartSplit.smart_split_word by done. simpl.
  destruct q as [|c t]; [done|]. apply Forall_cons in Hp as [Hc _].
  apply SmartSplit.plain_inv in Hc as [_ Hq]. unfold prepare_bit. by rewrite Hq.
Qed.

Lemma prepare_bit_phrase q p :
  SmartSplit.is_quote q = true -> q ∉ p -> SmartSplit.BS ∉ p -> prepare_bit (q :: p ++ [q]) = Ok p.
Proof.
  intros Hq Hqp Hb. unfold prepare_bit.
  rewrite Hq, bool_decide_true by (rewrite app_comm_cons, last_snoc; done).
  by apply SmartSplit.unescape_phrase.
Qed.

(** A phrase in quotes is searched without its quotes, blanks included. *)
Lemma search_terms_phrase q p :
  SmartSplit.is_quote q = true -> q ∉ p -> SmartSplit.BS ∉ p ->
  search_terms (q :: p ++ [q]) = Ok [p].
Proof.
  intros Hq Hqp Hb. unfold search_terms. rewrite bool_decide_false by done.
  rewrite SmartSplit.smart_split_phrase by done.
  apply mapM_pyres_Ok. repeat constructor. by apply prepare_bit_phrase.
Qed.

(** C29 (termination): the admin's entry change list is computed for
  every search term: the [finditer] loop of [smart_split] returns within
  one step more than the term has characters, with the same bits for
  any larger bound, and the change list is returned, not an exception,
  whatever the term and the filter. *)
Theorem kb_changelist_terminates db active term n :
  length term < n ->
  SmartSplit.finditer n term = Some (SmartSplit.smart_split term) /\
  exists cl, kb_changelist db active term = Ok cl.
Proof.
  intros Hn. split; [by apply SmartSplit.finditer_enough|].
  unfold kb_changelist. destruct (search_terms_ok term) as [bits ->]. by eexists.
Qed.

(** C27 (equivalence): the entry change list of the admin, for any filter
  and search term, is strictly sorted by [(-updated_at, -pk)], so it is
  the one listing of its rows in that order: the admin's order is
  determined, where [SearchView.get]'s order between entries of equal
  [updated_at] is left to the database. *)
Theorem kb_changelist_unique db active term cl l :
  table_wf db -> kb_changelist db active term = Ok cl ->
  l ≡ₚ cl -> StronglySorted (before updated_at kb_id) l -> l = cl.
Proof.
  unfold kb_changelist. destruct (search_terms term); simpl; [|discriminate].
  intros Hwf [= <-]. by apply changelist_unique.
Qed.

(** The query-log change list likewise, on the log table of a
    well-formed world. *)
Lemma ql_changelist_sorted (logs : gmap Z query_log) st term cl :
  (forall k l, logs !! k = Some l -> log_id l = k) -> ql_changelist logs st term = Ok cl ->
  StronglySorted (before log_created_at log_id) cl.
Proof.
  unfold ql_changelist. destruct (search_terms term); simpl; [|discriminate].
  intros Hk [= <-]. by apply changelist_sorted.
Qed.

(** C26 (refinement): with the filter [is_active = True] and a search term
  that is one word (no blank, no quote), the admin's entry change list
  holds exactly the entries [SearchView.get] matches for that query
  (before its [limit]), and the active entries that contain it only in
  [source]. *)
Theorem kb_changelist_search db q :
  q <> [] -> Forall (fun c => SmartSplit.is_plain c = true) q ->
  exists cl, kb_changelist db (Some true) q = Ok cl /\
  forall e, e ∈ cl <->
    e ∈ Views.search_matches db q \/
    ((exists k, db !! k = Some e) /\ is_active e = true /\ Views.icontains (source e) q = true).
Proof.
  intros Hne Hp. unfold kb_changelist. rewrite search_terms_word by done. simpl.
  eexists; split; [done|]. intros e. rewrite changelist_elem. unfold Views.search_matches, KB_SEARCH_FIELDS.
  rewrite list_elem_of_filter, elem_of_active_entries, Forall_singleton, !Exists_cons, Exists_nil.
  simpl. rewrite !orb_true_iff. tauto.
Qed.

(** C28 (functional): a phrase in double or single quotes, holding
  neither its quote nor a backslash, is searched as one bit without its
  quotes: the change list holds exactly the stored entries passing the
  filter with the whole phrase, blanks included, in one of the four
  [search_fields]. *)
Theorem kb_changelist_phrase db active q p :
  SmartSplit.is_quote q = true -> q ∉ p -> SmartSplit.BS ∉ p ->
  exists cl, kb_changelist db active (q :: p ++ [q]) = Ok cl /\
  forall e, e ∈ cl <->
    (exists k, db !! k = Some e) /\ exact_filter is_active active e /\
    Exists (fun f => Views.icontains (f e) p = true) KB_SEARCH_FIELDS.
Proof.
  intros Hq Hqp Hb. unfold kb_changelist. rewrite search_terms_phrase by done. simpl.
  eexists; split; [done|]. intros e. by rewrite changelist_elem, Forall_singleton.
Qed.

End Admin.
