(* ===== verification/ApiDocs.v ===== *)
(** * The OpenAPI description of the views (views.py, serializers.py 17-27)

    The views carry [@swagger_auto_schema(...)] decorators (drf_yasg):
    an [operation_id], the request serializer or the query parameters,
    the [responses] by status code and the [tags].  The response
    serializers [AskResponseSerializer] and [SearchResponseSerializer]
    exist for these decorators only.  This file writes the decorators
    out as values of the record [swagger_operation] and the serializers as
    [shape]s of [serializer.data]: an object with exactly the declared
    keys in declaration order, each value of its field's type
    ([CharField]: a string, [IntegerField]: an integer, [DictField]: an
    object, [ListField]/[many=True]: a list, [JSONField]: any value).
    [documented op resp] holds when the status code of [resp] is a key of
    [responses] and its body has the shape declared there.

    Theorems: for [AskView.post], [SearchView.get], [AuthView.post] and the
    [refresh-index] action, exactly when the view's answer is one its
    decorator documents: the successful path, whose body has the
    declared shape.  Every other answer (400, 401, 403 or 500) is
    undocumented, and [SearchView.get] answers a request without the
    parameter [query] that the decorator declares required. *)

From S2P Require Import Prelude PyStr Ranking VectorIndex KnowledgeBase Http Serializers RagService Views.
From stdpp Require Import list.
#[local] Open Scope nat_scope.
Import KnowledgeBase Http Serializers Views.
#[local] Set Default Proof Using "Type".

Module ApiDocs.

(** The shape of [serializer.data] *)
Inductive shape :=
  | ShStr
  | ShInt
  | ShBool
  | ShJson
  | ShDict
  | ShList (s : shape)
  | ShObj (fields : list (pystr * shape)).

Fixpoint has_shape (s : shape) (j : json) {struct s} : bool :=
  match s with
  | ShStr => match j with JStr _ => true | _ => false end
  | ShInt => match j with JInt _ => true | _ => false end
  | ShBool => match j with JBool _ => true | _ => false end
  | ShJson => true
  | ShDict => match j with JObj _ => true | _ => false end
  | ShList s' => match j with JArr items => forallb (has_shape s') items | _ => false end
  | ShObj fs =>
      match j with
      | JObj items =>
          bool_decide (items.*1 = fs.*1) &&
          forallb (fun f => match obj_get items f.1 with
                            | Some v => has_shape f.2 v | None => false end) fs
      | _ => false
      end
  end.

(** [AskResponseSerializer] *)
Definition AskResponseSerializer : shape :=
  ShObj [(lit "answer", ShStr); (lit "contexts", ShList ShDict);
         (lit "latency_ms", ShInt); (lit "query_id", ShInt)].

(** [KnowledgeBaseEntrySerializer] as it is read *)
Definition KnowledgeBaseEntrySerializer : shape :=
  ShObj [(lit "id", ShInt); (lit "title", ShStr); (lit "question", ShStr);
         (lit "answer", ShStr); (lit "tags", ShJson); (lit "source", ShStr);
         (lit "metadata", ShJson); (lit "is_active", ShBool);
         (lit "created_at", ShStr); (lit "updated_at", ShStr)].

(** [SearchResponseSerializer]: [results = KnowledgeBaseEntrySerializer(many=True)] *)
Definition SearchResponseSerializer : shape :=
  ShObj [(lit "results", ShList KnowledgeBaseEntrySerializer)].

(** [openapi.TYPE_STRING], [openapi.TYPE_INTEGER] *)
Inductive param_type := TString | TInteger.

(** [openapi.Parameter(name, openapi.IN_QUERY, type=..., required=...)] *)
Record parameter := mk_parameter { p_name : pystr; p_type : param_type; p_required : bool }.

(** The arguments of [swagger_auto_schema] (the summaries and
    descriptions are prose and left out): [responses] maps a status code
    to the shape of its body, [None] when no schema is given. *)
Record swagger_operation := mk_operation {
  op_id : pystr;
  op_request_body : option (list (pystr * option nat));
  op_parameters : list parameter;
  op_responses : list (Z * option shape);
  op_tags : list pystr;
}.

(** [AuthView.post] *)
Definition auth_login : swagger_operation :=
  mk_operation (lit "auth_login") (Some AUTH_FIELDS) []
    [(200%Z, Some (ShObj [(lit "access", ShStr); (lit "refresh", ShStr)]))] [lit "auth"].

(** [AskView.post] *)
Definition ask_question : swagger_operation :=
  mk_operation (lit "ask_question") (Some ASK_FIELDS) [] [(200%Z, Some AskResponseSerializer)]
    [lit "qa"].

(** [SearchView.get] *)
Definition search_kb : swagger_operation :=
  mk_operation (lit "search_kb") None
    [mk_parameter (lit "query") TString true; mk_parameter (lit "limit") TInteger false]
    [(200%Z, Some SearchResponseSerializer)] [lit "search"].

(** [KnowledgeBaseViewSet.refresh_index] *)
Definition kb_refresh_index : swagger_operation :=
  mk_operation (lit "kb_refresh_index") None [] [(200%Z, None)] [lit "kb"].

(** The response is one [op] describes. *)
Definition documented (op : swagger_operation) (resp : response) : bool :=
  match snd <$> list_find (fun rc => rc.1 = status_code resp) (op_responses op) with
  | Some (_, Some s) => has_shape s (body resp)
  | Some (_, None) => true
  | None => false
  end.

(** ** Facts *)

(** An object has a declared shape when its keys are the declared ones,
    distinct, and each value has its field's shape. *)
Lemma has_shape_obj fs items :
  items.*1 = fs.*1 -> NoDup fs.*1 ->
  Forall2 (fun f kv => has_shape f.2 kv.2 = true) fs items ->
  has_shape (ShObj fs) (JObj items) = true.
Proof.
  intros Hkeys Hnd Hall. simpl. rewrite bool_decide_eq_true_2 by done. simpl.
  apply forallb_forall. intros f Hf. apply list_elem_of_In, list_elem_of_lookup in Hf as [i Hf].
  destruct (Forall2_lookup_l _ _ _ _ _ Hall Hf) as ([k v] & Hkv & Hsh).
  assert (Hk : k = f.1).
  { pose proof (f_equal (fun l => l !! i) Hkeys) as Hi. simpl in Hi.
    rewrite !list_lookup_fmap, Hkv, Hf in Hi. by injection Hi. }
  subst k. rewrite (obj_get_NoDup items f.1 v); [done| |by eapply list_elem_of_lookup_2].
  by rewrite Hkeys.
Qed.

(** A decorator with one documented response. *)
Lemma documented_single op c s resp :
  op_responses op = [(c, s)] ->
  documented op resp = true <->
  status_code resp = c /\ from_option (fun sh => has_shape sh (body resp)) true s = true.
Proof.
  intros Hop. unfold documented. rewrite Hop. simpl.
  case_decide as Hc; simpl.
  - subst c. destruct s; simpl; tauto.
  - split; [done|]. by intros [<- _].
Qed.

(** [KnowledgeBaseEntrySerializer(e).data] has the serializer's shape. *)
Lemma entry_to_json_shape dr e : has_shape KnowledgeBaseEntrySerializer (entry_to_json dr e) = true.
Proof. apply has_shape_obj; [reflexivity|by_eval|repeat constructor]. Qed.

Lemma search_body_shape dr es :
  has_shape SearchResponseSerializer (JObj [(lit "results", JArr (entry_to_json dr <$> es))]) = true.
Proof.
  apply has_shape_obj; [reflexivity|by_eval|]. repeat constructor.
  change (forallb (has_shape KnowledgeBaseEntrySerializer) (entry_to_json dr <$> es) = true).
  apply forallb_forall. intros j (e & -> & _)%list_elem_of_In%list_elem_of_fmap.
  apply entry_to_json_shape.
Qed.

Lemma ask_body_shape ans ctxs lat qid :
  has_shape AskResponseSerializer
    (JObj [(lit "answer", JStr ans); (lit "contexts", JArr (context_to_json <$> ctxs));
           (lit "latency_ms", JInt lat); (lit "query_id", JInt qid)]) = true.
Proof.
  apply has_shape_obj; [reflexivity|by_eval|]. repeat constructor. simpl.
  apply forallb_forall. by intros j (c & -> & _)%list_elem_of_In%list_elem_of_fmap.
Qed.

Section Docs.
Context {V M : Type} `{!Vectorizer V M}.
Variable float_repr : Q -> pystr.
Variable datetime_repr : Z -> pystr.
Variable authenticate : pystr -> pystr -> option user.
Variable access_token refresh_token : user -> pystr.
Implicit Types (w : world (V:=V) (M:=M)).

(** C23 (error): the answer of [AskView.post] is one its decorator
  documents (200 with a body of the shape of [AskResponseSerializer])
  exactly when the question is valid and [rag_service.ask] returns; the
  400 of an invalid question and the 500 of a failed [ask] are not in
  [responses]. *)
Theorem ask_post_documented w r t0 t1 now :
  documented ask_question (ask_post float_repr w r t0 t1 now).2 = true <->
  exists vals res, validate_char_fields float_repr ASK_FIELDS (req_data r) = inr vals /\
    RagService.ask (w_svc w) (w_kb w) (vals !!! 0) t0 t1 = Ok res.
Proof.
  rewrite documented_single by reflexivity. unfold ask_post.
  destruct (validate_char_fields _ _ _) as [errs|vals]; simpl.
  - split; [by intros [? _]|]. by intros (? & ? & ? & _).
  - destruct (RagService.ask _ _ _ _ _) as [[[ans ctxs] lat]|e] eqn:Ha; simpl.
    + split; [eauto|]. intros _. split; [done|]. apply (ask_body_shape ans ctxs lat (w_next_log w)).
    + split; [by intros [? _]|]. intros (? & ? & [= <-] & Hok). congruence.
Qed.

(** C24 (error): the answer of [SearchView.get] is one its decorator
  documents (200 with a body of the shape of [SearchResponseSerializer])
  exactly when [limit] is an integer literal that is non-negative or
  comes with an empty query; otherwise the view raises (500).  A request
  without the parameter [query], which the decorator declares required,
  is answered 200. *)
Theorem search_get_documented w r :
  documented search_kb (respond (search_get datetime_repr w r)) = true <->
  exists n, py_int_of_str (query_get (req_params r) (lit "limit") (lit "10")) = Ok n /\
    (strip (query_get (req_params r) (lit "query") []) = [] \/ (0 <= n)%Z).
Proof.
  rewrite documented_single by reflexivity. unfold search_get.
  destruct (py_int_of_str _) as [n|e]; simpl.
  - case_decide as Hq; simpl.
    + split; [eauto|]. intros _. split; [done|]. exact (search_body_shape datetime_repr []).
    + unfold qs_slice. case_decide as Hn; simpl.
      * split; [by intros [? _]|]. intros (n' & [= <-] & [?|?]); [done|lia].
      * split; [eauto with lia|]. intros _. split; [done|]. apply search_body_shape.
  - split; [by intros [? _]|]. by intros (? & ? & _).
Qed.

(** C25 (error): the answer of [AuthView.post] is one its decorator
  documents (200 with [access] and [refresh]) exactly when both fields
  are valid and [authenticate] returns a user; the 400 and the 401 of
  invalid credentials are not in [responses]. *)
Theorem auth_post_documented r :
  documented auth_login (auth_post float_repr authenticate access_token refresh_token r) = true <->
  exists vals u, validate_char_fields float_repr AUTH_FIELDS (req_data r) = inr vals /\
    authenticate (vals !!! 0) (vals !!! 1) = Some u.
Proof.
  rewrite documented_single by reflexivity. unfold auth_post.
  destruct (validate_char_fields _ _ _) as [errs|vals]; simpl.
  - split; [by intros [? _]|]. by intros (? & ? & ? & _).
  - unfold auth_response. destruct (authenticate _ _) as [u|] eqn:Hu; simpl.
    + split; [eauto|]. by intros _.
    + split; [by intros [? _]|]. intros (? & ? & [= <-] & ?). congruence.
Qed.

(** the answer of the [refresh-index] action is the one its
  decorator documents (200) exactly when the user is staff and the
  rebuild returned; a refused user (401 or 403) and a rebuild that raised
  (500) are not in [responses]. *)
Theorem refresh_index_documented w u now :
  documented kb_refresh_index (respond (kb_view float_repr datetime_repr w u KbRefreshIndex now).2) = true <->
  kb_allowed KbRefreshIndex u = true /\ (RagService.refresh_index (w_svc w) (w_kb w)).2 = Ok ().
Proof.
  rewrite documented_single by reflexivity. unfold kb_view.
  destruct (kb_allowed KbRefreshIndex u) eqn:Ha; simpl.
  - destruct (RagService.refresh_index _ _) as [svc' [[]|e]]; simpl; [by split|].
    split; [by intros [? _]|]. by intros [_ ?].
  - split; [|by intros [? _]]. intros [Hs _]. destruct u; discriminate Hs.
Qed.
End Docs.

End ApiDocs.
