(* ===== verification/Scenario.v ===== *)
(** * The fixture of the test suite, run through the model

    [AskAndSearchTests.setUp] (tests.py) creates two active entries,
    "Password Reset" and "Two Factor".  This file builds that table, the
    service [RAGService()] builds from it (with the TF-IDF vectorizer and
    the rational [ln]/[sqrt] of [Tfidf.approx_reals]), replays the test
    questions, and instantiates the theorems of the other files on these
    concrete states: each [*_witness] lemma discharges a theorem's
    hypotheses by evaluation and applies it.

    Observed on the fixture: the question "How do I reset my password?"
    ranks "Password Reset" first (score about 0.93) and "Two Factor" at 0;
    an unrelated question scores 0 on both rows, the tie is broken in
    favour of the later row, and the answer is still composed from both
    entries instead of the fallback message.

    The second half replays the tests through the views ([Views.handle]):
    the test database is empty when [api.views] is imported, so the
    module-level [RAGService()] is built over no entries ([service_test]);
    [setUp] then creates the two entries with [objects.create], replayed
    as a staff user's create requests, which write the same rows and
    leave the service untouched.  [test_ask]
    therefore runs on the empty index and answers with the fallback
    message ([test_ask_fallback]); after [refresh_index] the same request
    is answered from "Password Reset".  The admin's change list of the
    fixture is replayed as well, with a search of two words and of the
    same words as a quoted phrase.  Rendering of floats and dates is
    a fixed stand-in ([float_repr0], [datetime0]): no test reads them. *)

From S2P Require Import Prelude PyStr Ranking VectorIndex Tfidf SmartSplit KnowledgeBase Http Serializers RagService Views Admin.
From stdpp Require Import gmap.
#[local] Open Scope nat_scope.
Import KnowledgeBase Tfidf Ranking.

Module Scenario.

(** The two rows of [AskAndSearchTests.setUp], created in this order. *)
Definition password_reset : entry :=
  mk_entry 1 1 1 (lit "Password Reset") (lit "How can I reset my password?")
    (lit "Go to account settings and click 'Reset Password'.")
    (JArr [JStr (lit "account"); JStr (lit "security")]) [] (JObj []) true.

Definition two_factor : entry :=
  mk_entry 2 2 2 (lit "Two Factor") (lit "How to enable 2FA?")
    (lit "Navigate to Security and enable Two-Factor Authentication.")
    (JArr [JStr (lit "security")]) [] (JObj []) true.

Definition kb : table := <[2%Z := two_factor]> (<[1%Z := password_reset]> ∅).

(** The same table after "Password Reset" was deactivated, before any
    refresh. *)
Definition password_reset_off : entry :=
  mk_entry 1 1 3 (title password_reset) (question password_reset) (answer password_reset)
    (tags password_reset) (source password_reset) (metadata password_reset) false.

Definition kb_off : table := <[1%Z := password_reset_off]> kb.

Abbreviation svc_t := (@RagService.service (option fitted) (list (list Q))).

(** [RAGService()] at import time. *)
Definition service0 : svc_t :=
  match RagService.init_service kb with Ok s => s | Raise _ => RagService.mk_service VectorIndex.init end.

Definition idx0 := RagService.svc_index service0.
Definition corpus0 : list pystr := RagService.doc_text <$> active_entries kb.
Definition ids0 : list Z := kb_id <$> active_entries kb.
Definition matrix0 : list (list Q) := default [] (VectorIndex.matrix idx0).
Definition fitted0 : fitted := default (mk_fitted [] []) (VectorIndex.vectorizer idx0).

Definition q_reset : pystr := lit "How do I reset my password?".
Definition q_unrelated : pystr := lit "completely unrelated nonsense query xyz".

Definition sims_of (q : pystr) : list Q :=
  match similarities (VectorIndex.vectorizer idx0) matrix0 q with Ok s => s | Raise _ => [] end.

Definition result_of (q : pystr) (k : Z) : list (Z * Q) :=
  match VectorIndex.search idx0 q k with Ok r => r | Raise _ => [] end.

Definition ask_of (db : table) (q : pystr) : pystr * list RagService.context_json * Z :=
  match RagService.ask service0 db q 0 1 with Ok r => r | Raise _ => ([], [], 0%Z) end.

(** A table whose only active entry holds nothing but stop words, and
    the service a refresh against it leaves. *)
Definition stop_words_entry : entry :=
  mk_entry 1 1 4 (lit "The") (lit "How do I do it?") (lit "It is what it is.")
    (JArr []) [] (JObj []) true.

Definition kb_stop : table := <[1%Z := stop_words_entry]> ∅.

Definition service_failed : svc_t := (RagService.refresh_index service0 kb_stop).1.

(** An entry whose answer is 450 code points long. *)
Definition long_entry : entry :=
  mk_entry 3 3 3 (lit "Long") [] (replicate 450 97%N) (JArr []) [] (JObj []) true.

(** The service after the refresh that follows the deactivation. *)
Definition service1 : svc_t := (RagService.refresh_index service0 kb_off).1.

Definition retrieve_of (db : table) (q : pystr) : list entry :=
  match RagService.retrieve service0 db q 5 with Ok l => l | Raise _ => [] end.

(** ** The HTTP layer *)

(** The parameters of the views: stand-ins for [repr] of a float and for
    the rendering of a timestamp, and a user base with one user, "alice",
    whose password is "secret"; [admin] is a staff user. *)
Definition float_repr0 (x : Q) : pystr := lit "0.5".
Definition datetime0 (t : Z) : pystr := str_of_Z t.
Definition alice : Http.user := Http.mk_user 7 false.
Definition admin : Http.user := Http.mk_user 1 true.
Definition authenticate0 (u p : pystr) : option Http.user :=
  if decide (u = lit "alice" /\ p = lit "secret") then Some alice else None.
Definition token0 (u : Http.user) : pystr := lit "token-" ++ str_of_Z (Http.user_pk u).

Abbreviation world_t := (@Views.world (option fitted) (list (list Q))).

Definition handle0 (w : world_t) (ev : Views.event) : world_t * Http.response :=
  Views.handle float_repr0 datetime0 authenticate0 token0 token0 w ev.

(** The test database when the URLconf is first imported (by the test
    runner's system checks, after the test database is created and
    before any [setUp]): empty, and the service [RAGService()] builds
    from it. *)
Definition service_test : svc_t :=
  match RagService.init_service ∅ with Ok s => s | Raise _ => RagService.mk_service VectorIndex.init end.

Definition world0 : world_t := Views.mk_world ∅ ∅ 1 1 service_test.

(** The keyword arguments of [setUp]'s [objects.create] calls, as a JSON
    body. *)
Definition setup_body (e : entry) : json :=
  JObj [(lit "title", JStr (title e)); (lit "question", JStr (question e));
        (lit "answer", JStr (answer e)); (lit "tags", tags e);
        (lit "is_active", JBool (is_active e))].

(** [setUp]'s two [objects.create] calls, which write the table as a
    staff user's create requests with the same fields do. *)
Definition ev_create_reset : Views.event :=
  Views.EvKb (Some admin) (Views.KbCreate (setup_body password_reset)) 1.
Definition ev_create_2fa : Views.event :=
  Views.EvKb (Some admin) (Views.KbCreate (setup_body two_factor)) 2.

Definition world_setup : world_t := (handle0 (handle0 world0 ev_create_reset).1 ev_create_2fa).1.

Definition req_ask (q : pystr) : Http.request := Http.mk_request None (JObj [(lit "question", JStr q)]) [].
Definition req_search (params : list (pystr * pystr)) : Http.request :=
  Http.mk_request None (JObj []) params.
Definition req_auth : Http.request :=
  Http.mk_request None (JObj [(lit "username", JStr (lit "alice"));
                              (lit "password", JStr (lit " secret "))]) [].

Definition ask0 (w : world_t) (q : pystr) : world_t * Http.response :=
  Views.ask_post float_repr0 w (req_ask q) 0 1 5.

(** The world after a staff user's refresh-index request that follows
    [setUp]. *)
Definition world_refreshed : world_t :=
  (handle0 world_setup (Views.EvKb (Some admin) Views.KbRefreshIndex 3)).1.

(** The process serving the fixture's index, after the table came to hold
    only stop words, and the world a refresh-index request leaves. *)
Definition world_stop : world_t := Views.mk_world kb_stop ∅ 1 2 service0.
Definition world_stop_failed : world_t :=
  (Views.kb_view float_repr0 datetime0 world_stop (Some admin) Views.KbRefreshIndex 3).1.

(** ** The tests, replayed *)

(** [test_ask], as the test runner runs it: the service was built on the
    empty test database, and the entries [setUp] creates reach no index,
    so the password question is answered 200 with the fallback message
    and no context (the test passes: it checks only the keys). *)
Example test_ask_fallback :
  (ask0 world_setup q_reset).2 =
    Http.mk_response 200 (JObj [(lit "answer", JStr RagService.FALLBACK);
                                (lit "contexts", JArr []); (lit "latency_ms", JInt 1000);
                                (lit "query_id", JInt 1)]).
Proof. vm_compute. reflexivity. Qed.

(** [HealthTests.test_health]. *)
Example test_health :
  (handle0 world0 Views.EvHealth).2 =
    Http.mk_response 200 (JObj [(lit "message", JStr (lit "Server is up!"))]).
Proof. reflexivity. Qed.

(** [test_search]: "password" finds the active entry "Password Reset". *)
Example test_search_password :
  (handle0 world_setup (Views.EvSearch (req_search [(lit "query", lit "password")]))).2 =
    Http.mk_response 200 (JObj [(lit "results", JArr [Serializers.entry_to_json datetime0 password_reset])]).
Proof. vm_compute. reflexivity. Qed.

(** After a refresh-index request the same question is composed from
    "Password Reset" first. *)
Example ask_after_refresh_request :
  Http.status_code (ask0 world_refreshed q_reset).2 = 200%Z /\
  (ask0 world_refreshed q_reset).2 <> (ask0 world_setup q_reset).2.
Proof. split; [vm_compute; reflexivity|vm_compute; discriminate]. Qed.

(** [test_ask]: the password question gets a composed answer whose first
    context is "Password Reset". *)
Example test_ask_password :
  RagService.cj_id <$> (ask_of kb q_reset).1.2 = [1%Z; 2%Z] /\
  (ask_of kb q_reset).1.1 <> RagService.FALLBACK.
Proof. split; [vm_compute; reflexivity|vm_compute; discriminate]. Qed.

(** The wall clock stepped back by 2 ms gives a latency of -2. *)
Example latency_clock_step_back : RagService.latency_of 10 (10 - (1 # 500)) = (-2)%Z.
Proof. reflexivity. Qed.

(** A corpus of stop words only makes the fit raise and leaves the
    vectorizer unfitted, whatever it held before. *)
Example fit_stop_words_only :
  fit_transform_tfidf (Some fitted0) [lit "How do I do it?"; lit "Why not?"] =
    (None, Raise (ValueError EMPTY_VOCABULARY)).
Proof. vm_compute. reflexivity. Qed.

(** ** The fixture's facts *)

Lemma idx0_eq : idx0 = VectorIndex.mk_index (Some fitted0) (Some matrix0) [2%Z; 1%Z].
Proof. vm_compute. reflexivity. Qed.

Lemma idx0_wf : VectorIndex.index_wf idx0.
Proof.
  rewrite idx0_eq. cbn [VectorIndex.index_wf VectorIndex.matrix VectorIndex.vectorizer VectorIndex.ids].
  split; [exists None, corpus0; vm_compute; reflexivity|vm_compute; reflexivity].
Qed.

Lemma kb_wf : table_wf kb.
Proof. unfold kb. change 2%Z with (kb_id two_factor). change 1%Z with (kb_id password_reset). auto with py. Qed.

Lemma kb_off_wf : table_wf kb_off.
Proof. unfold kb_off. change 1%Z with (kb_id password_reset_off). auto using table_wf_insert, kb_wf. Qed.

(** ** Witnesses *)

Lemma argsort_desc_best_witness :
  row_lt (sims_of q_reset !!! 0, 0) (sims_of q_reset !!! 1, 1).
Proof. apply (argsort_desc_best (sims_of q_reset) 1%Z 1 0); by_eval. Defined.

Lemma search_empty_witness :
  VectorIndex.search (VectorIndex.init : VectorIndex.index (option fitted) (list (list Q))) q_reset 5 = Ok [].
Proof. apply VectorIndex.search_empty. left. reflexivity. Defined.

Lemma build_snapshot_witness :
  VectorIndex.index_wf idx0 /\ VectorIndex.ids idx0 = ids0 /\
  match VectorIndex.matrix idx0 with None => corpus0 = [] | Some m => n_rows m = length corpus0 end.
Proof.
  apply (VectorIndex.build_snapshot VectorIndex.init idx0 corpus0 ids0); vm_compute; reflexivity.
Defined.

Lemma search_refines_witness :
  exists sims, similarities (VectorIndex.vectorizer idx0) matrix0 q_reset = Ok sims /\
    length sims = length (VectorIndex.ids idx0) /\
    VectorIndex.search idx0 q_reset 5 = Ok (VectorIndex.search_spec (VectorIndex.ids idx0) sims 5).
Proof. apply (VectorIndex.search_refines idx0 matrix0 q_reset 5); [exact idx0_wf|vm_compute; reflexivity]. Defined.

(** [top_k = -1] returns one of the two rows. *)
Lemma search_length_witness : length (result_of q_reset (-1)) = 1.
Proof.
  rewrite (VectorIndex.search_length idx0 q_reset (-1) (result_of q_reset (-1)) idx0_wf);
    vm_compute; reflexivity.
Defined.

Lemma search_sorted_witness :
  StronglySorted (fun a b => (b.2 <= a.2)%Q) (result_of q_reset 5).
Proof. apply (VectorIndex.search_sorted idx0 q_reset 5); [exact idx0_wf|vm_compute; reflexivity]. Defined.

(** The unrelated question ties both rows at 0: id 1 (row 1) is listed
    before id 2 (row 0). *)
Lemma search_ties_reversed_witness :
  exists i j, j < i /\ VectorIndex.ids idx0 !! i = Some 1%Z /\ VectorIndex.ids idx0 !! j = Some 2%Z.
Proof.
  apply (VectorIndex.search_ties_reversed idx0 q_unrelated 5 (result_of q_unrelated 5) 0 1 1%Z 0 2%Z 0);
    [exact idx0_wf|by_eval|vm_compute; reflexivity|lia|vm_compute; reflexivity|vm_compute; reflexivity|reflexivity].
Defined.

(** Row 1 ("Password Reset") shares "password" and "reset" with the
    question. *)
Lemma similarity_pos_iff_witness : (0 < sims_of q_reset !!! 1%nat)%Q.
Proof.
  apply (similarity_pos_iff None corpus0 (Some fitted0) matrix0 q_reset (sims_of q_reset) 1);
    [vm_compute; reflexivity..|].
  exists (lit "password"). split; [|split]; by_eval.
Defined.

Lemma similarities_unseen_witness : Forall (fun s => s == 0)%Q (sims_of q_unrelated).
Proof.
  apply (similarities_unseen None corpus0 (Some fitted0) matrix0 q_unrelated);
    [vm_compute; reflexivity|vm_compute; reflexivity|].
  apply Forall_forall. by_eval.
Defined.

(** After the failed refresh the rows still match the ids. *)
Lemma reachable_rows_match_witness : VectorIndex.rows_match (RagService.svc_index service_failed).
Proof.
  apply (RagService.reachable_rows_match _ (Raise (ValueError EMPTY_VOCABULARY))).
  apply (RagService.reach_refresh service0 (Ok ()) kb_stop);
    [apply (RagService.reach_init kb)|]; vm_compute; reflexivity.
Defined.

(** After the failed refresh, the password question raises. *)
Lemma ask_after_failed_refresh_witness :
  RagService.ask service_failed kb q_reset 0 1 = Raise NotFittedError.
Proof.
  apply (RagService.ask_after_failed_refresh service0 kb_stop service_failed
           (ValueError EMPTY_VOCABULARY)); [vm_compute; discriminate..|vm_compute; reflexivity].
Defined.

Lemma ask_total_witness : exists r, RagService.ask service0 kb q_unrelated 0 1 = Ok r.
Proof. apply RagService.ask_total, (RagService.reach_init kb). vm_compute. reflexivity. Defined.

Lemma load_index_idem_witness : RagService.load_index service0 kb = (service0, Ok ()).
Proof.
  apply (RagService.load_index_idem (RagService.mk_service VectorIndex.init) kb service0).
  vm_compute. reflexivity.
Defined.

Lemma retrieve_rank_order_witness :
  exists res, VectorIndex.search (RagService.svc_index service0) q_reset 5 = Ok res /\
    kb_id <$> retrieve_of kb q_reset = filter (fun i => is_Some (kb !! i)) res.*1.
Proof.
  apply (RagService.retrieve_rank_order service0 kb q_reset 5); [exact kb_wf|vm_compute; reflexivity].
Defined.

(** After "Password Reset" is deactivated and before a refresh, it is still
    retrieved, in its deactivated form. *)
Lemma retrieve_keeps_rows_witness : password_reset_off ∈ retrieve_of kb_off q_reset.
Proof.
  apply (RagService.retrieve_keeps_rows service0 kb_off q_reset 5 _ (result_of q_reset 5)
           1%Z (result_of q_reset 5 !!! 0).2 password_reset_off);
    [vm_compute; reflexivity|vm_compute; reflexivity| |vm_compute; reflexivity].
  apply (list_elem_of_lookup_2 _ 0). vm_compute. reflexivity.
Defined.

Lemma snippet_of_long_witness :
  RagService.snippet_of long_entry =
    lit "- " ++ take 400 (strip (answer long_entry)) ++ lit "..." /\
  length (RagService.snippet_of long_entry) = 405.
Proof. apply RagService.snippet_of_long. apply Nat.ltb_lt. vm_compute. reflexivity. Defined.

Lemma ask_never_fallback_witness :
  (ask_of kb q_unrelated).1.1 <> RagService.FALLBACK /\
  length (ask_of kb q_unrelated).1.2 =
    Nat.min 5 (length (VectorIndex.ids (RagService.svc_index service0))).
Proof.
  apply (RagService.ask_never_fallback service0 kb q_unrelated 0 1
           (ask_of kb q_unrelated).1.1 (ask_of kb q_unrelated).1.2 (ask_of kb q_unrelated).2).
  - exact idx0_wf.
  - vm_compute. discriminate.
  - apply Forall_forall. by_eval.
  - vm_compute. reflexivity.
Defined.

Lemma ask_after_refresh_never_fallback_witness :
  (match RagService.ask service1 kb_off q_unrelated 0 1 with Ok r => r.1.1 | Raise _ => [] end)
    <> RagService.FALLBACK.
Proof.
  apply (RagService.ask_after_refresh_never_fallback service0 kb_off service1 q_unrelated 0 1 _
           (match RagService.ask service1 kb_off q_unrelated 0 1 with Ok r => r.1.2 | Raise _ => [] end)
           (match RagService.ask service1 kb_off q_unrelated 0 1 with Ok r => r.2 | Raise _ => 0%Z end)).
  - exact kb_off_wf.
  - vm_compute. discriminate.
  - vm_compute. reflexivity.
  - vm_compute. reflexivity.
Defined.

Lemma world0_wf : Views.world_wf world0.
Proof.
  split; [apply table_wf_empty|split].
  - intros k. simpl. rewrite lookup_empty. by intros [? ?].
  - intros k l. simpl. by rewrite lookup_empty.
Qed.

Lemma world_reachable_wf_witness :
  Views.world_wf world_setup /\ exists r, RagService.service_reachable (Views.w_svc world_setup) r.
Proof.
  apply (Views.world_reachable_wf float_repr0 datetime0 authenticate0 token0 token0).
  apply (Views.world_step float_repr0 datetime0 authenticate0 token0 token0 _ ev_create_2fa).
  apply (Views.world_step float_repr0 datetime0 authenticate0 token0 token0 _ ev_create_reset).
  apply (Views.world_init float_repr0 datetime0 authenticate0 token0 token0 world0 service_test);
    [exact world0_wf|vm_compute; reflexivity|reflexivity].
Defined.

Lemma ask_post_logs_once_witness :
  exists row, Views.w_logs (ask0 world_setup q_reset).1 = <[1%Z := row]> ∅ /\
              status row = lit "ok".
Proof.
  destruct (Views.ask_post_logs_once float_repr0 world_setup (req_ask q_reset) 0 1 5 _ _
              (surjective_pairing _))
    as [(errs & Hv & _)|(vals & row & items & _ & Hw & _ & _ & [[_ Hst]|[Hc _]] & _)].
  - vm_compute in Hv. discriminate.
  - exists row. unfold ask0. rewrite Hw. split; [vm_compute; reflexivity|exact Hst].
  - vm_compute in Hc. discriminate.
Defined.

Lemma ask_post_ok_witness :
  Http.status_code (ask0 world_setup q_reset).2 = 200%Z /\
  exists row, Views.w_logs (ask0 world_setup q_reset).1 !! Views.w_next_log world_setup = Some row /\
              status row = lit "ok".
Proof.
  apply (Views.ask_post_ok float_repr0 world_setup (req_ask q_reset) 0 1 5 [q_reset]);
    [|vm_compute; reflexivity].
  change (Views.w_svc world_setup) with service_test.
  apply (RagService.reach_init ∅). vm_compute. reflexivity.
Defined.

Lemma only_staff_writes_witness :
  exists u a now, ev_create_reset = Views.EvKb (Some u) a now /\ Http.is_staff u = true.
Proof.
  apply (Views.only_staff_writes float_repr0 datetime0 authenticate0 token0 token0 world0).
  left. intros H. apply (f_equal (lookup 1%Z)) in H. vm_compute in H. discriminate.
Defined.

Lemma search_empty_query_witness :
  Views.search_get datetime0 world_setup (req_search []) =
    Ok (Http.mk_response 200 (JObj [(lit "results", JArr [])])).
Proof.
  apply (Views.search_empty_query datetime0 world_setup (req_search [])); [vm_compute; reflexivity|].
  exists 10%Z. vm_compute. reflexivity.
Defined.

Lemma search_get_results_witness :
  Views.search_get datetime0 world_setup (req_search [(lit "query", lit "password")]) =
    Ok (Http.mk_response 200 (JObj [(lit "results",
          JArr (Serializers.entry_to_json datetime0 <$>
                take 10 (Views.search_matches (Views.w_kb world_setup) (lit "password"))))])).
Proof.
  pose proof (Views.search_get_results datetime0 world_setup (req_search [(lit "query", lit "password")])
                (lit "password") 10 ltac:(vm_compute; reflexivity) ltac:(vm_compute; discriminate)
                ltac:(vm_compute; reflexivity)) as H.
  destruct (decide (10 < 0)%Z); [lia|exact (proj1 H)].
Defined.

(** " secret " logs alice in: the password was trimmed. *)
Lemma auth_post_strips_witness :
  Views.auth_post float_repr0 authenticate0 token0 token0 req_auth =
    Views.auth_response token0 token0 (Some alice).
Proof.
  rewrite (Views.auth_post_strips float_repr0 authenticate0 token0 token0 req_auth
             [(lit "username", JStr (lit "alice")); (lit "password", JStr (lit " secret "))]
             (lit "alice") (lit " secret "));
    [|reflexivity|vm_compute; reflexivity|vm_compute; reflexivity|vm_compute; discriminate..
     |vm_compute; reflexivity|vm_compute; reflexivity].
  vm_compute. reflexivity.
Defined.

Lemma ask_question_valid_witness :
  exists q, [q_reset] = [q] /\ q <> [] /\ strip q = q /\ length q <= 5000 /\ 0%N ∉ q /\
            Forall (fun c => Http.is_surrogate c = false) q.
Proof.
  apply (Http.ask_question_valid float_repr0 (JObj [(lit "question", JStr (lit "  How do I reset my password? "))])).
  - intros x. vm_compute. discriminate.
  - vm_compute. reflexivity.
Defined.

Lemma ask_post_after_failed_refresh_witness :
  Http.status_code (ask0 world_stop_failed q_reset).2 = 500%Z /\
  exists row, Views.w_logs (ask0 world_stop_failed q_reset).1 !! Views.w_next_log world_stop_failed = Some row /\
    status row = lit "error" /\ error row = Views.exc_str NotFittedError.
Proof.
  apply (Views.ask_post_after_failed_refresh float_repr0 datetime0 world_stop (Some admin) 3
           world_stop_failed (ValueError EMPTY_VOCABULARY) (req_ask q_reset) 0 1 5 [q_reset]);
    [vm_compute; discriminate..|vm_compute; reflexivity|vm_compute; reflexivity].
Defined.

Lemma handle_entries_valid_witness :
  map_Forall (fun _ => Serializers.entry_valid) (Views.w_kb (handle0 world0 ev_create_reset).1).
Proof.
  apply (Views.handle_entries_valid float_repr0 datetime0 authenticate0 token0 token0
           world0 ev_create_reset).
  - intros x. vm_compute. discriminate.
  - apply map_Forall_empty.
Defined.

(** PUT of what a GET of "Password Reset" returned. *)
Lemma kb_put_roundtrip_witness :
  Views.kb_view float_repr0 datetime0 world_setup (Some admin)
    (Views.KbUpdate 1 (Serializers.entry_to_json datetime0 password_reset) false) 4 =
  Views.kb_view float_repr0 datetime0 world_setup (Some admin) (Views.KbUpdate 1 (JObj []) true) 4.
Proof.
  apply Views.kb_put_roundtrip; [reflexivity|vm_compute; reflexivity|by_eval].
Defined.

Lemma world_setup_reachable :
  Views.world_reachable float_repr0 datetime0 authenticate0 token0 token0 world_setup.
Proof.
  apply (Views.world_step float_repr0 datetime0 authenticate0 token0 token0 _ ev_create_2fa).
  apply (Views.world_step float_repr0 datetime0 authenticate0 token0 token0 _ ev_create_reset).
  apply (Views.world_init float_repr0 datetime0 authenticate0 token0 token0 world0 service_test);
    [exact world0_wf|vm_compute; reflexivity|reflexivity].
Qed.

(** After [setUp], whose entries the service does not know, one refresh
    by [admin] makes every question answered. *)
Lemma refresh_recovers_witness :
  exists w', rtc (Views.step float_repr0 datetime0 authenticate0 token0 token0) world_setup w' /\
    forall r t0 t1 now' vals,
      Http.validate_char_fields float_repr0 Http.ASK_FIELDS (Http.req_data r) = inr vals ->
      Http.status_code (Views.ask_post float_repr0 w' r t0 t1 now').2 = 200%Z.
Proof.
  apply (Views.refresh_recovers float_repr0 datetime0 authenticate0 token0 token0
           world_setup admin 3); [exact world_setup_reachable|reflexivity|by_eval].
Defined.

Lemma handle_logs_typed_witness :
  map_Forall (fun _ => Views.log_typed) (Views.w_logs (handle0 world_setup (Views.EvAsk (req_ask q_reset) 0 1 5)).1).
Proof.
  apply (Views.handle_logs_typed float_repr0 datetime0 authenticate0 token0 token0 world_setup
           (Views.EvAsk (req_ask q_reset) 0 1 5)).
  intros k l Hk. vm_compute in Hk. discriminate.
Defined.

(** ** The admin's change list of the fixture *)

(** A phrase in double quotes. *)
Definition quoted (p : pystr) : pystr := SmartSplit.DQ :: p ++ [SmartSplit.DQ].
Definition term_phrase : pystr := lit "reset " ++ quoted (lit "my password").

Lemma kb_changelist_eq : Admin.kb_changelist kb None [] = Ok [two_factor; password_reset].
Proof. vm_compute. reflexivity. Qed.

Lemma kb_changelist_unique_witness :
  [two_factor; password_reset] = [two_factor; password_reset].
Proof.
  apply (Admin.kb_changelist_unique kb None []); [exact kb_wf|exact kb_changelist_eq|done|].
  repeat constructor; unfold Admin.before; simpl; lia.
Defined.

(** The search box: two words are two bits, found anywhere in the row;
    the same words in quotes are one phrase, which no entry holds. *)
Example admin_search_words_phrase :
  Admin.kb_changelist kb None (lit "my reset") = Ok [password_reset] /\
  Admin.kb_changelist kb None (quoted (lit "my reset")) = Ok [].
Proof. split; vm_compute; reflexivity. Qed.

Lemma kb_changelist_search_witness :
  exists cl, Admin.kb_changelist kb (Some true) (lit "password") = Ok cl /\
  forall e, e ∈ cl <->
    e ∈ Views.search_matches kb (lit "password") \/
    ((exists k, kb !! k = Some e) /\ is_active e = true /\
     Views.icontains (source e) (lit "password") = true).
Proof. apply Admin.kb_changelist_search; [discriminate|by_eval]. Defined.

Lemma kb_changelist_phrase_witness :
  exists cl, Admin.kb_changelist kb None (SmartSplit.DQ :: lit "reset my" ++ [SmartSplit.DQ]) = Ok cl /\
  forall e, e ∈ cl <->
    (exists k, kb !! k = Some e) /\ Admin.exact_filter is_active None e /\
    Exists (fun f => Views.icontains (f e) (lit "reset my") = true) Admin.KB_SEARCH_FIELDS.
Proof. apply Admin.kb_changelist_phrase; [reflexivity|by_eval|by_eval]. Defined.

Lemma smart_split_join_witness :
  SmartSplit.smart_split (py_join [32%N] [lit "reset"; lit "password"]) = [lit "reset"; lit "password"].
Proof. apply SmartSplit.smart_split_join. by_eval. Defined.

Lemma kb_changelist_terminates_witness :
  SmartSplit.finditer 30 term_phrase = Some (SmartSplit.smart_split term_phrase) /\
  exists cl, Admin.kb_changelist kb None term_phrase = Ok cl.
Proof. apply Admin.kb_changelist_terminates. by_eval. Defined.

End Scenario.
